(** * Tuiter server: a shallow embedding of the REST controllers and of
    the tuit annotation service, with the properties of its specification.

    The TypeScript sources are embedded as functions in a small
    state-and-rejection monad [Async] over a [World]: the document store
    (five collections) together with the set of store calls that fail.
    Every [await] of the source is a bind of that monad; a rejected
    promise or a thrown [TypeError] is the [Rejected] outcome. *)

From Stdlib Require Import ZArith NArith String List Sorted Permutation HexString.
From stdpp Require Import base list strings.

Local Open Scope string_scope.

(** ** Identifiers

    Mongoose hands out [ObjectId]s for [_id] and for references; route
    parameters ([req.params.uid]) are plain strings.  The source compares
    them after [.toString()]. *)

Inductive ident : Type :=
| ObjectId (hex : string)
| StringId (s : string).

Definition toString (i : ident) : string :=
  match i with
  | ObjectId hex => hex
  | StringId s => s
  end.

(** JavaScript [a.toString() === b.toString()]. *)
Definition same_id (a b : ident) : bool := String.eqb (toString a) (toString b).

(** ** Documents (models/users/User.ts, models/tuits/Tuit.ts) *)

(** [enum Role { General = 'GENERAL', Admin = 'ADMIN' }] *)
Inductive Role : Type := General | Admin.

(** [class User]; [maritalStatus] and [location] have their declarations
    outside the sources at hand and are kept as their serialised text. *)
Record User : Type := mkUser {
  username : string;
  password : string;
  firstName : string;
  lastName : string;
  email : string;
  profilePhoto : option string;
  headerImage : option string;
  maritalStatus : string;
  biography : option string;
  dateOfBirth : option Z;
  joined : Z;
  location : option string;
  role : Role
}.

(** A stored or loaded document: the model's fields under a primary key. *)
Record Doc (A : Type) : Type := mkDoc {
  _id : ident;
  fields : A
}.
Arguments mkDoc {A} _ _.
Arguments _id {A} _.
Arguments fields {A} _.

(** [class Tuit]; [postedBy: User | null].  [U] is what the author
    reference holds: an identifier in the store, the author's document
    once populated. *)
Record Tuit (U : Type) : Type := mkTuit {
  tuit : string;
  postedOn : Z;
  postedBy : option U;
  stats : list (string * Z)
}.
Arguments mkTuit {U} _ _ _ _.
Arguments tuit {U} _.
Arguments postedOn {U} _.
Arguments postedBy {U} _.
Arguments stats {U} _.

(** A tuit as the controllers receive it, author populated. *)
Definition TuitDoc : Type := Doc (Tuit (Doc User)).

(** Modelled from the spec: the Like, Dislike and Bookmark models are not
    among the sources; three structurally identical join records, each
    an identifier, a user reference and a post reference (read as
    [.tuit] by the service). *)
Record JoinRecord : Type := mkJoin {
  jr_id : ident;
  jr_user : ident;
  jr_tuit : ident
}.

(** ** The record store *)

(** Modelled from the spec: the mongoose models and the database are not
    among the sources; the store persists Users, Tuits, Likes, Dislikes
    and Bookmarks.  Collections are lists, in insertion order;
    [next_oid] numbers the identifiers handed out on creation. *)
Record Store : Type := mkStore {
  users : list (Doc User);
  tuits : list (Doc (Tuit ident));
  likes : list JoinRecord;
  dislikes : list JoinRecord;
  bookmarks : list JoinRecord;
  next_oid : N
}.

(** Modelled from the spec: the names of the DAO methods the sources
    call, with their (string-cast) arguments; the DAO classes themselves
    are not among the sources. *)
Inductive Query : Type :=
| Q_findUserLikesTuit (uid tid : string)
| Q_findUserDislikesTuit (uid tid : string)
| Q_findUserBookmarksTuit (uid tid : string)
| Q_userBookmarksTuit (uid tid : string)
| Q_userUnbookmarksTuit (uid tid : string)
| Q_deleteAllTuitsByUser (uid : string)
| Q_deleteAllBookmarksByUser (uid : string)
| Q_deleteAllDislikesByUser (uid : string)
| Q_deleteAllLikesByUser (uid : string)
| Q_deleteUser (uid : string)
| Q_findUserByUsername (name : string)
| Q_findUserById (uid : string)
| Q_createUser (name : string).

(** Modelled from the spec: every store operation may fail with a
    generic store error.  A world is the store and the calls on it that
    fail. *)
Record World : Type := mkWorld {
  store : Store;
  faults : Query -> bool
}.

Definition healthy (w : World) : Prop := forall q, faults w q = false.

(** ** Promises and async functions *)

Inductive error : Type := StoreError | TypeError.

Inductive outcome (A : Type) : Type :=
| Resolved (a : A)
| Rejected (e : error).
Arguments Resolved {A} _.
Arguments Rejected {A} _.

Definition Async (A : Type) : Type := World -> outcome A * World.

Definition ret {A} (a : A) : Async A := fun w => (Resolved a, w).

Definition bind {A B} (m : Async A) (k : A -> Async B) : Async B :=
  fun w =>
    match m w with
    | (Resolved a, w') => k a w'
    | (Rejected e, w') => (Rejected e, w')
    end.

Declare Scope async_scope.
Delimit Scope async_scope with async.
Notation "x <- m ;; k" := (bind m (fun x => k))
  (at level 100, m at next level, right associativity) : async_scope.
Notation "m ;;; k" := (bind m (fun _ => k))
  (at level 100, right associativity) : async_scope.
Local Open Scope async_scope.

(** Calling an async function without [await]: the call runs against the
    store and its settled promise is kept as a value. *)
Definition launch {A} (m : Async A) : Async (outcome A) :=
  fun w => let (r, w') := m w in (Resolved r, w').

(** [await p] *)
Definition await {A} (p : outcome A) : Async A := fun w => (p, w).

(** [Promise.all]: all results in order, or a rejection. *)
Fixpoint Promise_all {A} (ps : list (outcome A)) : outcome (list A) :=
  match ps with
  | [] => Resolved []
  | Resolved a :: ps' =>
      match Promise_all ps' with
      | Resolved l => Resolved (a :: l)
      | Rejected e => Rejected e
      end
  | Rejected e :: _ => Rejected e
  end.

(** [try { m } catch (e) { h }] *)
Definition try_catch {A} (m : Async A) (h : error -> Async A) : Async A :=
  fun w =>
    match m w with
    | (Resolved a, w') => (Resolved a, w')
    | (Rejected e, w') => h e w'
    end.

(** [Array.prototype.map] with a callback that may throw. *)
Fixpoint Array_map {A B} (f : A -> outcome B) (l : list A) : outcome (list B) :=
  match l with
  | [] => Resolved []
  | x :: l' =>
      match f x with
      | Rejected e => Rejected e
      | Resolved y =>
          match Array_map f l' with
          | Resolved ys => Resolved (y :: ys)
          | Rejected e => Rejected e
          end
      end
  end.

(** [Array.prototype.indexOf] on an array of strings with holes
    ([undefined] entries), [-1] when absent. *)
Fixpoint indexOf (l : list (option string)) (s : string) : Z :=
  match l with
  | [] => (-1)%Z
  | x :: l' =>
      match x with
      | Some s' => if String.eqb s' s then 0%Z
                   else let i := indexOf l' s in
                        if (i <? 0)%Z then (-1)%Z else (i + 1)%Z
      | None => let i := indexOf l' s in
                if (i <? 0)%Z then (-1)%Z else (i + 1)%Z
      end
  end.

(** ** Data access objects

    The DAO classes ([LikeDao], [DislikeDao], [BookmarkDao], [TuitDao],
    [UserDao]) are imported by the controllers but are not among the
    sources; each method below follows the record-store interface of the
    specification. *)

(** Modelled from the spec: a lookup of the record store.  It fails when
    the call is faulty and leaves the store as it is. *)
Definition query {A} (q : Query) (read : Store -> A) : Async A :=
  fun w =>
    if faults w q then (Rejected StoreError, w)
    else (Resolved (read (store w)), w).

(** Modelled from the spec: a create or delete of the record store.  It
    fails without effect when the call is faulty. *)
Definition command {A} (q : Query) (write : Store -> A * Store) : Async A :=
  fun w =>
    if faults w q then (Rejected StoreError, w)
    else let (a, s') := write (store w) in
         (Resolved a, mkWorld s' (faults w)).

(** Modelled from the spec: the foreign-key pair of a join record is
    [(uid, tid)], references compared as strings the way the store casts
    them. *)
Definition joins (uid tid : ident) (r : JoinRecord) : bool :=
  same_id (jr_user r) uid && same_id (jr_tuit r) tid.

(** Modelled from the spec: the user reference of a join record is
    [uid]. *)
Definition by_user (uid : ident) (r : JoinRecord) : bool :=
  same_id (jr_user r) uid.

(** Modelled from the spec: the identifier the store gives the next
    created document. *)
Definition fresh_oid (s : Store) : ident := ObjectId (HexString.of_N (next_oid s)).

(** Updates of one collection of the store. *)
Definition set_users (s : Store) (us : list (Doc User)) : Store :=
  mkStore us (tuits s) (likes s) (dislikes s) (bookmarks s) (next_oid s).
Definition set_tuits (s : Store) (ts : list (Doc (Tuit ident))) : Store :=
  mkStore (users s) ts (likes s) (dislikes s) (bookmarks s) (next_oid s).
Definition set_likes (s : Store) (ls : list JoinRecord) : Store :=
  mkStore (users s) (tuits s) ls (dislikes s) (bookmarks s) (next_oid s).
Definition set_dislikes (s : Store) (ds : list JoinRecord) : Store :=
  mkStore (users s) (tuits s) (likes s) ds (bookmarks s) (next_oid s).
Definition set_bookmarks (s : Store) (bs : list JoinRecord) : Store :=
  mkStore (users s) (tuits s) (likes s) (dislikes s) bs (next_oid s).
Definition bump_oid (s : Store) : Store :=
  mkStore (users s) (tuits s) (likes s) (dislikes s) (bookmarks s)
          (N.succ (next_oid s)).

(** Modelled from the spec: the status of a delete, the number of
    documents removed. *)
Definition removed {A} (before after : list A) : N :=
  N.of_nat (length before - length after).

Module LikeDao.
(** Modelled from the spec: [LikeDao.findUserLikesTuit] is not among the
    sources; lookup by the foreign-key pair (userId, postId), a join
    record or an absence marker. *)
Definition findUserLikesTuit (uid tid : ident) : Async (option JoinRecord) :=
  query (Q_findUserLikesTuit (toString uid) (toString tid))
        (fun s => List.find (joins uid tid) (likes s)).

(** Modelled from the spec: [LikeDao.deleteAllLikesByUser] is not among
    the sources; cascading bulk delete by userId. *)
Definition deleteAllLikesByUser (uid : ident) : Async N :=
  command (Q_deleteAllLikesByUser (toString uid))
          (fun s => let kept := List.filter (fun r => negb (by_user uid r)) (likes s) in
                    (removed (likes s) kept, set_likes s kept)).
End LikeDao.

Module DislikeDao.
(** Modelled from the spec: [DislikeDao.findUserDislikesTuit] is not
    among the sources; lookup by the foreign-key pair (userId, postId). *)
Definition findUserDislikesTuit (uid tid : ident) : Async (option JoinRecord) :=
  query (Q_findUserDislikesTuit (toString uid) (toString tid))
        (fun s => List.find (joins uid tid) (dislikes s)).

(** Modelled from the spec: [DislikeDao.deleteAllDislikesByUser] is not
    among the sources; cascading bulk delete by userId. *)
Definition deleteAllDislikesByUser (uid : ident) : Async N :=
  command (Q_deleteAllDislikesByUser (toString uid))
          (fun s => let kept := List.filter (fun r => negb (by_user uid r)) (dislikes s) in
                    (removed (dislikes s) kept, set_dislikes s kept)).
End DislikeDao.

Module BookmarkDao.
(** Modelled from the spec: [BookmarkDao.findUserBookmarksTuit] is not
    among the sources; lookup by the foreign-key pair (userId, postId). *)
Definition findUserBookmarksTuit (uid tid : ident) : Async (option JoinRecord) :=
  query (Q_findUserBookmarksTuit (toString uid) (toString tid))
        (fun s => List.find (joins uid tid) (bookmarks s)).

(** Modelled from the spec: [BookmarkDao.userBookmarksTuit] is not among
    the sources; create(record) for the pair, under a new identifier. *)
Definition userBookmarksTuit (uid tid : ident) : Async JoinRecord :=
  command (Q_userBookmarksTuit (toString uid) (toString tid))
          (fun s => let r := mkJoin (fresh_oid s) uid tid in
                    (r, bump_oid (set_bookmarks s (bookmarks s ++ [r])))).

(** Modelled from the spec: [BookmarkDao.userUnbookmarksTuit] is not
    among the sources; delete by the key (userId, postId), after which
    the pair is absent. *)
Definition userUnbookmarksTuit (uid tid : ident) : Async N :=
  command (Q_userUnbookmarksTuit (toString uid) (toString tid))
          (fun s => let kept := List.filter (fun r => negb (joins uid tid r)) (bookmarks s) in
                    (removed (bookmarks s) kept, set_bookmarks s kept)).

(** Modelled from the spec: [BookmarkDao.deleteAllBookmarksByUser] is not
    among the sources; cascading bulk delete by userId. *)
Definition deleteAllBookmarksByUser (uid : ident) : Async N :=
  command (Q_deleteAllBookmarksByUser (toString uid))
          (fun s => let kept := List.filter (fun r => negb (by_user uid r)) (bookmarks s) in
                    (removed (bookmarks s) kept, set_bookmarks s kept)).
End BookmarkDao.

Module TuitDao.
(** Modelled from the spec: the owning-user reference of a stored tuit is
    [uid]. *)
Definition authored_by (uid : ident) (t : Doc (Tuit ident)) : bool :=
  match postedBy (fields t) with
  | Some a => same_id a uid
  | None => false
  end.

(** Modelled from the spec: [TuitDao.deleteAllTuitsByUser] is not among
    the sources; cascading bulk delete by userId. *)
Definition deleteAllTuitsByUser (uid : ident) : Async N :=
  command (Q_deleteAllTuitsByUser (toString uid))
          (fun s => let kept := List.filter (fun t => negb (authored_by uid t)) (tuits s) in
                    (removed (tuits s) kept, set_tuits s kept)).
End TuitDao.

Module UserDao.
(** Modelled from the spec: [UserDao.findUserByUsername] is not among
    the sources; point lookup, users being unique by username. *)
Definition findUserByUsername (name : string) : Async (option (Doc User)) :=
  query (Q_findUserByUsername name)
        (fun s => List.find (fun u => String.eqb (username (fields u)) name) (users s)).

(** Modelled from the spec: [UserDao.findUserById] is not among the
    sources; point lookup by identifier. *)
Definition findUserById (uid : ident) : Async (option (Doc User)) :=
  query (Q_findUserById (toString uid))
        (fun s => List.find (fun u => same_id (_id u) uid) (users s)).

(** Modelled from the spec: [UserDao.createUser] is not among the
    sources; create(record), resolving to the inserted document. *)
Definition createUser (u : User) : Async (Doc User) :=
  command (Q_createUser (username u))
          (fun s => let d := mkDoc (fresh_oid s) u in
                    (d, bump_oid (set_users s (users s ++ [d])))).

(** Modelled from the spec: [UserDao.deleteUser] is not among the
    sources; delete by identifier, resolving to the deletion status. *)
Definition deleteUser (uid : ident) : Async N :=
  command (Q_deleteUser (toString uid))
          (fun s => let kept := List.filter (fun u => negb (same_id (_id u) uid)) (users s) in
                    (removed (users s) kept, set_users s kept)).
End UserDao.

(** ** services/TuitService.ts *)

(** A decorated tuit: the plain copy [t.toObject()] and the keys the
    service spreads onto it.  A key is either absent ([None]) or
    [true]. *)
Record DecoratedTuit : Type := mkDecorated {
  snapshot : TuitDoc;
  likedByMe : option bool;
  dislikedByMe : option bool;
  bookmarkedByMe : option bool;
  ownedByMe : option bool
}.

Module TuitService.

(** [t.toObject()] *)
Definition toObject (t : TuitDoc) : DecoratedTuit :=
  mkDecorated t None None None None.

(** [{...copyT, likedByMe: true}] and its three siblings. *)
Definition spread_likedByMe (c : DecoratedTuit) : DecoratedTuit :=
  mkDecorated (snapshot c) (Some true) (dislikedByMe c) (bookmarkedByMe c) (ownedByMe c).
Definition spread_dislikedByMe (c : DecoratedTuit) : DecoratedTuit :=
  mkDecorated (snapshot c) (likedByMe c) (Some true) (bookmarkedByMe c) (ownedByMe c).
Definition spread_bookmarkedByMe (c : DecoratedTuit) : DecoratedTuit :=
  mkDecorated (snapshot c) (likedByMe c) (dislikedByMe c) (Some true) (ownedByMe c).
Definition spread_ownedByMe (c : DecoratedTuit) : DecoratedTuit :=
  mkDecorated (snapshot c) (likedByMe c) (dislikedByMe c) (bookmarkedByMe c) (Some true).

(** The three arrays of pending lookups filled by [tuits.forEach]. *)
Record Pending : Type := mkPending {
  findLikesPromises : list (outcome (option JoinRecord));
  findDislikesPromises : list (outcome (option JoinRecord));
  findBookmarksPromises : list (outcome (option JoinRecord))
}.

(** [tuits.forEach((t) => { ... push ... })] *)
Fixpoint forEach_launch (userId : ident) (ts : list TuitDoc) (acc : Pending)
  : Async Pending :=
  match ts with
  | [] => ret acc
  | t :: ts' =>
      findLikePromise <- launch (LikeDao.findUserLikesTuit userId (_id t)) ;;
      findDislikePromise <- launch (DislikeDao.findUserDislikesTuit userId (_id t)) ;;
      findBookmarkPromise <- launch (BookmarkDao.findUserBookmarksTuit userId (_id t)) ;;
      forEach_launch userId ts'
        (mkPending (findLikesPromises acc ++ [findLikePromise])
                   (findDislikesPromises acc ++ [findDislikePromise])
                   (findBookmarksPromises acc ++ [findBookmarkPromise]))
  end.

(** [(l) => { if (l) { return l.tuit.toString(); } }] *)
Definition tuit_id_of (l : option JoinRecord) : option string :=
  match l with
  | Some r => Some (toString (jr_tuit r))
  | None => None
  end.

(** The callback of [tuits.map]; [copyT.postedBy._id] throws on a
    [null] author. *)
Definition decorate (userId : ident)
           (likedTuitsIds dislikedTuitsIds bookmarkedTuitsIds : list (option string))
           (t : TuitDoc) : outcome DecoratedTuit :=
  let copyT := toObject t in
  let copyT := if (indexOf likedTuitsIds (toString (_id t)) >=? 0)%Z
               then spread_likedByMe copyT else copyT in
  let copyT := if (indexOf dislikedTuitsIds (toString (_id t)) >=? 0)%Z
               then spread_dislikedByMe copyT else copyT in
  let copyT := if (indexOf bookmarkedTuitsIds (toString (_id t)) >=? 0)%Z
               then spread_bookmarkedByMe copyT else copyT in
  match postedBy (fields (snapshot copyT)) with
  | None => Rejected TypeError
  | Some author =>
      if String.eqb (toString (_id author)) (toString userId)
      then Resolved (spread_ownedByMe copyT)
      else Resolved copyT
  end.

Definition fetchTuitsForLikesDisLikeOwn (userId : ident) (ts : list TuitDoc)
  : Async (list DecoratedTuit) :=
  pending <- forEach_launch userId ts (mkPending [] [] []) ;;
  likedTuits <- await (Promise_all (findLikesPromises pending)) ;;
  dislikedTuits <- await (Promise_all (findDislikesPromises pending)) ;;
  bookmarkedTuits <- await (Promise_all (findBookmarksPromises pending)) ;;
  let likedTuitsIds := List.map tuit_id_of likedTuits in
  let dislikedTuitsIds := List.map tuit_id_of dislikedTuits in
  let bookmarkedTuitsIds := List.map tuit_id_of bookmarkedTuits in
  fetchTuits <- await (Array_map
                         (decorate userId likedTuitsIds dislikedTuitsIds bookmarkedTuitsIds)
                         ts) ;;
  ret fetchTuits.

End TuitService.

(** ** Requests and responses *)

(** What the handlers read of a request: route parameters, the JSON body
    and the profile kept in the session. *)
Record Request : Type := mkRequest {
  params_uid : string;
  params_tid : string;
  params_username : string;
  body : User;
  session_profile : option (Doc User)
}.

(** [res.sendStatus(code)] and [res.json(value)]. *)
Inductive Response : Type :=
| sendStatus (code : Z)
| json_user (u : Doc User)
| json_users (us : list (Doc User))
| json_status (deletedCount : N).

(** The [bcrypt] package: [hash(password, saltRounds)] and
    [compare(password, hash)]. *)
Class Bcrypt : Type := {
  bcrypt_hash : string -> Z -> string;
  bcrypt_compare : string -> string -> bool
}.

Definition saltRounds : Z := 10.

(** [user.password = p] on a loaded document. *)
Definition set_password (p : string) (d : Doc User) : Doc User :=
  let u := fields d in
  mkDoc (_id d)
        (mkUser (username u) p (firstName u) (lastName u) (email u)
                (profilePhoto u) (headerImage u) (maritalStatus u) (biography u)
                (dateOfBirth u) (joined u) (location u) (role u)).

(** [newUser.password = p] on a request body. *)
Definition with_password (p : string) (u : User) : User :=
  mkUser (username u) p (firstName u) (lastName u) (email u)
         (profilePhoto u) (headerImage u) (maritalStatus u) (biography u)
         (dateOfBirth u) (joined u) (location u) (role u).

(** ** [Array.prototype.sort]

    The engine's sort is outside the sources.  It is taken as the
    insertion sort engines run on short arrays: every element in turn
    is placed in the sorted prefix before the first element the
    comparator orders it below (a negative result). *)
Fixpoint insert_by {A} (comparefn : A -> A -> Z) (pivot : A) (sorted : list A) : list A :=
  match sorted with
  | [] => [pivot]
  | x :: rest =>
      if (comparefn pivot x <? 0)%Z then pivot :: x :: rest
      else x :: insert_by comparefn pivot rest
  end.

Definition Array_sort {A} (comparefn : A -> A -> Z) (l : list A) : list A :=
  fold_left (fun sorted pivot => insert_by comparefn pivot sorted) l [].

(** JavaScript [a > b] on strings: lexicographic on the code units. *)
Definition js_gt (a b : string) : bool :=
  match String.compare a b with
  | Gt => true
  | _ => false
  end.

(** [a <= b] on usernames. *)
Definition username_le (a b : Doc User) : Prop :=
  String.compare (username (fields a)) (username (fields b)) <> Gt.

(** ** controllers/BookmarkController.ts *)

Module BookmarkController.

(** [uid === 'me' && profile ? profile._id : uid] *)
Definition userId_of (req : Request) : ident :=
  match String.eqb (params_uid req) "me", session_profile req with
  | true, Some profile => _id profile
  | _, _ => StringId (params_uid req)
  end.

Definition userTogglesTuitBookmarks (req : Request) : Async Response :=
  let tid := StringId (params_tid req) in
  let userId := userId_of req in
  try_catch
    (userAlreadyBookmarkedTuit <- BookmarkDao.findUserBookmarksTuit userId tid ;;
     match userAlreadyBookmarkedTuit with
     | Some _ => BookmarkDao.userUnbookmarksTuit userId tid ;;; ret tt
     | None => BookmarkDao.userBookmarksTuit userId tid ;;; ret tt
     end ;;;
     ret (sendStatus 200))
    (fun e => ret (sendStatus 404)).

End BookmarkController.

(** ** controllers/UserController.ts *)

Module UserController.

(** [(a: User, b: User) => a.username > b.username ? 1 : -1] *)
Definition by_username (a b : Doc User) : Z :=
  if js_gt (username (fields a)) (username (fields b)) then 1%Z else (-1)%Z.

(** [searchByUsername]: [userDao.searchByUsername] is outside the
    sources and is a parameter; the handler sorts whatever list it
    resolves to. *)
Definition searchByUsername
           (dao_searchByUsername : string -> Async (list (Doc User)))
           (req : Request) : Async Response :=
  users <- dao_searchByUsername (params_username req) ;;
  let sortedUsers := Array_sort by_username users in
  ret (json_users sortedUsers).

Definition adminCreateUser `{Bcrypt} (req : Request) : Async Response :=
  let newUser := body req in
  let password := password newUser in
  let newUser := with_password (bcrypt_hash password saltRounds) newUser in
  existingUser <- UserDao.findUserByUsername (username newUser) ;;
  match existingUser with
  | Some _ => ret (sendStatus 403)
  | None =>
      user <- UserDao.createUser newUser ;;
      ret (json_user user)
  end.

Definition adminDeleteUser (req : Request) : Async Response :=
  let uid := StringId (params_uid req) in
  TuitDao.deleteAllTuitsByUser uid ;;;
  BookmarkDao.deleteAllBookmarksByUser uid ;;;
  DislikeDao.deleteAllDislikesByUser uid ;;;
  LikeDao.deleteAllLikesByUser uid ;;;
  status <- UserDao.deleteUser uid ;;
  ret (json_status status).

Definition register (req : Request) : Async Response :=
  let username := username (body req) in
  user <- UserDao.findUserByUsername username ;;
  match user with
  | Some _ => ret (sendStatus 403)
  | None =>
      newUser <- UserDao.createUser (body req) ;;
      ret (json_user newUser)
  end.

End UserController.

(** ** controllers/AuthenticationController.ts

    The handlers also write the session: they return the response
    together with the profile the session holds afterwards. *)

Module AuthenticationController.

Definition login `{Bcrypt} (req : Request)
  : Async (Response * option (Doc User)) :=
  let user := body req in
  let username := username user in
  let password_ := password user in
  existingUser <- UserDao.findUserByUsername username ;;
  match existingUser with
  | Some existingUser =>
      let match_ := bcrypt_compare password_ (password (fields existingUser)) in
      if match_ then
        let existingUser := set_password "*****" existingUser in
        ret (json_user existingUser, Some existingUser)
      else ret (sendStatus 403, session_profile req)
  | None => ret (sendStatus 403, session_profile req)
  end.

Definition signup `{Bcrypt} (req : Request)
  : Async (Response * option (Doc User)) :=
  let newUser := body req in
  let password := password newUser in
  let newUser := with_password (bcrypt_hash password saltRounds) newUser in
  existingUser <- UserDao.findUserByUsername (username newUser) ;;
  match existingUser with
  | Some _ => ret (sendStatus 403, session_profile req)
  | None =>
      insertedUser <- UserDao.createUser newUser ;;
      let insertedUser := set_password "*****" insertedUser in
      ret (json_user insertedUser, Some insertedUser)
  end.

Definition profile (req : Request)
  : Async (Response * option (Doc User)) :=
  match session_profile req with
  | Some profile =>
      existingUser <- UserDao.findUserById (_id profile) ;;
      match existingUser with
      | Some existingUser =>
          let existingUser := set_password "*****" existingUser in
          ret (json_user existingUser, session_profile req)
      | None => ret (sendStatus 403, session_profile req)
      end
  | None => ret (sendStatus 403, session_profile req)
  end.

(** [delete] *)
Definition delete_ (req : Request)
  : Async (Response * option (Doc User)) :=
  match session_profile req with
  | Some profile =>
      let uid := _id profile in
      TuitDao.deleteAllTuitsByUser uid ;;;
      BookmarkDao.deleteAllBookmarksByUser uid ;;;
      DislikeDao.deleteAllDislikesByUser uid ;;;
      LikeDao.deleteAllLikesByUser uid ;;;
      status <- UserDao.deleteUser uid ;;
      ret (json_status status, None)
  | None => ret (sendStatus 403, session_profile req)
  end.

End AuthenticationController.

(** ** Vocabulary of the properties *)

(** A join record for the pair [(uid, tid)] is in the collection. *)
Definition has_join (rs : list JoinRecord) (uid tid : ident) : Prop :=
  exists r, In r rs /\
            toString (jr_user r) = toString uid /\
            toString (jr_tuit r) = toString tid.

(** A key of a decorated tuit is [true] exactly when [P] holds and is
    absent otherwise. *)
Definition flag_is (flag : option bool) (P : Prop) : Prop :=
  (flag = Some true <-> P) /\ (flag = None <-> ~ P).

(** The tuit has an author, whose identifier is the viewer's. *)
Definition owned_by (viewer : ident) (p : TuitDoc) : Prop :=
  exists author, postedBy (fields p) = Some author /\
                 toString (_id author) = toString viewer.

Definition authored (p : TuitDoc) : Prop := postedBy (fields p) <> None.

(** The three lookups the service issues for a post. *)
Definition like_query (viewer : ident) (p : TuitDoc) : Query :=
  Q_findUserLikesTuit (toString viewer) (toString (_id p)).
Definition dislike_query (viewer : ident) (p : TuitDoc) : Query :=
  Q_findUserDislikesTuit (toString viewer) (toString (_id p)).
Definition bookmark_query (viewer : ident) (p : TuitDoc) : Query :=
  Q_findUserBookmarksTuit (toString viewer) (toString (_id p)).

Definition lookups_succeed (w : World) (viewer : ident) (posts : list TuitDoc) : Prop :=
  forall p, In p posts ->
            faults w (like_query viewer p) = false /\
            faults w (dislike_query viewer p) = false /\
            faults w (bookmark_query viewer p) = false.

(** The settled promise of one lookup against a collection. *)
Definition settled (w : World) (q : Query) (rs : list JoinRecord) (uid tid : ident)
  : outcome (option JoinRecord) :=
  if faults w q then Rejected StoreError
  else Resolved (List.find (joins uid tid) rs).

(** The identifiers the service collects from the lookups of one
    relation over the posts. *)
Definition collected (viewer : ident) (rs : list JoinRecord) (posts : list TuitDoc)
  : list (option string) :=
  List.map TuitService.tuit_id_of
           (List.map (fun t => List.find (joins viewer (_id t)) rs) posts).

(** The pair [(uid, tid)] is bookmarked in the store. *)
Definition bookmarked (s : Store) (uid tid : ident) : bool :=
  existsb (joins uid tid) (bookmarks s).

(** Nothing in the store refers to the user any more: no tuit posted by
    them, no like, dislike or bookmark of theirs. *)
Definition no_trace_of (uid : ident) (s : Store) : Prop :=
  (forall t, In t (tuits s) -> TuitDao.authored_by uid t = false) /\
  (forall r, In r (likes s) -> by_user uid r = false) /\
  (forall r, In r (dislikes s) -> by_user uid r = false) /\
  (forall r, In r (bookmarks s) -> by_user uid r = false).

(** The store once everything of a user and the user are removed. *)
Definition purged (uid : ident) (s : Store) : Store :=
  mkStore (List.filter (fun u => negb (same_id (_id u) uid)) (users s))
          (List.filter (fun t => negb (TuitDao.authored_by uid t)) (tuits s))
          (List.filter (fun r => negb (by_user uid r)) (likes s))
          (List.filter (fun r => negb (by_user uid r)) (dislikes s))
          (List.filter (fun r => negb (by_user uid r)) (bookmarks s))
          (next_oid s).

(** A user of that name is in the store. *)
Definition username_taken (s : Store) (name : string) : bool :=
  existsb (fun u => String.eqb (username (fields u)) name) (users s).

(** The store after a user document is inserted. *)
Definition with_user (s : Store) (d : Doc User) : Store :=
  bump_oid (set_users s (users s ++ [d])).

(** ** Sample data *)

Module Sample.

Definition user (name hash : string) : User :=
  mkUser name hash "" "" (name ++ "@tuiter.example") None None "SINGLE"
         None None 0%Z None General.

Definition alice : Doc User := mkDoc (ObjectId "a1") (user "alice" "$2b$10$alice").
Definition bob : Doc User := mkDoc (ObjectId "b2") (user "bob" "$2b$10$bob").

Definition post (id text : string) (author : option (Doc User)) : TuitDoc :=
  mkDoc (ObjectId id) (mkTuit text 0%Z author []).

Definition row (p : TuitDoc) : Doc (Tuit ident) :=
  mkDoc (_id p)
        (mkTuit (tuit (fields p)) (postedOn (fields p))
                (option_map _id (postedBy (fields p))) (stats (fields p))).

Definition p1 : TuitDoc := post "01" "first" (Some bob).
Definition p2 : TuitDoc := post "02" "second" (Some bob).
Definition p3 : TuitDoc := post "03" "third" (Some alice).
(** A tuit whose author was removed: [postedBy] populates to [null]. *)
Definition orphan : TuitDoc := post "04" "left behind" None.

(** Alice likes [p1] and bookmarks [p2]; [p3] is hers. *)
Definition db : Store :=
  mkStore [alice; bob]
          [row p1; row p2; row p3; row orphan]
          [mkJoin (ObjectId "c1") (ObjectId "a1") (ObjectId "01")]
          [mkJoin (ObjectId "d1") (ObjectId "b2") (ObjectId "03")]
          [mkJoin (ObjectId "e1") (ObjectId "a1") (ObjectId "02")]
          16.

Definition up : World := mkWorld db (fun _ => false).

(** Only the Dislike lookup of alice for [p2] fails. *)
Definition dislike_down : World :=
  mkWorld db (fun q => match q with
                       | Q_findUserDislikesTuit uid tid =>
                           String.eqb uid "a1" && String.eqb tid "02"
                       | _ => false
                       end).

(** A stand-in for [bcrypt]: the hash is the password behind a tag. *)
Definition tagged : Bcrypt :=
  {| bcrypt_hash := fun pw _ => "$2b$10$" ++ pw;
     bcrypt_compare := fun pw h => String.eqb ("$2b$10$" ++ pw) h |}.

(** A user search answering with every user whose name starts with the
    searched text. *)
Definition search (name : string) : Async (list (Doc User)) :=
  fun w => (Resolved (List.filter (fun u => String.prefix name (username (fields u)))
                                  (users (store w))), w).

Definition carol : Doc User := mkDoc (ObjectId "c3") (user "carol" "$2b$10$carol").
Definition al : Doc User := mkDoc (ObjectId "d4") (user "al" "$2b$10$al").

(** The users out of order, one name twice. *)
Definition crowd : World :=
  mkWorld (mkStore [carol; alice; bob; al; alice] [] [] [] [] 32) (fun _ => false).

Definition request (uid tid name : string) (b : User) (profile : option (Doc User))
  : Request :=
  mkRequest uid tid name b profile.

End Sample.

(** ** Further handlers of the controllers

    The handlers of the controller files that the modules above leave
    out, with what they need. *)

(** [throw e]: the async function rejects. *)
Definition throw {A} (e : error) : Async A := fun w => (Rejected e, w).

(** What a handler still runs once [res.json] has been called: the
    response is out, so the outcome of the rest no longer reaches the
    client; its effects on the store stay. *)
Definition after_response {A} (sent : Response) (rest : Async A) : Async Response :=
  fun w => let (_, w') := rest w in (Resolved sent, w').

(** JavaScript truthiness of a string, [if (s)]: the empty string is
    falsy. *)
Definition truthy (s : string) : bool := negb (String.eqb s "").

(** Modelled from the spec: the Bookmark model is not among the sources;
    a join record as the bookmark listing receives it, the post
    reference populated or [null] ([bookmark.tuit]). *)
Record Bookmark : Type := mkBookmark {
  bookmark_id : ident;
  bookmarkedBy : ident;
  bookmark_tuit : option TuitDoc
}.

(** The responses of the bookmark listing: [res.sendStatus(code)] and
    [res.json(fetchTuits)]. *)
Inductive TuitsResponse : Type :=
| tuits_sendStatus (code : Z)
| tuits_json (fetchTuits : list DecoratedTuit).

(** The request with another session. *)
Definition with_session (req : Request) (profile : option (Doc User)) : Request :=
  mkRequest (params_uid req) (params_tid req) (params_username req) (body req) profile.

Module BookmarkController_rest.

(** [userId === 'me']: an [ObjectId] is never the string. *)
Definition is_me (userId : ident) : bool :=
  match userId with
  | StringId s => String.eqb s "me"
  | ObjectId _ => false
  end.

(** [bookmark => bookmark.tuit] as the filter reads it. *)
Definition has_tuit (bookmark : Bookmark) : bool :=
  match bookmark_tuit bookmark with
  | Some _ => true
  | None => false
  end.

(** [bookmarksNonNullTuits.map(bookmark => bookmark.tuit)]: one tuit per
    bookmark, every bookmark left by the filter having one. *)
Definition tuits_of (bookmarksNonNullTuits : list Bookmark) : list TuitDoc :=
  flat_map (fun bookmark => match bookmark_tuit bookmark with
                            | Some t => [t]
                            | None => []
                            end) bookmarksNonNullTuits.

(** [findAllTuitsBookmarkedByUser] of controllers/BookmarkController.ts.
    The DAO method is outside the sources and is a parameter.  The
    [try] encloses only the creation of the promise chain, so a
    rejection inside the chain is not caught by its [catch]. *)
Definition findAllTuitsBookmarkedByUser
           (dao_findAllTuitsBookmarkedByUser : ident -> Async (list Bookmark))
           (req : Request) : Async TuitsResponse :=
  let userId := BookmarkController.userId_of req in
  if is_me userId then ret (tuits_sendStatus 403)
  else
    bookmarks <- dao_findAllTuitsBookmarkedByUser userId ;;
    let bookmarksNonNullTuits := List.filter has_tuit bookmarks in
    let tuitsFromBookmarks := tuits_of bookmarksNonNullTuits in
    fetchTuits <- TuitService.fetchTuitsForLikesDisLikeOwn userId tuitsFromBookmarks ;;
    ret (tuits_json fetchTuits).

(** The toggle as its first [await] cuts it.  Up to the [await]: the
    lookup is issued. *)
Definition toggle_lookup (req : Request) : Async (option JoinRecord) :=
  BookmarkDao.findUserBookmarksTuit (BookmarkController.userId_of req)
                                    (StringId (params_tid req)).

(** From the settled lookup on: the delete or the create, the response,
    the [catch]. *)
Definition toggle_finish (req : Request) (looked : outcome (option JoinRecord))
  : Async Response :=
  let tid := StringId (params_tid req) in
  let userId := BookmarkController.userId_of req in
  try_catch
    (userAlreadyBookmarkedTuit <- await looked ;;
     match userAlreadyBookmarkedTuit with
     | Some _ => BookmarkDao.userUnbookmarksTuit userId tid ;;; ret tt
     | None => BookmarkDao.userBookmarksTuit userId tid ;;; ret tt
     end ;;;
     ret (sendStatus 200))
    (fun e => ret (sendStatus 404)).

(** Two toggle requests served by the event loop with the lookup of the
    second issued while the first is suspended at its [await]: both
    lookups, then the rest of the first, then the rest of the second. *)
Definition toggles_interleaved (req1 req2 : Request) : Async (Response * Response) :=
  looked1 <- launch (toggle_lookup req1) ;;
  looked2 <- launch (toggle_lookup req2) ;;
  res1 <- toggle_finish req1 looked1 ;;
  res2 <- toggle_finish req2 looked2 ;;
  ret (res1, res2).

End BookmarkController_rest.

Module UserController_rest.

(** [updateUser]; [userDao.updateUser] is outside the sources and is a
    parameter.  [existingUser.username] throws when no user has the
    identifier.  After the response the handler reads the user again and
    masks the password of that copy. *)
Definition updateUser `{Bcrypt}
           (dao_updateUser : ident -> User -> Async N)
           (req : Request) : Async Response :=
  let userInfo := body req in
  let uid := StringId (params_uid req) in
  existingUser <- UserDao.findUserById uid ;;
  checkUser <- UserDao.findUserByUsername (username userInfo) ;;
  match existingUser with
  | None => throw TypeError
  | Some existingUser =>
      if String.eqb (username (fields existingUser)) (username userInfo)
         || match checkUser with Some _ => false | None => true end
      then
        let userInfo :=
          if truthy (password userInfo)
          then with_password (bcrypt_hash (password userInfo) saltRounds) userInfo
          else userInfo in
        status <- dao_updateUser uid userInfo ;;
        after_response (json_status status)
          (updatedUser <- UserDao.findUserById uid ;;
           match updatedUser with
           | None => throw TypeError
           | Some updatedUser => ret (set_password "*****" updatedUser)
           end)
      else ret (sendStatus 403)
  end.

End UserController_rest.

Module AuthenticationController_rest.

(** [logout]: [req.session.destroy(); res.sendStatus(200)]. *)
Definition logout (req : Request) : Async (Response * option (Doc User)) :=
  ret (sendStatus 200, None).

(** [signup] as the [await] of its lookup cuts it.  Up to that [await]:
    the password is hashed and the lookup issued. *)
Definition signup_lookup `{Bcrypt} (req : Request) : Async (option (Doc User)) :=
  let newUser := body req in
  let password := password newUser in
  let newUser := with_password (bcrypt_hash password saltRounds) newUser in
  UserDao.findUserByUsername (username newUser).

(** From the settled lookup on: the 403, or the creation and the
    response. *)
Definition signup_finish `{Bcrypt} (req : Request) (looked : outcome (option (Doc User)))
  : Async (Response * option (Doc User)) :=
  let newUser := body req in
  let password := password newUser in
  let newUser := with_password (bcrypt_hash password saltRounds) newUser in
  existingUser <- await looked ;;
  match existingUser with
  | Some _ => ret (sendStatus 403, session_profile req)
  | None =>
      insertedUser <- UserDao.createUser newUser ;;
      let insertedUser := set_password "*****" insertedUser in
      ret (json_user insertedUser, Some insertedUser)
  end.

(** Two signup requests with the lookup of the second issued while the
    first is suspended at the [await] of its own lookup.  Each request
    ends on its own: the outcome of one does not stop the other. *)
Definition signups_interleaved `{Bcrypt} (req1 req2 : Request)
  : Async (outcome (Response * option (Doc User)) *
           outcome (Response * option (Doc User))) :=
  looked1 <- launch (signup_lookup req1) ;;
  looked2 <- launch (signup_lookup req2) ;;
  res1 <- launch (signup_finish req1 looked1) ;;
  res2 <- launch (signup_finish req2 looked2) ;;
  ret (res1, res2).

End AuthenticationController_rest.

(** ** Further vocabulary *)

(** No two stored users have the same username. *)
Definition unique_usernames (s : Store) : Prop :=
  NoDup (List.map (fun u => username (fields u)) (users s)).

(** No two stored users have the same identifier. *)
Definition unique_ids (s : Store) : Prop :=
  NoDup (List.map (fun u => toString (_id u)) (users s)).

(** The foreign-key pair of a join record, as strings. *)
Definition pair_of (r : JoinRecord) : string * string :=
  (toString (jr_user r), toString (jr_tuit r)).

(** At most one record per (user, tuit) pair. *)
Definition one_per_pair (rs : list JoinRecord) : Prop :=
  NoDup (List.map pair_of rs).

(** The response and the world of a handler run. *)
Definition response_of {A} (r : outcome A * World) : outcome A := fst r.
Definition world_of {A} (r : outcome A * World) : World := snd r.

(** What a deletion of [uid] leaves of a store: in every collection,
    exactly the documents that do not refer to [uid]. *)
Definition others_kept (uid : ident) (before after : Store) : Prop :=
  (forall u, In u (users after) <-> In u (users before) /\ same_id (_id u) uid = false) /\
  (forall t, In t (tuits after) <->
             In t (tuits before) /\ TuitDao.authored_by uid t = false) /\
  (forall r, In r (likes after) <-> In r (likes before) /\ by_user uid r = false) /\
  (forall r, In r (dislikes after) <-> In r (dislikes before) /\ by_user uid r = false) /\
  (forall r, In r (bookmarks after) <-> In r (bookmarks before) /\ by_user uid r = false).

Module Sample_rest.

(** A store whose every call fails. *)
Definition down : World := mkWorld Sample.db (fun _ => true).

(** Only the last step of a deletion, the user delete, fails. *)
Definition user_delete_down : World :=
  mkWorld Sample.db (fun q => match q with
                              | Q_deleteUser _ => true
                              | _ => false
                              end).

(** An update DAO: the fields of the documents of that identifier are
    replaced, the status is the number of documents matched. *)
Definition update (uid : ident) (u : User) : Async N :=
  fun w =>
    (Resolved (N.of_nat (length (List.filter (fun d => same_id (_id d) uid)
                                             (users (store w))))),
     mkWorld (set_users (store w)
                (List.map (fun d => if same_id (_id d) uid then mkDoc (_id d) u else d)
                          (users (store w))))
             (faults w)).

(** A bookmark listing DAO: the bookmarks of the user, each with its tuit
    populated from the given loaded tuits, [null] when none of them has
    the identifier. *)
Definition listing (loaded : list TuitDoc) (uid : ident) : Async (list Bookmark) :=
  fun w =>
    (Resolved (List.map (fun r => mkBookmark (jr_id r) (jr_user r)
                                    (List.find (fun t => same_id (_id t) (jr_tuit r)) loaded))
                        (List.filter (by_user uid) (bookmarks (store w)))),
     w).

(** Alice bookmarks [p2], [p1] and a tuit that is gone. *)
Definition shelf : World :=
  mkWorld (mkStore [Sample.alice; Sample.bob]
                   [Sample.row Sample.p1; Sample.row Sample.p2]
                   []
                   []
                   [mkJoin (ObjectId "e1") (ObjectId "a1") (ObjectId "02");
                    mkJoin (ObjectId "e2") (ObjectId "a1") (ObjectId "09");
                    mkJoin (ObjectId "e3") (ObjectId "a1") (ObjectId "01")]
                   16)
          (fun _ => false).

End Sample_rest.

(** ** The annotation service *)

Section Annotate.

Variable w : World.
Variable viewer : ident.

Lemma same_id_eq (a b : ident) : same_id a b = true <-> toString a = toString b.
Proof. unfold same_id. apply String.eqb_eq. Qed.

Lemma joins_spec (uid tid : ident) (r : JoinRecord) :
  joins uid tid r = true <->
  toString (jr_user r) = toString uid /\ toString (jr_tuit r) = toString tid.
Proof.
  unfold joins. rewrite Bool.andb_true_iff, !same_id_eq. reflexivity.
Qed.

Lemma find_joins_Some (rs : list JoinRecord) (uid tid : ident) :
  has_join rs uid tid <-> exists r, List.find (joins uid tid) rs = Some r.
Proof.
  split.
  - intros (r & Hin & Hu & Ht).
    destruct (List.find (joins uid tid) rs) as [r'|] eqn:E; [eauto|].
    apply (find_none _ _ E) in Hin.
    assert (joins uid tid r = true) by (apply joins_spec; auto).
    congruence.
  - intros [r E]. apply find_some in E as [Hin Hj].
    apply joins_spec in Hj. exists r. tauto.
Qed.

Lemma find_joins_tuit (rs : list JoinRecord) (uid tid : ident) (r : JoinRecord) :
  List.find (joins uid tid) rs = Some r -> toString (jr_tuit r) = toString tid.
Proof.
  intros E. apply find_some in E as [_ Hj]. apply joins_spec in Hj. tauto.
Qed.

Lemma bind_launch_query {A B} (q : Query) (read : Store -> A)
      (k : outcome A -> Async B) :
  bind (launch (query q read)) k w =
  k (if faults w q then Rejected StoreError else Resolved (read (store w))) w.
Proof. unfold bind, launch, query. destruct (faults w q); reflexivity. Qed.

(** The lookups are reads: launching them leaves the world as it is and
    fills the three arrays with the settled promises, in order. *)
Lemma forEach_launch_settled (ts : list TuitDoc) :
  forall acc,
    TuitService.forEach_launch viewer ts acc w =
    (Resolved
       (TuitService.mkPending
          (TuitService.findLikesPromises acc ++
             List.map (fun t => settled w (like_query viewer t) (likes (store w)) viewer (_id t)) ts)
          (TuitService.findDislikesPromises acc ++
             List.map (fun t => settled w (dislike_query viewer t) (dislikes (store w)) viewer (_id t)) ts)
          (TuitService.findBookmarksPromises acc ++
             List.map (fun t => settled w (bookmark_query viewer t) (bookmarks (store w)) viewer (_id t)) ts)),
     w).
Proof.
  induction ts as [|t ts' IH]; intros acc.
  - simpl. unfold ret. rewrite !app_nil_r. destruct acc; reflexivity.
  - cbn [TuitService.forEach_launch].
    unfold LikeDao.findUserLikesTuit, DislikeDao.findUserDislikesTuit,
      BookmarkDao.findUserBookmarksTuit.
    rewrite !bind_launch_query, IH.
    cbn [TuitService.findLikesPromises TuitService.findDislikesPromises
           TuitService.findBookmarksPromises List.map].
    rewrite <- !app_assoc. reflexivity.
Qed.

Lemma Promise_all_resolved {A B} (f : A -> outcome B) (g : A -> B) (l : list A) :
  (forall x, In x l -> f x = Resolved (g x)) ->
  Promise_all (List.map f l) = Resolved (List.map g l).
Proof.
  induction l as [|x l IH]; intros Hf; [reflexivity|].
  cbn. rewrite (Hf x) by (left; reflexivity).
  rewrite IH; [reflexivity|]. intros y Hy. apply Hf. right; exact Hy.
Qed.

Lemma Promise_all_Resolved_inv {A B} (f : A -> outcome B) (l : list A) :
  forall ys, Promise_all (List.map f l) = Resolved ys ->
             forall x, In x l -> exists y, f x = Resolved y.
Proof.
  induction l as [|a l IH]; intros ys E x Hx; [destruct Hx|].
  cbn in E. destruct (f a) as [b|e] eqn:Ea; [|discriminate].
  destruct (Promise_all (List.map f l)) as [bs|e] eqn:El; [|discriminate].
  destruct Hx as [<-|Hx]; [eauto|]. eapply IH; eauto.
Qed.

Lemma Promise_all_Rejected_inv {A B} (f : A -> outcome B) (l : list A) :
  forall e, Promise_all (List.map f l) = Rejected e ->
            exists x, In x l /\ f x = Rejected e.
Proof.
  induction l as [|a l IH]; intros e E; [discriminate|].
  cbn in E. destruct (f a) as [b|e'] eqn:Ea.
  - destruct (Promise_all (List.map f l)) as [bs|e'] eqn:El; [discriminate|].
    injection E as ->. destruct (IH e eq_refl) as (x & Hx & Hfx).
    exists x. split; [right; exact Hx | exact Hfx].
  - injection E as ->. exists a. split; [left; reflexivity | exact Ea].
Qed.

Lemma settled_Rejected (q : Query) (rs : list JoinRecord) (uid tid : ident) (e : error) :
  settled w q rs uid tid = Rejected e -> e = StoreError /\ faults w q = true.
Proof.
  unfold settled. destruct (faults w q); intros E; [|discriminate].
  injection E as <-. split; reflexivity.
Qed.

Lemma settled_Resolved (q : Query) (rs : list JoinRecord) (uid tid : ident) r :
  settled w q rs uid tid = Resolved r ->
  faults w q = false /\ r = List.find (joins uid tid) rs.
Proof.
  unfold settled. destruct (faults w q); intros E; [discriminate|].
  injection E as <-. split; reflexivity.
Qed.

Lemma indexOf_lower (l : list (option string)) (s : string) :
  (-1 <= indexOf l s)%Z.
Proof.
  induction l as [|[s'|] l IH]; cbn; [lia| |].
  - destruct (String.eqb s' s); [lia|].
    destruct (indexOf l s <? 0)%Z eqn:E; lia.
  - destruct (indexOf l s <? 0)%Z eqn:E; lia.
Qed.

Lemma indexOf_found (l : list (option string)) (s : string) :
  (indexOf l s >=? 0)%Z = true <-> In (Some s) l.
Proof.
  induction l as [|x l IH].
  - cbn. split; [discriminate | tauto].
  - assert (Hrest : ((if (indexOf l s <? 0)%Z then (-1)%Z else (indexOf l s + 1)%Z) >=? 0)%Z = true
                    <-> In (Some s) l).
    { rewrite <- IH. pose proof (indexOf_lower l s).
      destruct (indexOf l s <? 0)%Z eqn:E.
      - apply Z.ltb_lt in E. split; intros H'; [discriminate|].
        apply Z.geb_le in H'. lia.
      - apply Z.ltb_ge in E. split; intros _; apply Z.geb_le; lia. }
    cbn [indexOf In]. destruct x as [s'|].
    + destruct (String.eqb s' s) eqn:E.
      * apply String.eqb_eq in E. subst. split; [auto | reflexivity].
      * apply String.eqb_neq in E. rewrite Hrest.
        split; [auto | intros [H'|H']; [congruence | exact H']].
    + rewrite Hrest. split; [auto | intros [H'|H']; [discriminate | exact H']].
Qed.

(** The collected identifiers hold a post's identifier exactly when the
    collection holds a join record of the viewer for it. *)
Lemma collected_ids (rs : list JoinRecord) (posts : list TuitDoc) (p : TuitDoc) :
  In p posts ->
  In (Some (toString (_id p))) (collected viewer rs posts)
  <-> has_join rs viewer (_id p).
Proof.
  intros Hp. unfold collected. rewrite List.map_map, in_map_iff. split.
  - intros (t & E & Ht).
    destruct (List.find (joins viewer (_id t)) rs) as [r|] eqn:Ef; [|discriminate].
    cbn in E. injection E as E.
    apply find_some in Ef as [Hin Hj]. apply joins_spec in Hj as [Hu _].
    exists r. auto.
  - intros Hj. apply find_joins_Some in Hj as [r Er].
    exists p. split; [|exact Hp]. rewrite Er. cbn.
    rewrite (find_joins_tuit _ _ _ _ Er). reflexivity.
Qed.

Lemma flag_is_iff (flag : option bool) (P Q : Prop) :
  (P <-> Q) -> flag_is flag P -> flag_is flag Q.
Proof. unfold flag_is. tauto. Qed.

Lemma flag_is_cond (b : bool) (P : Prop) :
  (b = true <-> P) -> flag_is (if b then Some true else None) P.
Proof.
  intros H. unfold flag_is. destruct b; intuition (discriminate || congruence).
Qed.

Ltac flag_from H :=
  match type of H with
  | (?b = true <-> ?P) => exact (flag_is_cond b P H)
  end.

(** The callback of [tuits.map] on a post that has an author. *)
Lemma decorate_authored (L D B : list (option string)) (p : TuitDoc) :
  authored p ->
  exists d,
    TuitService.decorate viewer L D B p = Resolved d /\
    snapshot d = p /\
    flag_is (likedByMe d) (In (Some (toString (_id p))) L) /\
    flag_is (dislikedByMe d) (In (Some (toString (_id p))) D) /\
    flag_is (bookmarkedByMe d) (In (Some (toString (_id p))) B) /\
    flag_is (ownedByMe d) (owned_by viewer p).
Proof.
  intros Ha. unfold authored in Ha.
  pose proof (indexOf_found L (toString (_id p))) as HL.
  pose proof (indexOf_found D (toString (_id p))) as HD.
  pose proof (indexOf_found B (toString (_id p))) as HB.
  unfold TuitService.decorate.
  destruct (indexOf L (toString (_id p)) >=? 0)%Z;
    destruct (indexOf D (toString (_id p)) >=? 0)%Z;
    destruct (indexOf B (toString (_id p)) >=? 0)%Z; cbn;
    (destruct (postedBy (fields p)) as [author|] eqn:Ep; [|congruence]);
    (assert (Ho : String.eqb (toString (_id author)) (toString viewer) = true
                  <-> owned_by viewer p)
      by (unfold owned_by; rewrite String.eqb_eq, Ep; split;
          [intros E; exists author; auto
          | intros (a & Ea & E); congruence]));
    destruct (String.eqb (toString (_id author)) (toString viewer));
    eexists; (split; [reflexivity|]); cbn;
    (split; [reflexivity|]);
    (split; [|split; [|split]]);
    first [ flag_from HL | flag_from HD | flag_from HB | flag_from Ho ].
Qed.

Lemma decorate_snapshot (L D B : list (option string)) (p : TuitDoc) (d : DecoratedTuit) :
  TuitService.decorate viewer L D B p = Resolved d -> snapshot d = p.
Proof.
  unfold TuitService.decorate.
  destruct (indexOf L _ >=? 0)%Z, (indexOf D _ >=? 0)%Z, (indexOf B _ >=? 0)%Z; cbn;
    (destruct (postedBy (fields p)); [|discriminate]);
    destruct (String.eqb _ _); intros E; injection E as <-; reflexivity.
Qed.

Lemma Array_map_Resolved {A B} (f : A -> outcome B) (l : list A) :
  (forall x, In x l -> exists y, f x = Resolved y) ->
  exists out, Array_map f l = Resolved out /\ Forall2 (fun x y => f x = Resolved y) l out.
Proof.
  induction l as [|x l IH]; intros Hf.
  - exists []. split; [reflexivity | constructor].
  - destruct (Hf x (or_introl eq_refl)) as [y Ey].
    destruct IH as (out & Eo & Hall); [intros z Hz; apply Hf; right; exact Hz|].
    exists (y :: out). cbn. rewrite Ey, Eo. split; [reflexivity|].
    constructor; assumption.
Qed.

Lemma Array_map_Resolved_inv {A B} (f : A -> outcome B) (l : list A) :
  forall out, Array_map f l = Resolved out -> Forall2 (fun x y => f x = Resolved y) l out.
Proof.
  induction l as [|x l IH]; intros out E; cbn in E.
  - injection E as <-. constructor.
  - destruct (f x) as [y|e] eqn:Ex; [|discriminate].
    destruct (Array_map f l) as [ys|e] eqn:El; [|discriminate].
    injection E as <-. constructor; [exact Ex | apply IH; reflexivity].
Qed.

(** A thrown callback aborts the whole [map]. *)
Lemma Array_map_Rejected {A B} (f : A -> outcome B) (l : list A) (e : error) :
  (exists x, In x l /\ f x = Rejected e) ->
  (forall x e', In x l -> f x = Rejected e' -> e' = e) ->
  Array_map f l = Rejected e.
Proof.
  induction l as [|a l IH]; intros (x & Hx & Ex) Huniq; [destruct Hx|].
  cbn. destruct (f a) as [b|e'] eqn:Ea.
  - destruct Hx as [->|Hx]; [congruence|].
    rewrite IH; [reflexivity | eauto |].
    intros z e0 Hz. apply Huniq. right; exact Hz.
  - f_equal. eapply Huniq; [left; reflexivity | exact Ea].
Qed.

End Annotate.

Lemma lookups_settle (w : World) (viewer : ident) (posts : list TuitDoc)
      (qf : ident -> TuitDoc -> Query) (rs : list JoinRecord) :
  (forall p, In p posts -> faults w (qf viewer p) = false) ->
  Promise_all (List.map (fun t => settled w (qf viewer t) rs viewer (_id t)) posts) =
  Resolved (List.map (fun t => List.find (joins viewer (_id t)) rs) posts).
Proof.
  intros Hok. apply Promise_all_resolved. intros p Hp.
  unfold settled. rewrite (Hok p Hp). reflexivity.
Qed.

Lemma lookups_reject (w : World) (viewer : ident) (posts : list TuitDoc)
      (qf : ident -> TuitDoc -> Query) (rs : list JoinRecord) (e : error) :
  Promise_all (List.map (fun t => settled w (qf viewer t) rs viewer (_id t)) posts) =
  Rejected e -> e = StoreError.
Proof.
  intros E. apply Promise_all_Rejected_inv in E as (p & _ & Ep).
  apply settled_Rejected in Ep. tauto.
Qed.

Lemma lookups_resolved_healthy (w : World) (viewer : ident) (posts : list TuitDoc)
      (qf : ident -> TuitDoc -> Query) (rs : list JoinRecord) l p :
  Promise_all (List.map (fun t => settled w (qf viewer t) rs viewer (_id t)) posts) =
  Resolved l -> In p posts -> faults w (qf viewer p) = false.
Proof.
  intros E Hp.
  destruct (Promise_all_Resolved_inv _ _ _ E p Hp) as [r Er].
  apply settled_Resolved in Er. tauto.
Qed.

(** The service, step by step, on any world: the launches leave the world
    as it is and the rest only reads the settled promises. *)
Lemma fetch_unfold (w : World) (viewer : ident) (posts : list TuitDoc) :
  TuitService.fetchTuitsForLikesDisLikeOwn viewer posts w =
  match Promise_all (List.map (fun t => settled w (like_query viewer t) (likes (store w)) viewer (_id t)) posts) with
  | Rejected e => (Rejected e, w)
  | Resolved likedTuits =>
    match Promise_all (List.map (fun t => settled w (dislike_query viewer t) (dislikes (store w)) viewer (_id t)) posts) with
    | Rejected e => (Rejected e, w)
    | Resolved dislikedTuits =>
      match Promise_all (List.map (fun t => settled w (bookmark_query viewer t) (bookmarks (store w)) viewer (_id t)) posts) with
      | Rejected e => (Rejected e, w)
      | Resolved bookmarkedTuits =>
          (Array_map (TuitService.decorate viewer
                        (List.map TuitService.tuit_id_of likedTuits)
                        (List.map TuitService.tuit_id_of dislikedTuits)
                        (List.map TuitService.tuit_id_of bookmarkedTuits)) posts, w)
      end
    end
  end.
Proof.
  unfold TuitService.fetchTuitsForLikesDisLikeOwn.
  unfold bind at 1. rewrite forEach_launch_settled.
  cbn [TuitService.findLikesPromises TuitService.findDislikesPromises
         TuitService.findBookmarksPromises app].
  unfold bind, await, ret.
  repeat match goal with
         | |- context [Promise_all ?l] => destruct (Promise_all l); try reflexivity
         end.
  destruct (Array_map _ posts); reflexivity.
Qed.

(** With every lookup succeeding and every post authored, the service
    resolves to the posts decorated one by one against the three lists of
    collected identifiers. *)
Lemma fetch_authored (w : World) (viewer : ident) (posts : list TuitDoc) :
  lookups_succeed w viewer posts ->
  Forall authored posts ->
  exists out,
    TuitService.fetchTuitsForLikesDisLikeOwn viewer posts w = (Resolved out, w) /\
    Forall2 (fun p d =>
               TuitService.decorate viewer
                 (collected viewer (likes (store w)) posts)
                 (collected viewer (dislikes (store w)) posts)
                 (collected viewer (bookmarks (store w)) posts) p = Resolved d)
            posts out.
Proof.
  intros Hok Hauth.
  rewrite fetch_unfold.
  rewrite !lookups_settle by (intros p Hp; apply (Hok p Hp)).
  fold (collected viewer (likes (store w)) posts).
  fold (collected viewer (dislikes (store w)) posts).
  fold (collected viewer (bookmarks (store w)) posts).
  destruct (Array_map_Resolved
              (TuitService.decorate viewer
                 (collected viewer (likes (store w)) posts)
                 (collected viewer (dislikes (store w)) posts)
                 (collected viewer (bookmarks (store w)) posts)) posts)
    as (out & Eout & Hall).
  { intros p Hp. rewrite Forall_forall in Hauth.
    destruct (decorate_authored viewer
                (collected viewer (likes (store w)) posts)
                (collected viewer (dislikes (store w)) posts)
                (collected viewer (bookmarks (store w)) posts) p) as (d & Ed & _).
    - apply Hauth. apply list_elem_of_In. exact Hp.
    - exists d. exact Ed. }
  exists out. rewrite Eout. split; [reflexivity | exact Hall].
Qed.

(** X22. For every viewer and every list of posts that all have an
    author, when the lookups succeed, the service resolves
    and the decorated output at the post's position carries
    [likedByMe: true] exactly when a Like record of the viewer for the
    post is in the store, likewise [dislikedByMe] and [bookmarkedByMe],
    and [ownedByMe: true] exactly when the author's identifier equals the
    viewer's as strings; a key is absent otherwise, so that a post with
    no join record of the viewer and another author is the plain copy,
    none of the four keys on it. *)
Theorem annotate_flag_correctness (w : World) (viewer : ident) (posts : list TuitDoc) :
  lookups_succeed w viewer posts ->
  Forall authored posts ->
  exists out,
    TuitService.fetchTuitsForLikesDisLikeOwn viewer posts w = (Resolved out, w) /\
    length out = length posts /\
    forall (i : nat) (p : TuitDoc),
      posts !! i = Some p ->
      exists d,
        out !! i = Some d /\
        snapshot d = p /\
        flag_is (likedByMe d) (has_join (likes (store w)) viewer (_id p)) /\
        flag_is (dislikedByMe d) (has_join (dislikes (store w)) viewer (_id p)) /\
        flag_is (bookmarkedByMe d) (has_join (bookmarks (store w)) viewer (_id p)) /\
        flag_is (ownedByMe d) (owned_by viewer p) /\
        (~ has_join (likes (store w)) viewer (_id p) ->
         ~ has_join (dislikes (store w)) viewer (_id p) ->
         ~ has_join (bookmarks (store w)) viewer (_id p) ->
         ~ owned_by viewer p ->
         d = TuitService.toObject p).
Proof.
  intros Hok Hauth.
  destruct (fetch_authored w viewer posts Hok Hauth) as (out & Eout & Hall).
  exists out. split; [exact Eout|].
  split; [symmetry; eapply Forall2_length; exact Hall|].
  intros i p Hi.
  destruct (Forall2_lookup_l _ _ _ _ _ Hall Hi) as (d & Hd & Edec).
  assert (Hp : In p posts).
  { apply list_elem_of_In. eapply list_elem_of_lookup_2. exact Hi. }
  destruct (decorate_authored viewer
              (collected viewer (likes (store w)) posts)
              (collected viewer (dislikes (store w)) posts)
              (collected viewer (bookmarks (store w)) posts) p)
    as (d' & Ed' & Hs & Hl & Hdl & Hb & Ho).
  { rewrite Forall_forall in Hauth. apply Hauth. apply list_elem_of_In. exact Hp. }
  assert (d' = d) by congruence. subst d'.
  apply (flag_is_iff _ _ _ (collected_ids viewer _ posts p Hp)) in Hl, Hdl, Hb.
  exists d. split; [exact Hd|]. split; [exact Hs|].
  split; [exact Hl|]. split; [exact Hdl|]. split; [exact Hb|]. split; [exact Ho|].
  intros Nl Nd Nb No.
  apply Hl in Nl. apply Hdl in Nd. apply Hb in Nb. apply Ho in No.
  destruct d as [snap fl fd fb fo]. cbn in *. subst. reflexivity.
Qed.

Lemma annotate_flag_correctness_witness :
  lookups_succeed Sample.up (StringId "a1") [Sample.p1; Sample.p2; Sample.p3] /\
  Forall authored [Sample.p1; Sample.p2; Sample.p3] /\
  exists out,
    TuitService.fetchTuitsForLikesDisLikeOwn
      (StringId "a1") [Sample.p1; Sample.p2; Sample.p3] Sample.up = (Resolved out, Sample.up) /\
    length out = 3 /\
    forall (i : nat) (p : TuitDoc),
      [Sample.p1; Sample.p2; Sample.p3] !! i = Some p ->
      exists d,
        out !! i = Some d /\
        snapshot d = p /\
        flag_is (likedByMe d) (has_join (likes Sample.db) (StringId "a1") (_id p)) /\
        flag_is (dislikedByMe d) (has_join (dislikes Sample.db) (StringId "a1") (_id p)) /\
        flag_is (bookmarkedByMe d) (has_join (bookmarks Sample.db) (StringId "a1") (_id p)) /\
        flag_is (ownedByMe d) (owned_by (StringId "a1") p) /\
        (~ has_join (likes Sample.db) (StringId "a1") (_id p) ->
         ~ has_join (dislikes Sample.db) (StringId "a1") (_id p) ->
         ~ has_join (bookmarks Sample.db) (StringId "a1") (_id p) ->
         ~ owned_by (StringId "a1") p ->
         d = TuitService.toObject p).
Proof.
  assert (H1 : lookups_succeed Sample.up (StringId "a1") [Sample.p1; Sample.p2; Sample.p3]).
  { intros p _. cbn. auto. }
  assert (H2 : Forall authored [Sample.p1; Sample.p2; Sample.p3]).
  { repeat constructor; discriminate. }
  split; [exact H1|]. split; [exact H2|].
  exact (annotate_flag_correctness Sample.up (StringId "a1")
           [Sample.p1; Sample.p2; Sample.p3] H1 H2).
Defined.

(** The scenario of the specification: alice has liked [p1] and
    bookmarked [p2], and [p3] is hers. *)
Example annotate_scenario :
  fst (TuitService.fetchTuitsForLikesDisLikeOwn
         (StringId "a1") [Sample.p1; Sample.p2; Sample.p3] Sample.up) =
  Resolved [ mkDecorated Sample.p1 (Some true) None None None;
             mkDecorated Sample.p2 None None (Some true) None;
             mkDecorated Sample.p3 None None None (Some true) ].
Proof. vm_compute. reflexivity. Qed.

Lemma decorate_null_author (viewer : ident) (L D B : list (option string)) (p : TuitDoc) :
  postedBy (fields p) = None ->
  TuitService.decorate viewer L D B p = Rejected TypeError.
Proof.
  intros E. unfold TuitService.decorate.
  destruct (indexOf L _ >=? 0)%Z, (indexOf D _ >=? 0)%Z, (indexOf B _ >=? 0)%Z;
    cbn; rewrite E; reflexivity.
Qed.

Lemma decorate_throws_TypeError (viewer : ident) (L D B : list (option string))
      (p : TuitDoc) (e : error) :
  TuitService.decorate viewer L D B p = Rejected e -> e = TypeError.
Proof.
  unfold TuitService.decorate.
  destruct (indexOf L _ >=? 0)%Z, (indexOf D _ >=? 0)%Z, (indexOf B _ >=? 0)%Z;
    cbn; (destruct (postedBy (fields p)); [destruct (String.eqb _ _); discriminate|]);
    intros E; injection E as <-; reflexivity.
Qed.

(** C3 (the code departs from it). On a post whose [postedBy] is [null]
    the service does raise: with every lookup succeeding, the call is
    rejected with a [TypeError] and no decorated output is returned. *)
Theorem annotate_null_author_raises (w : World) (viewer : ident) (posts : list TuitDoc)
        (p : TuitDoc) :
  lookups_succeed w viewer posts ->
  In p posts ->
  postedBy (fields p) = None ->
  TuitService.fetchTuitsForLikesDisLikeOwn viewer posts w = (Rejected TypeError, w).
Proof.
  intros Hok Hp Hnull.
  rewrite fetch_unfold.
  rewrite !lookups_settle by (intros q Hq; apply (Hok q Hq)).
  rewrite (Array_map_Rejected _ posts TypeError); [reflexivity| |].
  - exists p. split; [exact Hp|]. apply decorate_null_author. exact Hnull.
  - intros x e _ Ex. eapply decorate_throws_TypeError. exact Ex.
Qed.

Lemma annotate_null_author_raises_witness :
  lookups_succeed Sample.up (StringId "a1") [Sample.orphan] /\
  In Sample.orphan [Sample.orphan] /\
  postedBy (fields Sample.orphan) = None /\
  TuitService.fetchTuitsForLikesDisLikeOwn (StringId "a1") [Sample.orphan] Sample.up
  = (Rejected TypeError, Sample.up).
Proof.
  assert (H1 : lookups_succeed Sample.up (StringId "a1") [Sample.orphan]).
  { intros p _. cbn. auto. }
  assert (H2 : In Sample.orphan [Sample.orphan]) by (left; reflexivity).
  assert (H3 : postedBy (fields Sample.orphan) = None) by reflexivity.
  split; [exact H1|]. split; [exact H2|]. split; [exact H3|].
  exact (annotate_null_author_raises Sample.up (StringId "a1") [Sample.orphan]
           Sample.orphan H1 H2 H3).
Defined.

(** C1 (the code departs from it). The flags of a post are lost when
    another post of the list has no author: alice has liked [p1], which
    has an author, yet on the list of [p1] and an author-less post the
    service is rejected with a [TypeError] and returns no decorated
    output for [p1], so no [likedByMe] on it. *)
Theorem annotate_flags_lost_on_null_author :
  In Sample.p1 [Sample.p1; Sample.orphan] /\
  authored Sample.p1 /\
  has_join (likes (store Sample.up)) (StringId "a1") (_id Sample.p1) /\
  TuitService.fetchTuitsForLikesDisLikeOwn
    (StringId "a1") [Sample.p1; Sample.orphan] Sample.up
  = (Rejected TypeError, Sample.up) /\
  forall out w', TuitService.fetchTuitsForLikesDisLikeOwn
                   (StringId "a1") [Sample.p1; Sample.orphan] Sample.up
                 <> (Resolved out, w').
Proof.
  assert (E : TuitService.fetchTuitsForLikesDisLikeOwn
                (StringId "a1") [Sample.p1; Sample.orphan] Sample.up
              = (Rejected TypeError, Sample.up)) by (vm_compute; reflexivity).
  split; [left; reflexivity|].
  split; [discriminate|].
  split.
  - exists (mkJoin (ObjectId "c1") (ObjectId "a1") (ObjectId "01")).
    split; [left; reflexivity|]. split; reflexivity.
  - split; [exact E|]. intros out w'. rewrite E. discriminate.
Qed.

(** C2 (the code departs from it). A list of three posts, the second
    without an author: the service returns no decorated post at all
    instead of three, the [TypeError] of the second aborting the map. *)
Theorem annotate_cardinality_lost_on_null_author :
  TuitService.fetchTuitsForLikesDisLikeOwn
    (StringId "a1") [Sample.p1; Sample.orphan; Sample.p3] Sample.up
  = (Rejected TypeError, Sample.up) /\
  forall out w', TuitService.fetchTuitsForLikesDisLikeOwn
                   (StringId "a1") [Sample.p1; Sample.orphan; Sample.p3] Sample.up
                 <> (Resolved out, w').
Proof.
  assert (E : TuitService.fetchTuitsForLikesDisLikeOwn
                (StringId "a1") [Sample.p1; Sample.orphan; Sample.p3] Sample.up
              = (Rejected TypeError, Sample.up)) by (vm_compute; reflexivity).
  split; [exact E|]. intros out w'. rewrite E. discriminate.
Qed.

Lemma decorated_snapshots (f : TuitDoc -> outcome DecoratedTuit)
      (posts : list TuitDoc) (out : list DecoratedTuit) :
  Forall2 (fun p d => f p = Resolved d) posts out ->
  (forall p d, f p = Resolved d -> snapshot d = p) ->
  List.map snapshot out = posts.
Proof.
  intros Hall Hf. induction Hall as [|p d posts' out' Hd _ IH]; [reflexivity|].
  cbn. rewrite IH. f_equal. apply Hf. exact Hd.
Qed.

(** On posts that all have an author the order and the number of posts
    are kept, whatever the store holds. *)
Lemma annotate_order_preserved (w : World) (viewer : ident) (posts : list TuitDoc) :
  lookups_succeed w viewer posts ->
  Forall authored posts ->
  exists out,
    TuitService.fetchTuitsForLikesDisLikeOwn viewer posts w = (Resolved out, w) /\
    List.map snapshot out = posts.
Proof.
  intros Hok Hauth.
  destruct (fetch_authored w viewer posts Hok Hauth) as (out & E & Hall).
  exists out. split; [exact E|].
  eapply decorated_snapshots; [exact Hall|].
  intros p d Hd. eapply decorate_snapshot. exact Hd.
Qed.

(** C4. If one lookup issued by the service fails, whichever the
    relation and the post, the whole call is rejected with the store
    error: no decorated output, partial or not, is returned. *)
Theorem annotate_all_or_nothing (w : World) (viewer : ident) (posts : list TuitDoc)
        (p : TuitDoc) :
  In p posts ->
  faults w (like_query viewer p) = true \/
  faults w (dislike_query viewer p) = true \/
  faults w (bookmark_query viewer p) = true ->
  TuitService.fetchTuitsForLikesDisLikeOwn viewer posts w = (Rejected StoreError, w).
Proof.
  intros Hp Hfault. rewrite fetch_unfold.
  destruct (Promise_all (List.map (fun t => settled w (like_query viewer t) _ _ _) posts))
    as [ls|e] eqn:El;
    [|apply lookups_reject in El; subst; reflexivity].
  destruct (Promise_all (List.map (fun t => settled w (dislike_query viewer t) _ _ _) posts))
    as [ds|e] eqn:Ed;
    [|apply lookups_reject in Ed; subst; reflexivity].
  destruct (Promise_all (List.map (fun t => settled w (bookmark_query viewer t) _ _ _) posts))
    as [bs|e] eqn:Eb;
    [|apply lookups_reject in Eb; subst; reflexivity].
  pose proof (lookups_resolved_healthy _ _ _ like_query _ _ _ El Hp).
  pose proof (lookups_resolved_healthy _ _ _ dislike_query _ _ _ Ed Hp).
  pose proof (lookups_resolved_healthy _ _ _ bookmark_query _ _ _ Eb Hp).
  destruct Hfault as [F|[F|F]]; congruence.
Qed.

Lemma annotate_all_or_nothing_witness :
  In Sample.p2 [Sample.p1; Sample.p2; Sample.p3] /\
  (faults Sample.dislike_down (like_query (StringId "a1") Sample.p2) = true \/
   faults Sample.dislike_down (dislike_query (StringId "a1") Sample.p2) = true \/
   faults Sample.dislike_down (bookmark_query (StringId "a1") Sample.p2) = true) /\
  TuitService.fetchTuitsForLikesDisLikeOwn
    (StringId "a1") [Sample.p1; Sample.p2; Sample.p3] Sample.dislike_down
  = (Rejected StoreError, Sample.dislike_down).
Proof.
  assert (H1 : In Sample.p2 [Sample.p1; Sample.p2; Sample.p3])
    by (right; left; reflexivity).
  assert (H2 : faults Sample.dislike_down (like_query (StringId "a1") Sample.p2) = true \/
               faults Sample.dislike_down (dislike_query (StringId "a1") Sample.p2) = true \/
               faults Sample.dislike_down (bookmark_query (StringId "a1") Sample.p2) = true)
    by (right; left; reflexivity).
  split; [exact H1|]. split; [exact H2|].
  exact (annotate_all_or_nothing Sample.dislike_down (StringId "a1")
           [Sample.p1; Sample.p2; Sample.p3] Sample.p2 H1 H2).
Defined.

(** C5. The service has no side effect: after any call, resolved or
    rejected, the world (all five collections of the store) is the one
    before the call, and every decorated post holds an unchanged copy of
    the input post at its position, the four keys living on the copy
    only. *)
Theorem annotate_no_side_effects (w : World) (viewer : ident) (posts : list TuitDoc) :
  snd (TuitService.fetchTuitsForLikesDisLikeOwn viewer posts w) = w /\
  forall out,
    fst (TuitService.fetchTuitsForLikesDisLikeOwn viewer posts w) = Resolved out ->
    List.map snapshot out = posts.
Proof.
  rewrite fetch_unfold.
  destruct (Promise_all (List.map (fun t => settled w (like_query viewer t) _ _ _) posts));
    [|split; [reflexivity | discriminate]].
  destruct (Promise_all (List.map (fun t => settled w (dislike_query viewer t) _ _ _) posts));
    [|split; [reflexivity | discriminate]].
  destruct (Promise_all (List.map (fun t => settled w (bookmark_query viewer t) _ _ _) posts));
    [|split; [reflexivity | discriminate]].
  split; [reflexivity|]. cbn [fst]. intros out E.
  apply Array_map_Resolved_inv in E.
  eapply decorated_snapshots; [exact E|].
  intros p d Hd. eapply decorate_snapshot. exact Hd.
Qed.

(** ** Store calls on a healthy world *)

Lemma query_healthy {A} (w : World) (q : Query) (read : Store -> A) :
  healthy w -> query q read w = (Resolved (read (store w)), w).
Proof. intros Hw. unfold query. rewrite (Hw q). reflexivity. Qed.

Lemma command_healthy {A} (w : World) (q : Query) (write : Store -> A * Store) :
  healthy w ->
  command q write w =
  (Resolved (fst (write (store w))), mkWorld (snd (write (store w))) (faults w)).
Proof.
  intros Hw. unfold command. rewrite (Hw q).
  destruct (write (store w)); reflexivity.
Qed.

Lemma healthy_after (w : World) (s : Store) : healthy w -> healthy (mkWorld s (faults w)).
Proof. intros Hw q. apply Hw. Qed.

Lemma same_id_refl (a : ident) : same_id a a = true.
Proof. apply same_id_eq. reflexivity. Qed.

Lemma existsb_find {A} (f : A -> bool) (l : list A) :
  existsb f l = match List.find f l with Some _ => true | None => false end.
Proof.
  induction l as [|x l IH]; [reflexivity|].
  cbn. destruct (f x); [reflexivity | exact IH].
Qed.

Lemma existsb_filter_negb {A} (f : A -> bool) (l : list A) :
  existsb f (List.filter (fun x => negb (f x)) l) = false.
Proof.
  induction l as [|x l IH]; [reflexivity|].
  cbn. destruct (f x) eqn:E; cbn; [exact IH|]. rewrite E. exact IH.
Qed.

Lemma filter_negb_clears {A} (f : A -> bool) (l : list A) (x : A) :
  In x (List.filter (fun y => negb (f y)) l) -> f x = false.
Proof.
  intros Hx. apply filter_In in Hx as [_ Hx].
  apply Bool.negb_true_iff. exact Hx.
Qed.

Lemma joins_self (uid tid id : ident) : joins uid tid (mkJoin id uid tid) = true.
Proof. unfold joins. cbn [jr_user jr_tuit]. rewrite !same_id_refl. reflexivity. Qed.

(** ** The bookmark toggle *)

(** One toggle on a healthy store: a present record is deleted, an absent
    one is created; the response is 200 either way. *)
Lemma toggle_run (w : World) (req : Request) :
  healthy w ->
  let userId := BookmarkController.userId_of req in
  let tid := StringId (params_tid req) in
  BookmarkController.userTogglesTuitBookmarks req w =
  (Resolved (sendStatus 200),
   mkWorld
     (if bookmarked (store w) userId tid
      then set_bookmarks (store w)
             (List.filter (fun r => negb (joins userId tid r)) (bookmarks (store w)))
      else bump_oid
             (set_bookmarks (store w)
                (bookmarks (store w) ++ [mkJoin (fresh_oid (store w)) userId tid])%list))
     (faults w)).
Proof.
  intros Hw userId tid.
  unfold BookmarkController.userTogglesTuitBookmarks, try_catch.
  fold userId. fold tid.
  unfold bind at 1. unfold bind at 1.
  unfold BookmarkDao.findUserBookmarksTuit. rewrite (query_healthy w) by exact Hw.
  unfold bookmarked. rewrite existsb_find.
  destruct (List.find (joins userId tid) (bookmarks (store w))) as [r|].
  - unfold bind at 1, BookmarkDao.userUnbookmarksTuit.
    rewrite (command_healthy w) by exact Hw. reflexivity.
  - unfold bind at 1, BookmarkDao.userBookmarksTuit.
    rewrite (command_healthy w) by exact Hw. reflexivity.
Qed.

Lemma toggle_once (w : World) (req : Request) :
  healthy w ->
  let userId := BookmarkController.userId_of req in
  let tid := StringId (params_tid req) in
  let w1 := snd (BookmarkController.userTogglesTuitBookmarks req w) in
  fst (BookmarkController.userTogglesTuitBookmarks req w) = Resolved (sendStatus 200) /\
  healthy w1 /\
  bookmarks (store w1) =
    (if bookmarked (store w) userId tid
     then List.filter (fun r => negb (joins userId tid r)) (bookmarks (store w))
     else (bookmarks (store w) ++ [mkJoin (fresh_oid (store w)) userId tid])%list) /\
  bookmarked (store w1) userId tid = negb (bookmarked (store w) userId tid).
Proof.
  intros Hw userId tid. cbv zeta.
  rewrite (toggle_run w req Hw). fold userId tid. cbn [fst snd].
  split; [reflexivity|]. split; [apply healthy_after; exact Hw|].
  destruct (bookmarked (store w) userId tid) eqn:E; cbn [store].
  - split; [reflexivity|]. unfold bookmarked. cbn. apply existsb_filter_negb.
  - split; [reflexivity|]. unfold bookmarked.
    cbn [bump_oid set_bookmarks bookmarks]. rewrite existsb_app.
    cbn [existsb]. rewrite joins_self. apply Bool.orb_true_r.
Qed.

(** C6. For every request (hence every user and post) and every
    starting store, with the store answering, a toggle flips the
    membership of the pair: a present record is deleted, an absent one is
    created; a second toggle brings the membership back to what it was. *)
Theorem toggle_flips_membership (w : World) (req : Request) :
  healthy w ->
  let userId := BookmarkController.userId_of req in
  let tid := StringId (params_tid req) in
  let w1 := snd (BookmarkController.userTogglesTuitBookmarks req w) in
  let w2 := snd (BookmarkController.userTogglesTuitBookmarks req w1) in
  fst (BookmarkController.userTogglesTuitBookmarks req w) = Resolved (sendStatus 200) /\
  fst (BookmarkController.userTogglesTuitBookmarks req w1) = Resolved (sendStatus 200) /\
  bookmarks (store w1) =
    (if bookmarked (store w) userId tid
     then List.filter (fun r => negb (joins userId tid r)) (bookmarks (store w))
     else (bookmarks (store w) ++ [mkJoin (fresh_oid (store w)) userId tid])%list) /\
  bookmarked (store w1) userId tid = negb (bookmarked (store w) userId tid) /\
  bookmarked (store w2) userId tid = bookmarked (store w) userId tid.
Proof.
  intros Hw userId tid w1 w2.
  destruct (toggle_once w req Hw) as (Hr1 & Hw1 & Hb1 & Hm1).
  destruct (toggle_once w1 req Hw1) as (Hr2 & _ & _ & Hm2).
  fold userId tid w1 in Hr1, Hb1, Hm1, Hm2. fold w1 in Hr2.
  fold w2 in Hm2.
  split; [exact Hr1|]. split; [exact Hr2|]. split; [exact Hb1|]. split; [exact Hm1|].
  rewrite Hm2, Hm1. apply Bool.negb_involutive.
Qed.

Lemma toggle_flips_membership_witness :
  healthy Sample.up /\
  let req := Sample.request "me" "01" "" (Sample.user "" "") (Some Sample.alice) in
  let userId := BookmarkController.userId_of req in
  let tid := StringId (params_tid req) in
  let w1 := snd (BookmarkController.userTogglesTuitBookmarks req Sample.up) in
  let w2 := snd (BookmarkController.userTogglesTuitBookmarks req w1) in
  fst (BookmarkController.userTogglesTuitBookmarks req Sample.up) = Resolved (sendStatus 200) /\
  fst (BookmarkController.userTogglesTuitBookmarks req w1) = Resolved (sendStatus 200) /\
  bookmarks (store w1) =
    (if bookmarked (store Sample.up) userId tid
     then List.filter (fun r => negb (joins userId tid r)) (bookmarks (store Sample.up))
     else (bookmarks (store Sample.up) ++ [mkJoin (fresh_oid (store Sample.up)) userId tid])%list) /\
  bookmarked (store w1) userId tid = negb (bookmarked (store Sample.up) userId tid) /\
  bookmarked (store w2) userId tid = bookmarked (store Sample.up) userId tid.
Proof.
  assert (H : healthy Sample.up) by (intros q; reflexivity).
  split; [exact H|].
  exact (toggle_flips_membership Sample.up
           (Sample.request "me" "01" "" (Sample.user "" "") (Some Sample.alice)) H).
Defined.

(** A failing store leaves the membership as it is and answers 404. *)
Lemma toggle_store_failure (w : World) (req : Request) :
  faults w (Q_findUserBookmarksTuit (toString (BookmarkController.userId_of req))
                                    (params_tid req)) = true ->
  BookmarkController.userTogglesTuitBookmarks req w = (Resolved (sendStatus 404), w).
Proof.
  intros Hf.
  unfold BookmarkController.userTogglesTuitBookmarks, try_catch, bind,
    BookmarkDao.findUserBookmarksTuit, query.
  cbn [toString]. rewrite Hf. reflexivity.
Qed.

(** ** Deleting a user *)

Ltac run_command Hw :=
  unfold bind at 1;
  rewrite command_healthy by (repeat apply healthy_after; exact Hw);
  cbn [fst snd store faults].

(** The four bulk deletes and the user delete, followed by any
    continuation, on a healthy store. *)
Lemma cascade_run {A} (uid : ident) (k : N -> Async A) (w : World) :
  healthy w ->
  (TuitDao.deleteAllTuitsByUser uid ;;;
   BookmarkDao.deleteAllBookmarksByUser uid ;;;
   DislikeDao.deleteAllDislikesByUser uid ;;;
   LikeDao.deleteAllLikesByUser uid ;;;
   status <- UserDao.deleteUser uid ;;
   k status) w =
  k (removed (users (store w)) (users (purged uid (store w))))
    (mkWorld (purged uid (store w)) (faults w)).
Proof.
  intros Hw.
  unfold TuitDao.deleteAllTuitsByUser, BookmarkDao.deleteAllBookmarksByUser,
    DislikeDao.deleteAllDislikesByUser, LikeDao.deleteAllLikesByUser,
    UserDao.deleteUser.
  do 5 run_command Hw.
  reflexivity.
Qed.

Lemma purged_no_trace (uid : ident) (s : Store) :
  no_trace_of uid (purged uid s) /\
  (forall u, In u (users (purged uid s)) -> same_id (_id u) uid = false).
Proof.
  unfold no_trace_of, purged. cbn [users tuits likes dislikes bookmarks].
  repeat split; intros x Hx;
    apply (filter_negb_clears _ _ _ Hx).
Qed.

(** C7. Once the deletion of a user has completed, by the admin route or
    by the session route, the store holds no tuit posted by the user and
    no like, dislike or bookmark whose user reference is the user; the
    user document is gone as well. *)
Theorem user_deletion_cascades (w : World) (req : Request) :
  healthy w ->
  (exists status w',
      UserController.adminDeleteUser req w = (Resolved (json_status status), w') /\
      no_trace_of (StringId (params_uid req)) (store w') /\
      forall u, In u (users (store w')) ->
                same_id (_id u) (StringId (params_uid req)) = false) /\
  match session_profile req with
  | Some profile =>
      exists status w',
        AuthenticationController.delete_ req w =
          (Resolved (json_status status, None), w') /\
        no_trace_of (_id profile) (store w') /\
        forall u, In u (users (store w')) -> same_id (_id u) (_id profile) = false
  | None =>
      AuthenticationController.delete_ req w =
        (Resolved (sendStatus 403, None), w)
  end.
Proof.
  intros Hw. split.
  - unfold UserController.adminDeleteUser.
    rewrite (cascade_run _ _ w Hw). unfold ret.
    eexists; eexists. split; [reflexivity|]. cbn [store].
    apply purged_no_trace.
  - unfold AuthenticationController.delete_.
    destruct (session_profile req) as [profile|].
    + rewrite (cascade_run _ _ w Hw). unfold ret.
      eexists; eexists. split; [reflexivity|]. cbn [store].
      apply purged_no_trace.
    + reflexivity.
Qed.

Lemma user_deletion_cascades_witness :
  healthy Sample.up /\
  (exists status w',
      UserController.adminDeleteUser
        (Sample.request "a1" "" "" (Sample.user "" "") (Some Sample.bob)) Sample.up
      = (Resolved (json_status status), w') /\
      no_trace_of (StringId "a1") (store w') /\
      forall u, In u (users (store w')) -> same_id (_id u) (StringId "a1") = false) /\
  (exists status w',
      AuthenticationController.delete_
        (Sample.request "a1" "" "" (Sample.user "" "") (Some Sample.bob)) Sample.up
      = (Resolved (json_status status, None), w') /\
      no_trace_of (ObjectId "b2") (store w') /\
      forall u, In u (users (store w')) -> same_id (_id u) (ObjectId "b2") = false).
Proof.
  assert (H : healthy Sample.up) by (intros q; reflexivity).
  split; [exact H|].
  exact (user_deletion_cascades Sample.up
           (Sample.request "a1" "" "" (Sample.user "" "") (Some Sample.bob)) H).
Defined.

(** The admin route on the sample store: alice, her tuit, her like and
    her bookmark are removed, bob's records stay. *)
Example admin_delete_alice :
  let r := UserController.adminDeleteUser
             (Sample.request "a1" "" "" (Sample.user "" "") None) Sample.up in
  fst r = Resolved (json_status 1) /\
  store (snd r) =
    mkStore [Sample.bob]
            [Sample.row Sample.p1; Sample.row Sample.p2; Sample.row Sample.orphan]
            []
            [mkJoin (ObjectId "d1") (ObjectId "b2") (ObjectId "03")]
            []
            16.
Proof. vm_compute. split; reflexivity. Qed.

(** ** Creating users *)

Lemma username_taken_spec (s : Store) (name : string) :
  username_taken s name = true <->
  exists u, In u (users s) /\ username (fields u) = name.
Proof.
  unfold username_taken. rewrite existsb_exists.
  split; intros (u & Hu & E); exists u; (split; [exact Hu|]);
    apply String.eqb_eq; exact E.
Qed.

Lemma bind_query_healthy {A B} (w : World) (q : Query) (read : Store -> A)
      (k : A -> Async B) :
  healthy w -> bind (query q read) k w = k (read (store w)) w.
Proof. intros Hw. unfold bind. rewrite (query_healthy w q read Hw). reflexivity. Qed.

Lemma bind_command_healthy {A B} (w : World) (q : Query) (write : Store -> A * Store)
      (k : A -> Async B) :
  healthy w ->
  bind (command q write) k w =
  k (fst (write (store w))) (mkWorld (snd (write (store w))) (faults w)).
Proof. intros Hw. unfold bind. rewrite (command_healthy w q write Hw). reflexivity. Qed.

Lemma find_username_taken (s : Store) (name : string) :
  match List.find (fun u => String.eqb (username (fields u)) name) (users s) with
  | Some _ => username_taken s name = true
  | None => username_taken s name = false
  end.
Proof.
  unfold username_taken. rewrite existsb_find.
  destruct (List.find _ (users s)); reflexivity.
Qed.

(** C8. A register, admin-create or signup request whose username is
    that of a stored user is answered 403 and the store is left as it
    is; when no stored user has the username the user is created and the
    inserted document is returned (by signup with its password
    masked). *)
Theorem duplicate_username_conflict `{Bcrypt} (w : World) (req : Request) :
  healthy w ->
  let hashed := with_password (bcrypt_hash (password (body req)) saltRounds) (body req) in
  let inserted := mkDoc (fresh_oid (store w)) (body req) in
  let inserted_hashed := mkDoc (fresh_oid (store w)) hashed in
  if username_taken (store w) (username (body req))
  then
    UserController.register req w = (Resolved (sendStatus 403), w) /\
    UserController.adminCreateUser req w = (Resolved (sendStatus 403), w) /\
    AuthenticationController.signup req w =
      (Resolved (sendStatus 403, session_profile req), w)
  else
    UserController.register req w =
      (Resolved (json_user inserted),
       mkWorld (with_user (store w) inserted) (faults w)) /\
    UserController.adminCreateUser req w =
      (Resolved (json_user inserted_hashed),
       mkWorld (with_user (store w) inserted_hashed) (faults w)) /\
    AuthenticationController.signup req w =
      (Resolved (json_user (set_password "*****" inserted_hashed),
                 Some (set_password "*****" inserted_hashed)),
       mkWorld (with_user (store w) inserted_hashed) (faults w)).
Proof.
  intros Hw hashed inserted inserted_hashed.
  unfold UserController.register, UserController.adminCreateUser,
    AuthenticationController.signup.
  fold hashed.
  assert (Hname : username hashed = username (body req)) by reflexivity.
  rewrite Hname. clear Hname.
  unfold UserDao.findUserByUsername.
  rewrite !bind_query_healthy by exact Hw.
  pose proof (find_username_taken (store w) (username (body req))) as Hfind.
  destruct (List.find _ (users (store w))) as [existing|];
    rewrite Hfind.
  - repeat split; reflexivity.
  - unfold UserDao.createUser.
    rewrite !bind_command_healthy by exact Hw.
    repeat split; reflexivity.
Qed.

Lemma duplicate_username_conflict_witness :
  healthy Sample.up /\
  (UserController.register
     (Sample.request "" "" "" (Sample.user "alice" "secret") None) Sample.up
   = (Resolved (sendStatus 403), Sample.up) /\
   @UserController.adminCreateUser Sample.tagged
     (Sample.request "" "" "" (Sample.user "alice" "secret") None) Sample.up
   = (Resolved (sendStatus 403), Sample.up) /\
   @AuthenticationController.signup Sample.tagged
     (Sample.request "" "" "" (Sample.user "alice" "secret") None) Sample.up
   = (Resolved (sendStatus 403, None), Sample.up)) /\
  (let inserted := mkDoc (ObjectId "0x10") (Sample.user "dave" "secret") in
   let inserted_hashed := mkDoc (ObjectId "0x10") (Sample.user "dave" "$2b$10$secret") in
   UserController.register
     (Sample.request "" "" "" (Sample.user "dave" "secret") None) Sample.up
   = (Resolved (json_user inserted),
      mkWorld (with_user Sample.db inserted) (faults Sample.up)) /\
   @UserController.adminCreateUser Sample.tagged
     (Sample.request "" "" "" (Sample.user "dave" "secret") None) Sample.up
   = (Resolved (json_user inserted_hashed),
      mkWorld (with_user Sample.db inserted_hashed) (faults Sample.up)) /\
   @AuthenticationController.signup Sample.tagged
     (Sample.request "" "" "" (Sample.user "dave" "secret") None) Sample.up
   = (Resolved (json_user (set_password "*****" inserted_hashed),
                Some (set_password "*****" inserted_hashed)),
      mkWorld (with_user Sample.db inserted_hashed) (faults Sample.up))).
Proof.
  assert (Hup : healthy Sample.up) by (intros q; reflexivity).
  split; [exact Hup|]. split.
  - exact (@duplicate_username_conflict Sample.tagged Sample.up
             (Sample.request "" "" "" (Sample.user "alice" "secret") None) Hup).
  - exact (@duplicate_username_conflict Sample.tagged Sample.up
             (Sample.request "" "" "" (Sample.user "dave" "secret") None) Hup).
Defined.

(** ** Authentication responses *)

Lemma set_password_masks (p : string) (d : Doc User) :
  password (fields (set_password p d)) = p.
Proof. reflexivity. Qed.

Lemma query_cases {A} (q : Query) (read : Store -> A) (w : World) :
  query q read w = (Rejected StoreError, w) \/
  query q read w = (Resolved (read (store w)), w).
Proof. unfold query. destruct (faults w q); auto. Qed.

Lemma login_json `{Bcrypt} (req : Request) (w w' : World) (u : Doc User)
      (sess : option (Doc User)) :
  AuthenticationController.login req w = (Resolved (json_user u, sess), w') ->
  exists stored, In stored (users (store w')) /\ u = set_password "*****" stored.
Proof.
  unfold AuthenticationController.login, bind, UserDao.findUserByUsername.
  destruct (query_cases (Q_findUserByUsername (username (body req)))
              (fun s => List.find (fun u0 => String.eqb (username (fields u0))
                                                      (username (body req))) (users s)) w)
    as [E|E]; rewrite E; [discriminate|].
  destruct (List.find _ (users (store w))) as [existing|] eqn:Ef; [|discriminate].
  destruct (bcrypt_compare _ _); [|discriminate].
  unfold ret. intros Eq. injection Eq as <- _ <-.
  apply find_some in Ef as [Hin _]. eauto.
Qed.

Lemma signup_json `{Bcrypt} (req : Request) (w w' : World) (u : Doc User)
      (sess : option (Doc User)) :
  AuthenticationController.signup req w = (Resolved (json_user u, sess), w') ->
  exists stored, In stored (users (store w')) /\ u = set_password "*****" stored.
Proof.
  unfold AuthenticationController.signup, bind, UserDao.findUserByUsername.
  match goal with
  | |- context [query ?q ?r w] => destruct (query_cases q r w) as [E|E]; rewrite E
  end; [discriminate|].
  destruct (List.find _ (users (store w))) as [existing|]; [discriminate|].
  unfold UserDao.createUser, command.
  destruct (faults w _); [discriminate|].
  unfold ret. cbn. intros Eq. injection Eq as <- _ <-.
  eexists. split; [|reflexivity].
  cbn. apply in_or_app. right. left. reflexivity.
Qed.

Lemma profile_json (req : Request) (w w' : World) (u : Doc User)
      (sess : option (Doc User)) :
  AuthenticationController.profile req w = (Resolved (json_user u, sess), w') ->
  exists stored, In stored (users (store w')) /\ u = set_password "*****" stored.
Proof.
  unfold AuthenticationController.profile.
  destruct (session_profile req) as [profile|]; [|discriminate].
  unfold bind, UserDao.findUserById.
  match goal with
  | |- context [query ?q ?r w] => destruct (query_cases q r w) as [E|E]; rewrite E
  end; [discriminate|].
  destruct (List.find _ (users (store w))) as [existing|] eqn:Ef; [|discriminate].
  unfold ret. intros Eq. injection Eq as <- _ <-.
  apply find_some in Ef as [Hin _]. eauto.
Qed.

(** C9. Whenever login, signup or profile answers with a user, the
    password of that user is the literal ["*****"]: the body is a stored
    user document with its password field overwritten, so the stored
    hash is not in the response. *)
Theorem auth_response_masks_password `{Bcrypt} (w w' : World) (req : Request)
        (u : Doc User) (sess : option (Doc User)) :
  AuthenticationController.login req w = (Resolved (json_user u, sess), w') \/
  AuthenticationController.signup req w = (Resolved (json_user u, sess), w') \/
  AuthenticationController.profile req w = (Resolved (json_user u, sess), w') ->
  password (fields u) = "*****" /\
  exists stored, In stored (users (store w')) /\ u = set_password "*****" stored.
Proof.
  intros Hresp.
  assert (Hs : exists stored, In stored (users (store w')) /\ u = set_password "*****" stored).
  { destruct Hresp as [E|[E|E]].
    - eapply login_json; exact E.
    - eapply signup_json; exact E.
    - eapply profile_json; exact E. }
  split; [|exact Hs].
  destruct Hs as (stored & _ & ->). apply set_password_masks.
Qed.

Lemma auth_response_masks_password_witness :
  (@AuthenticationController.login Sample.tagged
     (Sample.request "" "" "" (Sample.user "alice" "alice") None) Sample.up
   = (Resolved (json_user (set_password "*****" Sample.alice),
                Some (set_password "*****" Sample.alice)), Sample.up) \/
   @AuthenticationController.signup Sample.tagged
     (Sample.request "" "" "" (Sample.user "alice" "alice") None) Sample.up
   = (Resolved (json_user (set_password "*****" Sample.alice),
                Some (set_password "*****" Sample.alice)), Sample.up) \/
   AuthenticationController.profile
     (Sample.request "" "" "" (Sample.user "alice" "alice") None) Sample.up
   = (Resolved (json_user (set_password "*****" Sample.alice),
                Some (set_password "*****" Sample.alice)), Sample.up)) /\
  password (fields (set_password "*****" Sample.alice)) = "*****" /\
  exists stored, In stored (users (store Sample.up)) /\
                 set_password "*****" Sample.alice = set_password "*****" stored.
Proof.
  assert (H : @AuthenticationController.login Sample.tagged
                (Sample.request "" "" "" (Sample.user "alice" "alice") None) Sample.up
              = (Resolved (json_user (set_password "*****" Sample.alice),
                           Some (set_password "*****" Sample.alice)), Sample.up) \/
              @AuthenticationController.signup Sample.tagged
                (Sample.request "" "" "" (Sample.user "alice" "alice") None) Sample.up
              = (Resolved (json_user (set_password "*****" Sample.alice),
                           Some (set_password "*****" Sample.alice)), Sample.up) \/
              AuthenticationController.profile
                (Sample.request "" "" "" (Sample.user "alice" "alice") None) Sample.up
              = (Resolved (json_user (set_password "*****" Sample.alice),
                           Some (set_password "*****" Sample.alice)), Sample.up))
    by (left; reflexivity).
  split; [exact H|].
  exact (@auth_response_masks_password Sample.tagged Sample.up Sample.up
           (Sample.request "" "" "" (Sample.user "alice" "alice") None)
           (set_password "*****" Sample.alice)
           (Some (set_password "*****" Sample.alice)) H).
Defined.

(** A wrong password is answered 403 and nothing of the user is sent. *)
Example login_wrong_password :
  fst (@AuthenticationController.login Sample.tagged
         (Sample.request "" "" "" (Sample.user "alice" "guess") None) Sample.up)
  = Resolved (sendStatus 403, None).
Proof. reflexivity. Qed.

(** ** Sorting the users found *)

Section SortByUsername.

Lemma by_username_neg (a b : Doc User) :
  (UserController.by_username a b <? 0)%Z = true <-> username_le a b.
Proof.
  unfold UserController.by_username, username_le, js_gt.
  destruct (String.compare (username (fields a)) (username (fields b)));
    cbn; split; intros; congruence.
Qed.

(** When the comparator does not order [pivot] below [x], [x] is not
    greater than [pivot]. *)
Lemma by_username_nonneg (pivot x : Doc User) :
  (UserController.by_username pivot x <? 0)%Z = false -> username_le x pivot.
Proof.
  unfold UserController.by_username, username_le, js_gt.
  rewrite (String.compare_antisym (username (fields x)) (username (fields pivot))).
  destruct (String.compare (username (fields pivot)) (username (fields x)));
    cbn; intros; congruence.
Qed.

Lemma insert_by_Permutation {A} (comparefn : A -> A -> Z) (pivot : A) (l : list A) :
  Permutation (pivot :: l) (insert_by comparefn pivot l).
Proof.
  induction l as [|x l IH]; cbn; [reflexivity|].
  destruct (comparefn pivot x <? 0)%Z; [reflexivity|].
  rewrite perm_swap. apply perm_skip. exact IH.
Qed.

Lemma insert_by_HdRel (x pivot : Doc User) (l : list (Doc User)) :
  HdRel username_le x l -> username_le x pivot ->
  HdRel username_le x (insert_by UserController.by_username pivot l).
Proof.
  intros Hhd Hle. destruct l as [|y l]; cbn.
  - constructor. exact Hle.
  - destruct (UserController.by_username pivot y <? 0)%Z.
    + constructor. exact Hle.
    + constructor. inversion Hhd; assumption.
Qed.

Lemma insert_by_Sorted (pivot : Doc User) (l : list (Doc User)) :
  Sorted username_le l ->
  Sorted username_le (insert_by UserController.by_username pivot l).
Proof.
  induction 1 as [|x l Hs IH Hhd]; cbn.
  - repeat constructor.
  - destruct (UserController.by_username pivot x <? 0)%Z eqn:E.
    + constructor; [constructor; assumption|].
      constructor. apply by_username_neg. exact E.
    + constructor; [exact IH|].
      apply insert_by_HdRel; [exact Hhd|]. apply by_username_nonneg. exact E.
Qed.

Lemma fold_insert_Permutation {A} (comparefn : A -> A -> Z) (l : list A) :
  forall acc,
    Permutation (acc ++ l)
                (fold_left (fun sorted pivot => insert_by comparefn pivot sorted) l acc).
Proof.
  induction l as [|x l IH]; intros acc; cbn.
  - rewrite app_nil_r. reflexivity.
  - rewrite <- IH. rewrite <- insert_by_Permutation.
    symmetry. apply Permutation_middle.
Qed.

Lemma fold_insert_Sorted (l : list (Doc User)) :
  forall acc,
    Sorted username_le acc ->
    Sorted username_le
           (fold_left (fun sorted pivot => insert_by UserController.by_username pivot sorted)
                      l acc).
Proof.
  induction l as [|x l IH]; intros acc Hacc; cbn; [exact Hacc|].
  apply IH. apply insert_by_Sorted. exact Hacc.
Qed.

Lemma Array_sort_Permutation {A} (comparefn : A -> A -> Z) (l : list A) :
  Permutation l (Array_sort comparefn l).
Proof. exact (fold_insert_Permutation comparefn l []). Qed.

Lemma Array_sort_by_username_Sorted (l : list (Doc User)) :
  Sorted username_le (Array_sort UserController.by_username l).
Proof. apply fold_insert_Sorted. constructor. Qed.

Lemma Sorted_adjacent (l : list (Doc User)) :
  Sorted username_le l ->
  forall (i : nat) (a b : Doc User),
    l !! i = Some a -> l !! S i = Some b -> username_le a b.
Proof.
  induction 1 as [|x l Hs IH Hhd]; intros i a b Ha Hb; [discriminate|].
  destruct i as [|i].
  - cbn in Ha, Hb. injection Ha as <-.
    destruct l as [|y l]; [discriminate|]. cbn in Hb. injection Hb as <-.
    inversion Hhd; assumption.
  - cbn in Ha, Hb. eapply IH; eassumption.
Qed.

End SortByUsername.

(** C10. Whatever list the user store resolves a username search to,
    the handler answers with a permutation of it that is in ascending
    order of username: of any two adjacent users of the response the
    first has a username not greater than the second's. *)
Theorem searchByUsername_sorted (dao : string -> Async (list (Doc User)))
        (req : Request) (w w' : World) (found : list (Doc User)) :
  dao (params_username req) w = (Resolved found, w') ->
  exists sortedUsers,
    UserController.searchByUsername dao req w = (Resolved (json_users sortedUsers), w') /\
    Permutation found sortedUsers /\
    Sorted username_le sortedUsers /\
    forall (i : nat) (a b : Doc User),
      sortedUsers !! i = Some a -> sortedUsers !! S i = Some b ->
      js_gt (username (fields a)) (username (fields b)) = false.
Proof.
  intros Hdao.
  exists (Array_sort UserController.by_username found).
  split.
  - unfold UserController.searchByUsername, bind. rewrite Hdao. reflexivity.
  - split; [apply Array_sort_Permutation|].
    pose proof (Array_sort_by_username_Sorted found) as Hs.
    split; [exact Hs|].
    intros i a b Ha Hb.
    pose proof (Sorted_adjacent _ Hs i a b Ha Hb) as Hle.
    unfold username_le in Hle. unfold js_gt.
    destruct (String.compare (username (fields a)) (username (fields b)));
      congruence.
Qed.

Lemma searchByUsername_sorted_witness :
  Sample.search "" Sample.crowd =
    (Resolved [Sample.carol; Sample.alice; Sample.bob; Sample.al; Sample.alice],
     Sample.crowd) /\
  exists sortedUsers,
    UserController.searchByUsername Sample.search
      (Sample.request "" "" "" (Sample.user "" "") None) Sample.crowd
    = (Resolved (json_users sortedUsers), Sample.crowd) /\
    Permutation [Sample.carol; Sample.alice; Sample.bob; Sample.al; Sample.alice]
                sortedUsers /\
    Sorted username_le sortedUsers /\
    forall (i : nat) (a b : Doc User),
      sortedUsers !! i = Some a -> sortedUsers !! S i = Some b ->
      js_gt (username (fields a)) (username (fields b)) = false.
Proof.
  assert (H : Sample.search "" Sample.crowd =
              (Resolved [Sample.carol; Sample.alice; Sample.bob; Sample.al; Sample.alice],
               Sample.crowd)) by reflexivity.
  split; [exact H|].
  exact (searchByUsername_sorted Sample.search
           (Sample.request "" "" "" (Sample.user "" "") None)
           Sample.crowd Sample.crowd _ H).
Defined.

(** The sample search, sorted: equal names stay next to each other. *)
Example search_crowd_sorted :
  fst (UserController.searchByUsername Sample.search
         (Sample.request "" "" "" (Sample.user "" "") None) Sample.crowd)
  = Resolved (json_users [Sample.al; Sample.alice; Sample.alice; Sample.bob; Sample.carol]).
Proof. reflexivity. Qed.

(** * Further properties *)

(** ** The bookmark toggle, on any store *)

(** The toggle, case by case: the lookup, then the delete or the create,
    each of which may fail. *)
Lemma toggle_cases (w : World) (req : Request) :
  let userId := BookmarkController.userId_of req in
  let tid := StringId (params_tid req) in
  BookmarkController.userTogglesTuitBookmarks req w =
  if faults w (Q_findUserBookmarksTuit (toString userId) (toString tid))
  then (Resolved (sendStatus 404), w)
  else if bookmarked (store w) userId tid
       then if faults w (Q_userUnbookmarksTuit (toString userId) (toString tid))
            then (Resolved (sendStatus 404), w)
            else (Resolved (sendStatus 200),
                  mkWorld (set_bookmarks (store w)
                             (List.filter (fun r => negb (joins userId tid r))
                                          (bookmarks (store w))))
                          (faults w))
       else if faults w (Q_userBookmarksTuit (toString userId) (toString tid))
            then (Resolved (sendStatus 404), w)
            else (Resolved (sendStatus 200),
                  mkWorld (bump_oid
                             (set_bookmarks (store w)
                                (bookmarks (store w)
                                   ++ [mkJoin (fresh_oid (store w)) userId tid])%list))
                          (faults w)).
Proof.
  intros userId tid.
  unfold BookmarkController.userTogglesTuitBookmarks, try_catch.
  fold userId. fold tid.
  unfold bind at 1. unfold bind at 1.
  unfold BookmarkDao.findUserBookmarksTuit, query.
  destruct (faults w (Q_findUserBookmarksTuit _ _)); [reflexivity|].
  unfold bookmarked. rewrite existsb_find.
  destruct (List.find (joins userId tid) (bookmarks (store w))) as [r|].
  - unfold bind at 1, BookmarkDao.userUnbookmarksTuit, command.
    destruct (faults w (Q_userUnbookmarksTuit _ _)); reflexivity.
  - unfold bind at 1, BookmarkDao.userBookmarksTuit, command.
    destruct (faults w (Q_userBookmarksTuit _ _)); reflexivity.
Qed.

(** X1. Whatever the store does, the toggle answers: 200 or 404, never
    an unhandled rejection; and when it answers 404 the store is exactly
    as it was. *)
Theorem toggle_always_answers (w : World) (req : Request) :
  (fst (BookmarkController.userTogglesTuitBookmarks req w) = Resolved (sendStatus 200) \/
   fst (BookmarkController.userTogglesTuitBookmarks req w) = Resolved (sendStatus 404)) /\
  (fst (BookmarkController.userTogglesTuitBookmarks req w) = Resolved (sendStatus 404) ->
   snd (BookmarkController.userTogglesTuitBookmarks req w) = w).
Proof.
  rewrite toggle_cases.
  destruct (faults w (Q_findUserBookmarksTuit _ _)); [cbn; auto|].
  destruct (bookmarked (store w) _ _).
  - destruct (faults w (Q_userUnbookmarksTuit _ _)); cbn; [auto|].
    split; [auto | discriminate].
  - destruct (faults w (Q_userBookmarksTuit _ _)); cbn; [auto|].
    split; [auto | discriminate].
Qed.

Lemma existsb_ext_in {A} (f g : A -> bool) (l : list A) :
  (forall x, In x l -> f x = g x) -> existsb f l = existsb g l.
Proof.
  induction l as [|x l IH]; intros H; [reflexivity|].
  cbn. rewrite (H x) by (left; reflexivity).
  rewrite IH; [reflexivity|]. intros y Hy. apply H. right; exact Hy.
Qed.

Lemma existsb_filter_other {A} (f g : A -> bool) (l : list A) :
  (forall x, f x = true -> g x = false) ->
  existsb f (List.filter (fun x => negb (g x)) l) = existsb f l.
Proof.
  intros H. induction l as [|x l IH]; [reflexivity|].
  cbn. destruct (g x) eqn:Eg; cbn.
  - rewrite IH. destruct (f x) eqn:Ef; [|reflexivity].
    apply H in Ef. congruence.
  - rewrite IH. reflexivity.
Qed.

Lemma joins_other_pair (uid tid uid' tid' : ident) (r : JoinRecord) :
  (toString uid', toString tid') <> (toString uid, toString tid) ->
  joins uid' tid' r = true -> joins uid tid r = false.
Proof.
  intros Hne Hj. apply joins_spec in Hj as [Hu Ht].
  destruct (joins uid tid r) eqn:E; [|reflexivity].
  apply joins_spec in E as [Hu' Ht']. exfalso. apply Hne. congruence.
Qed.

Lemma toggle_other_pairs (w : World) (req : Request) (uid' tid' : ident) :
  (toString uid', toString tid') <>
  (toString (BookmarkController.userId_of req), params_tid req) ->
  bookmarked (store (snd (BookmarkController.userTogglesTuitBookmarks req w))) uid' tid'
  = bookmarked (store w) uid' tid'.
Proof.
  intros Hne. rewrite toggle_cases.
  destruct (faults w (Q_findUserBookmarksTuit _ _)); [reflexivity|].
  destruct (bookmarked (store w) _ _).
  - destruct (faults w (Q_userUnbookmarksTuit _ _)); [reflexivity|].
    unfold bookmarked. cbn [snd store bookmarks set_bookmarks].
    apply existsb_filter_other. intros r Hr.
    eapply joins_other_pair; [|exact Hr]. exact Hne.
  - destruct (faults w (Q_userBookmarksTuit _ _)); [reflexivity|].
    unfold bookmarked.
    cbn [snd store bookmarks set_bookmarks bump_oid]. rewrite existsb_app.
    cbn [existsb].
    assert (E : joins uid' tid'
                  (mkJoin (fresh_oid (store w)) (BookmarkController.userId_of req)
                          (StringId (params_tid req))) = false).
    { destruct (joins uid' tid' _) eqn:E; [|reflexivity].
      apply joins_spec in E as [Hu Ht]. cbn in Hu, Ht.
      exfalso. apply Hne. congruence. }
    rewrite E. rewrite !Bool.orb_false_r. reflexivity.
Qed.

(** X2. On any store, a toggle touches the bookmarks of its own pair
    only: users, tuits, likes and dislikes are as before, and whether any
    other (user, tuit) pair is bookmarked is unchanged. *)
Theorem toggle_frame (w : World) (req : Request) :
  let w1 := snd (BookmarkController.userTogglesTuitBookmarks req w) in
  users (store w1) = users (store w) /\
  tuits (store w1) = tuits (store w) /\
  likes (store w1) = likes (store w) /\
  dislikes (store w1) = dislikes (store w) /\
  faults w1 = faults w /\
  forall uid' tid',
    (toString uid', toString tid') <>
    (toString (BookmarkController.userId_of req), params_tid req) ->
    bookmarked (store w1) uid' tid' = bookmarked (store w) uid' tid'.
Proof.
  cbv zeta.
  assert (Hrest : forall w1,
             w1 = snd (BookmarkController.userTogglesTuitBookmarks req w) ->
             users (store w1) = users (store w) /\
             tuits (store w1) = tuits (store w) /\
             likes (store w1) = likes (store w) /\
             dislikes (store w1) = dislikes (store w) /\
             faults w1 = faults w).
  { intros w1 ->. rewrite toggle_cases.
    destruct (faults w (Q_findUserBookmarksTuit _ _)); [repeat split|].
    destruct (bookmarked (store w) _ _).
    - destruct (faults w (Q_userUnbookmarksTuit _ _)); repeat split.
    - destruct (faults w (Q_userBookmarksTuit _ _)); repeat split. }
  destruct (Hrest _ eq_refl) as (Hu & Ht & Hl & Hd & Hf).
  split; [exact Hu|]. split; [exact Ht|]. split; [exact Hl|].
  split; [exact Hd|]. split; [exact Hf|].
  intros uid' tid' Hne. apply toggle_other_pairs. exact Hne.
Qed.

Lemma NoDup_map_filter {A B} (f : A -> B) (p : A -> bool) (l : list A) :
  NoDup (List.map f l) -> NoDup (List.map f (List.filter p l)).
Proof.
  induction l as [|x l IH]; intros H; [constructor|].
  cbn in H. apply NoDup_cons in H as [Hx Hl].
  cbn. destruct (p x); [|apply IH; exact Hl].
  cbn. apply NoDup_cons. split; [|apply IH; exact Hl].
  intros Hin. apply Hx. apply list_elem_of_In in Hin. apply list_elem_of_In.
  apply in_map_iff in Hin as (y & Ey & Hy).
  apply filter_In in Hy as [Hy _]. apply in_map_iff. eauto.
Qed.

Lemma NoDup_map_snoc {A B} (f : A -> B) (l : list A) (x : A) :
  NoDup (List.map f l) -> ~ In (f x) (List.map f l) ->
  NoDup (List.map f (l ++ [x])).
Proof.
  intros Hl Hx. rewrite List.map_app. cbn.
  apply NoDup_app. split; [exact Hl|].
  split.
  - intros y Hy Hy'. apply list_elem_of_In in Hy.
    apply list_elem_of_In in Hy'. destruct Hy' as [<-|[]]. exact (Hx Hy).
  - apply NoDup_singleton.
Qed.

Lemma not_bookmarked_no_pair (s : Store) (uid tid : ident) :
  bookmarked s uid tid = false ->
  ~ In (toString uid, toString tid) (List.map pair_of (bookmarks s)).
Proof.
  unfold bookmarked. intros Hb Hin.
  apply in_map_iff in Hin as (r & Er & Hr).
  unfold pair_of in Er. injection Er as Eu Et.
  assert (joins uid tid r = true) by (apply joins_spec; auto).
  assert (existsb (joins uid tid) (bookmarks s) = true)
    by (apply existsb_exists; eauto).
  congruence.
Qed.

(** X3. A toggle served in isolation, no other request's store call
    falling between its lookup and its write, keeps the bookmarks at one
    record per (user, tuit) pair at most, on any store: it creates a
    record only for a pair that has none.  (Two toggles interleaved at
    the [await] do not, as shown further down.) *)
Theorem toggle_keeps_one_per_pair (w : World) (req : Request) :
  one_per_pair (bookmarks (store w)) ->
  one_per_pair (bookmarks (store (snd (BookmarkController.userTogglesTuitBookmarks req w)))).
Proof.
  intros Hone. rewrite toggle_cases.
  destruct (faults w (Q_findUserBookmarksTuit _ _)); [exact Hone|].
  destruct (bookmarked (store w) _ _) eqn:Eb.
  - destruct (faults w (Q_userUnbookmarksTuit _ _)); [exact Hone|].
    cbn. apply NoDup_map_filter. exact Hone.
  - destruct (faults w (Q_userBookmarksTuit _ _)); [exact Hone|].
    cbn. apply NoDup_map_snoc; [exact Hone|].
    apply (not_bookmarked_no_pair _ _ _ Eb).
Qed.

Lemma toggle_keeps_one_per_pair_witness :
  one_per_pair (bookmarks (store Sample.up)) /\
  one_per_pair
    (bookmarks
       (store (snd (BookmarkController.userTogglesTuitBookmarks
                      (Sample.request "a1" "01" "" (Sample.user "" "") None)
                      Sample.up)))).
Proof.
  assert (H : one_per_pair (bookmarks (store Sample.up))).
  { unfold one_per_pair. cbn. apply NoDup_singleton. }
  split; [exact H|].
  exact (toggle_keeps_one_per_pair Sample.up
           (Sample.request "a1" "01" "" (Sample.user "" "") None) H).
Defined.

Lemma joins_viewer (v1 v2 tid : ident) (r : JoinRecord) :
  toString v1 = toString v2 -> joins v1 tid r = joins v2 tid r.
Proof. intros E. unfold joins, same_id. rewrite E. reflexivity. Qed.

Lemma joins_tuit (v t1 t2 : ident) (r : JoinRecord) :
  toString t1 = toString t2 -> joins v t1 r = joins v t2 r.
Proof. intros E. unfold joins, same_id. rewrite E. reflexivity. Qed.

Lemma bookmarked_by_strings (s : Store) (u1 u2 t1 t2 : ident) :
  toString u1 = toString u2 -> toString t1 = toString t2 ->
  bookmarked s u1 t1 = bookmarked s u2 t2.
Proof.
  intros Eu Et. unfold bookmarked. apply existsb_ext_in. intros r _.
  rewrite (joins_viewer u1 u2 t1 r Eu). apply joins_tuit. exact Et.
Qed.

(** X4. The route parameter [me] stands for the user of the session: a
    toggle sent as [me] and a toggle sent under that user's identifier
    act on the same bookmark, the second undoing the first. *)
Theorem toggle_me_is_the_session_user (w : World) (req : Request) (profile : Doc User) :
  healthy w ->
  params_uid req = "me" ->
  session_profile req = Some profile ->
  let tid := StringId (params_tid req) in
  let by_id := mkRequest (toString (_id profile)) (params_tid req)
                         (params_username req) (body req) None in
  let w1 := snd (BookmarkController.userTogglesTuitBookmarks req w) in
  let w2 := snd (BookmarkController.userTogglesTuitBookmarks by_id w1) in
  bookmarked (store w1) (_id profile) tid = negb (bookmarked (store w) (_id profile) tid) /\
  bookmarked (store w2) (_id profile) tid = bookmarked (store w) (_id profile) tid.
Proof.
  intros Hw Hme Hsess tid by_id w1 w2.
  assert (Hreq : BookmarkController.userId_of req = _id profile).
  { unfold BookmarkController.userId_of. rewrite Hme, Hsess. reflexivity. }
  assert (Hby : toString (BookmarkController.userId_of by_id) = toString (_id profile)).
  { unfold BookmarkController.userId_of, by_id. cbn.
    destruct (String.eqb (toString (_id profile)) "me"); reflexivity. }
  destruct (toggle_once w req Hw) as (_ & Hw1 & _ & Hm1).
  fold w1 in Hw1, Hm1. rewrite Hreq in Hm1. fold tid in Hm1.
  destruct (toggle_once w1 by_id Hw1) as (_ & _ & _ & Hm2).
  fold w2 in Hm2.
  change (StringId (params_tid by_id)) with tid in Hm2.
  rewrite (bookmarked_by_strings (store w2) _ (_id profile) tid tid Hby eq_refl) in Hm2.
  rewrite (bookmarked_by_strings (store w1) _ (_id profile) tid tid Hby eq_refl) in Hm2.
  split; [exact Hm1|]. rewrite Hm2, Hm1. apply Bool.negb_involutive.
Qed.

Lemma toggle_me_is_the_session_user_witness :
  healthy Sample.up /\
  let req := Sample.request "me" "01" "" (Sample.user "" "") (Some Sample.alice) in
  let by_id := Sample.request "a1" "01" "" (Sample.user "" "") None in
  let w1 := snd (BookmarkController.userTogglesTuitBookmarks req Sample.up) in
  let w2 := snd (BookmarkController.userTogglesTuitBookmarks by_id w1) in
  bookmarked (store w1) (ObjectId "a1") (StringId "01")
  = negb (bookmarked (store Sample.up) (ObjectId "a1") (StringId "01")) /\
  bookmarked (store w2) (ObjectId "a1") (StringId "01")
  = bookmarked (store Sample.up) (ObjectId "a1") (StringId "01").
Proof.
  assert (H : healthy Sample.up) by (intros q; reflexivity).
  split; [exact H|].
  exact (toggle_me_is_the_session_user Sample.up
           (Sample.request "me" "01" "" (Sample.user "" "") (Some Sample.alice))
           Sample.alice H eq_refl eq_refl).
Defined.

(** ** The annotation service and the identity of the viewer *)

Lemma find_ext_all {A} (f g : A -> bool) (l : list A) :
  (forall x, f x = g x) -> List.find f l = List.find g l.
Proof.
  intros H. induction l as [|x l IH]; [reflexivity|].
  cbn. rewrite H, IH. reflexivity.
Qed.

Lemma settled_viewer (w : World) (v1 v2 : ident) (rs : list JoinRecord)
      (qf : ident -> TuitDoc -> Query) (t : TuitDoc) :
  toString v1 = toString v2 ->
  qf v1 t = qf v2 t ->
  settled w (qf v1 t) rs v1 (_id t) = settled w (qf v2 t) rs v2 (_id t).
Proof.
  intros E Eq. unfold settled. rewrite Eq.
  rewrite (find_ext_all (joins v1 (_id t)) (joins v2 (_id t)));
    [reflexivity|]. intros r. apply joins_viewer. exact E.
Qed.

Lemma decorate_viewer (v1 v2 : ident) (L D B : list (option string)) (t : TuitDoc) :
  toString v1 = toString v2 ->
  TuitService.decorate v1 L D B t = TuitService.decorate v2 L D B t.
Proof. intros E. unfold TuitService.decorate. rewrite E. reflexivity. Qed.

Lemma Array_map_ext {A B} (f g : A -> outcome B) (l : list A) :
  (forall x, f x = g x) -> Array_map f l = Array_map g l.
Proof.
  intros H. induction l as [|x l IH]; [reflexivity|].
  cbn. rewrite H, IH. reflexivity.
Qed.

(** X5. The service reads the viewer through [toString] only: an
    [ObjectId] from the session and the same identifier as a route
    string give the same outcome on every store and every list. *)
Theorem annotate_viewer_as_string (w : World) (v1 v2 : ident) (posts : list TuitDoc) :
  toString v1 = toString v2 ->
  TuitService.fetchTuitsForLikesDisLikeOwn v1 posts w =
  TuitService.fetchTuitsForLikesDisLikeOwn v2 posts w.
Proof.
  intros E. rewrite !fetch_unfold.
  rewrite (List.map_ext _ _
             (fun t => settled_viewer w v1 v2 (likes (store w)) like_query t E
                         ltac:(unfold like_query; rewrite E; reflexivity))).
  rewrite (List.map_ext _ _
             (fun t => settled_viewer w v1 v2 (dislikes (store w)) dislike_query t E
                         ltac:(unfold dislike_query; rewrite E; reflexivity))).
  rewrite (List.map_ext _ _
             (fun t => settled_viewer w v1 v2 (bookmarks (store w)) bookmark_query t E
                         ltac:(unfold bookmark_query; rewrite E; reflexivity))).
  destruct (Promise_all _); [|reflexivity].
  destruct (Promise_all _); [|reflexivity].
  destruct (Promise_all _); [|reflexivity].
  rewrite (Array_map_ext _ _ posts
             (fun t => decorate_viewer v1 v2 _ _ _ t E)).
  reflexivity.
Qed.

Lemma annotate_viewer_as_string_witness :
  toString (ObjectId "a1") = toString (StringId "a1") /\
  TuitService.fetchTuitsForLikesDisLikeOwn
    (ObjectId "a1") [Sample.p1; Sample.p2; Sample.p3] Sample.up =
  TuitService.fetchTuitsForLikesDisLikeOwn
    (StringId "a1") [Sample.p1; Sample.p2; Sample.p3] Sample.up.
Proof.
  split; [reflexivity|].
  exact (annotate_viewer_as_string Sample.up (ObjectId "a1") (StringId "a1")
           [Sample.p1; Sample.p2; Sample.p3] eq_refl).
Defined.

(** ** Annotation after a toggle *)

(** The decorated post, key by key. *)
Lemma decorate_value (viewer : ident) (L D B : list (option string)) (p : TuitDoc)
      (author : Doc User) :
  postedBy (fields p) = Some author ->
  TuitService.decorate viewer L D B p =
  Resolved
    (mkDecorated p
       (if (indexOf L (toString (_id p)) >=? 0)%Z then Some true else None)
       (if (indexOf D (toString (_id p)) >=? 0)%Z then Some true else None)
       (if (indexOf B (toString (_id p)) >=? 0)%Z then Some true else None)
       (if String.eqb (toString (_id author)) (toString viewer) then Some true else None)).
Proof.
  intros Ea. unfold TuitService.decorate.
  destruct (indexOf L _ >=? 0)%Z, (indexOf D _ >=? 0)%Z, (indexOf B _ >=? 0)%Z;
    cbn; rewrite Ea; destruct (String.eqb _ _); reflexivity.
Qed.

Lemma has_join_existsb (rs : list JoinRecord) (uid tid : ident) :
  has_join rs uid tid <-> existsb (joins uid tid) rs = true.
Proof.
  rewrite existsb_exists. unfold has_join.
  split; intros (r & Hr & H); exists r; (split; [exact Hr|]);
    apply joins_spec; exact H.
Qed.

(** The identifier of a post of the list is among the collected ones
    exactly when the pair has a record. *)
Lemma collected_found (viewer : ident) (rs : list JoinRecord) (posts : list TuitDoc)
      (p : TuitDoc) :
  In p posts ->
  (indexOf (collected viewer rs posts) (toString (_id p)) >=? 0)%Z =
  existsb (joins viewer (_id p)) rs.
Proof.
  intros Hp. apply Bool.eq_iff_eq_true.
  rewrite indexOf_found, (collected_ids viewer rs posts p Hp).
  apply has_join_existsb.
Qed.

Lemma healthy_lookups (w : World) (viewer : ident) (posts : list TuitDoc) :
  healthy w -> lookups_succeed w viewer posts.
Proof. intros Hw p _. repeat split; apply Hw. Qed.

(** On a healthy store, the decorated list in closed form. *)
Lemma fetch_healthy (w : World) (viewer : ident) (posts : list TuitDoc) :
  healthy w ->
  Forall authored posts ->
  exists out,
    TuitService.fetchTuitsForLikesDisLikeOwn viewer posts w = (Resolved out, w) /\
    forall (i : nat) (p : TuitDoc),
      posts !! i = Some p ->
      exists author,
        postedBy (fields p) = Some author /\
        out !! i =
        Some (mkDecorated p
                (if existsb (joins viewer (_id p)) (likes (store w))
                 then Some true else None)
                (if existsb (joins viewer (_id p)) (dislikes (store w))
                 then Some true else None)
                (if bookmarked (store w) viewer (_id p) then Some true else None)
                (if String.eqb (toString (_id author)) (toString viewer)
                 then Some true else None)).
Proof.
  intros Hw Hauth.
  destruct (fetch_authored w viewer posts (healthy_lookups w viewer posts Hw) Hauth)
    as (out & E & Hall).
  exists out. split; [exact E|].
  intros i p Hi.
  assert (Hp : In p posts).
  { apply list_elem_of_In. eapply list_elem_of_lookup_2. exact Hi. }
  assert (Ha : authored p).
  { rewrite Forall_forall in Hauth. apply Hauth. apply list_elem_of_In. exact Hp. }
  unfold authored in Ha.
  destruct (postedBy (fields p)) as [author|] eqn:Ea; [|congruence].
  exists author. split; [reflexivity|].
  destruct (Forall2_lookup_l _ _ _ _ _ Hall Hi) as (d & Hd & Edec).
  rewrite (decorate_value _ _ _ _ _ _ Ea) in Edec.
  rewrite !(collected_found viewer _ posts p Hp) in Edec.
  injection Edec as <-. exact Hd.
Qed.

(** X6. A toggle shows in the next listing: on a healthy store, for the
    viewer who toggled, the decorated copy of the toggled tuit has its
    [bookmarkedByMe] key flipped (present where it was absent, absent
    where it was present) and its other keys as before, and the
    decorated copies of all other tuits are the same as before. *)
Theorem bookmark_flag_follows_toggle (w : World) (req : Request) (posts : list TuitDoc) :
  healthy w ->
  Forall authored posts ->
  let viewer := BookmarkController.userId_of req in
  let w1 := snd (BookmarkController.userTogglesTuitBookmarks req w) in
  exists before after,
    TuitService.fetchTuitsForLikesDisLikeOwn viewer posts w = (Resolved before, w) /\
    TuitService.fetchTuitsForLikesDisLikeOwn viewer posts w1 = (Resolved after, w1) /\
    forall (i : nat) (p : TuitDoc),
      posts !! i = Some p ->
      exists d0 d1,
        before !! i = Some d0 /\
        after !! i = Some d1 /\
        if String.eqb (toString (_id p)) (params_tid req)
        then
          snapshot d1 = snapshot d0 /\
          likedByMe d1 = likedByMe d0 /\
          dislikedByMe d1 = dislikedByMe d0 /\
          ownedByMe d1 = ownedByMe d0 /\
          (bookmarkedByMe d1 = Some true <-> bookmarkedByMe d0 = None) /\
          (bookmarkedByMe d1 = None <-> bookmarkedByMe d0 = Some true)
        else d1 = d0.
Proof.
  intros Hw Hauth viewer w1.
  destruct (toggle_once w req Hw) as (_ & Hw1 & _ & Hflip).
  fold viewer w1 in Hw1, Hflip.
  assert (Hl : likes (store w1) = likes (store w))
    by (unfold w1; rewrite (toggle_run w req Hw); cbn [snd store];
        destruct (bookmarked (store w) _ _); reflexivity).
  assert (Hd : dislikes (store w1) = dislikes (store w))
    by (unfold w1; rewrite (toggle_run w req Hw); cbn [snd store];
        destruct (bookmarked (store w) _ _); reflexivity).
  pose proof (toggle_other_pairs w req) as Hother.
  fold w1 in Hother.
  destruct (fetch_healthy w viewer posts Hw Hauth) as (before & E0 & H0).
  destruct (fetch_healthy w1 viewer posts Hw1 Hauth) as (after & E1 & H1).
  exists before, after. split; [exact E0|]. split; [exact E1|].
  intros i p Hi.
  destruct (H0 i p Hi) as (author & Ea & Hd0).
  destruct (H1 i p Hi) as (author' & Ea' & Hd1).
  assert (author' = author) by congruence. subst author'.
  rewrite Hl, Hd in Hd1.
  eexists; eexists. split; [exact Hd0|]. split; [exact Hd1|].
  destruct (String.eqb (toString (_id p)) (params_tid req)) eqn:Eid.
  - apply String.eqb_eq in Eid. cbn.
    rewrite (bookmarked_by_strings (store w1) viewer viewer (_id p)
               (StringId (params_tid req)) eq_refl Eid).
    rewrite (bookmarked_by_strings (store w) viewer viewer (_id p)
               (StringId (params_tid req)) eq_refl Eid).
    rewrite Hflip.
    destruct (bookmarked (store w) viewer (StringId (params_tid req))); cbn;
      repeat split; intros; congruence.
  - apply String.eqb_neq in Eid.
    rewrite (Hother viewer (_id p)); [reflexivity|].
    intros Epair. injection Epair as Et. exact (Eid Et).
Qed.

Lemma bookmark_flag_follows_toggle_witness :
  healthy Sample.up /\
  Forall authored [Sample.p1; Sample.p2; Sample.p3] /\
  let req := Sample.request "a1" "01" "" (Sample.user "" "") None in
  let viewer := BookmarkController.userId_of req in
  let w1 := snd (BookmarkController.userTogglesTuitBookmarks req Sample.up) in
  exists before after,
    TuitService.fetchTuitsForLikesDisLikeOwn viewer [Sample.p1; Sample.p2; Sample.p3]
      Sample.up = (Resolved before, Sample.up) /\
    TuitService.fetchTuitsForLikesDisLikeOwn viewer [Sample.p1; Sample.p2; Sample.p3]
      w1 = (Resolved after, w1) /\
    forall (i : nat) (p : TuitDoc),
      [Sample.p1; Sample.p2; Sample.p3] !! i = Some p ->
      exists d0 d1,
        before !! i = Some d0 /\
        after !! i = Some d1 /\
        if String.eqb (toString (_id p)) "01"
        then
          snapshot d1 = snapshot d0 /\
          likedByMe d1 = likedByMe d0 /\
          dislikedByMe d1 = dislikedByMe d0 /\
          ownedByMe d1 = ownedByMe d0 /\
          (bookmarkedByMe d1 = Some true <-> bookmarkedByMe d0 = None) /\
          (bookmarkedByMe d1 = None <-> bookmarkedByMe d0 = Some true)
        else d1 = d0.
Proof.
  assert (H1 : healthy Sample.up) by (intros q; reflexivity).
  assert (H2 : Forall authored [Sample.p1; Sample.p2; Sample.p3])
    by (repeat constructor; discriminate).
  split; [exact H1|]. split; [exact H2|].
  exact (bookmark_flag_follows_toggle Sample.up
           (Sample.request "a1" "01" "" (Sample.user "" "") None)
           [Sample.p1; Sample.p2; Sample.p3] H1 H2).
Defined.

(** ** Deleting a user: what stays, what a failure leaves, deleting twice *)

Lemma filter_negb_In {A} (f : A -> bool) (l : list A) (x : A) :
  In x (List.filter (fun y => negb (f y)) l) <-> In x l /\ f x = false.
Proof. rewrite filter_In, Bool.negb_true_iff. reflexivity. Qed.

Lemma purged_others_kept (uid : ident) (s : Store) :
  others_kept uid s (purged uid s).
Proof.
  unfold others_kept, purged. cbn [users tuits likes dislikes bookmarks].
  split; [|split; [|split; [|split]]]; intros x.
  - apply (filter_negb_In (fun u => same_id (_id u) uid)).
  - apply (filter_negb_In (TuitDao.authored_by uid)).
  - apply (filter_negb_In (by_user uid)).
  - apply (filter_negb_In (by_user uid)).
  - apply (filter_negb_In (by_user uid)).
Qed.

Lemma adminDeleteUser_run (w : World) (req : Request) :
  healthy w ->
  UserController.adminDeleteUser req w =
  (Resolved (json_status
               (removed (users (store w))
                        (users (purged (StringId (params_uid req)) (store w))))),
   mkWorld (purged (StringId (params_uid req)) (store w)) (faults w)).
Proof.
  intros Hw. unfold UserController.adminDeleteUser.
  rewrite (cascade_run _ _ w Hw). reflexivity.
Qed.

Lemma session_delete_run (w : World) (req : Request) (profile : Doc User) :
  healthy w ->
  session_profile req = Some profile ->
  AuthenticationController.delete_ req w =
  (Resolved (json_status
               (removed (users (store w)) (users (purged (_id profile) (store w)))),
             None),
   mkWorld (purged (_id profile) (store w)) (faults w)).
Proof.
  intros Hw Hs. unfold AuthenticationController.delete_. rewrite Hs.
  rewrite (cascade_run _ _ w Hw). reflexivity.
Qed.

(** X7. A deletion removes nothing of the others: on a healthy store,
    after either route, every collection holds exactly the documents it
    held that do not refer to the deleted user, the records of the other
    users included. *)
Theorem deletion_keeps_the_others (w : World) (req : Request) :
  healthy w ->
  others_kept (StringId (params_uid req)) (store w)
              (store (snd (UserController.adminDeleteUser req w))) /\
  match session_profile req with
  | Some profile =>
      others_kept (_id profile) (store w)
                  (store (snd (AuthenticationController.delete_ req w)))
  | None => snd (AuthenticationController.delete_ req w) = w
  end.
Proof.
  intros Hw. split.
  - rewrite (adminDeleteUser_run w req Hw). cbn [snd store].
    apply purged_others_kept.
  - destruct (session_profile req) as [profile|] eqn:Hs.
    + rewrite (session_delete_run w req profile Hw Hs). cbn [snd store].
      apply purged_others_kept.
    + unfold AuthenticationController.delete_. rewrite Hs. reflexivity.
Qed.

Lemma deletion_keeps_the_others_witness :
  healthy Sample.up /\
  others_kept (StringId "a1") (store Sample.up)
    (store (snd (UserController.adminDeleteUser
                   (Sample.request "a1" "" "" (Sample.user "" "") (Some Sample.bob))
                   Sample.up))) /\
  others_kept (ObjectId "b2") (store Sample.up)
    (store (snd (AuthenticationController.delete_
                   (Sample.request "a1" "" "" (Sample.user "" "") (Some Sample.bob))
                   Sample.up))).
Proof.
  assert (H : healthy Sample.up) by (intros q; reflexivity).
  split; [exact H|].
  exact (deletion_keeps_the_others Sample.up
           (Sample.request "a1" "" "" (Sample.user "" "") (Some Sample.bob)) H).
Defined.

Lemma command_ok {A} (w : World) (q : Query) (write : Store -> A * Store) :
  faults w q = false ->
  command q write w =
  (Resolved (fst (write (store w))), mkWorld (snd (write (store w))) (faults w)).
Proof.
  intros Hq. unfold command. rewrite Hq. destruct (write (store w)); reflexivity.
Qed.

Lemma command_fails {A} (w : World) (q : Query) (write : Store -> A * Store) :
  faults w q = true -> command q write w = (Rejected StoreError, w).
Proof. intros Hq. unfold command. rewrite Hq. reflexivity. Qed.

(** The cascade when only its last step fails. *)
Lemma cascade_last_step_fails (w : World) (req : Request) :
  faults w (Q_deleteAllTuitsByUser (params_uid req)) = false ->
  faults w (Q_deleteAllBookmarksByUser (params_uid req)) = false ->
  faults w (Q_deleteAllDislikesByUser (params_uid req)) = false ->
  faults w (Q_deleteAllLikesByUser (params_uid req)) = false ->
  faults w (Q_deleteUser (params_uid req)) = true ->
  UserController.adminDeleteUser req w =
  (Rejected StoreError,
   mkWorld (set_users (purged (StringId (params_uid req)) (store w)) (users (store w)))
           (faults w)).
Proof.
  intros Ht Hb Hd Hl Hu.
  unfold UserController.adminDeleteUser.
  unfold TuitDao.deleteAllTuitsByUser, BookmarkDao.deleteAllBookmarksByUser,
    DislikeDao.deleteAllDislikesByUser, LikeDao.deleteAllLikesByUser,
    UserDao.deleteUser.
  cbn [toString].
  unfold bind at 1. rewrite command_ok by exact Ht. cbn [fst snd].
  unfold bind at 1. rewrite command_ok by exact Hb. cbn [fst snd store faults].
  unfold bind at 1. rewrite command_ok by exact Hd. cbn [fst snd store faults].
  unfold bind at 1. rewrite command_ok by exact Hl. cbn [fst snd store faults].
  unfold bind at 1. rewrite command_fails by exact Hu.
  reflexivity.
Qed.

(** X8. The deletion is not atomic: when the four bulk deletes succeed
    and the final user delete fails, the admin route sends no response
    and leaves the user in the store with all their tuits, likes,
    dislikes and bookmarks gone. *)
Theorem deletion_not_atomic (w : World) (req : Request) :
  let uid := params_uid req in
  faults w (Q_deleteAllTuitsByUser uid) = false ->
  faults w (Q_deleteAllBookmarksByUser uid) = false ->
  faults w (Q_deleteAllDislikesByUser uid) = false ->
  faults w (Q_deleteAllLikesByUser uid) = false ->
  faults w (Q_deleteUser uid) = true ->
  fst (UserController.adminDeleteUser req w) = Rejected StoreError /\
  users (store (snd (UserController.adminDeleteUser req w))) = users (store w) /\
  no_trace_of (StringId uid) (store (snd (UserController.adminDeleteUser req w))).
Proof.
  intros uid Ht Hb Hd Hl Hu.
  rewrite (cascade_last_step_fails w req Ht Hb Hd Hl Hu). cbn [fst snd store].
  split; [reflexivity|]. split; [reflexivity|].
  unfold no_trace_of, purged.
  cbn [users tuits likes dislikes bookmarks set_users].
  repeat split; intros x Hx; apply (filter_negb_clears _ _ _ Hx).
Qed.

Lemma deletion_not_atomic_witness :
  faults Sample_rest.user_delete_down (Q_deleteAllTuitsByUser "a1") = false /\
  faults Sample_rest.user_delete_down (Q_deleteAllBookmarksByUser "a1") = false /\
  faults Sample_rest.user_delete_down (Q_deleteAllDislikesByUser "a1") = false /\
  faults Sample_rest.user_delete_down (Q_deleteAllLikesByUser "a1") = false /\
  faults Sample_rest.user_delete_down (Q_deleteUser "a1") = true /\
  fst (UserController.adminDeleteUser
         (Sample.request "a1" "" "" (Sample.user "" "") None)
         Sample_rest.user_delete_down) = Rejected StoreError /\
  users (store (snd (UserController.adminDeleteUser
                       (Sample.request "a1" "" "" (Sample.user "" "") None)
                       Sample_rest.user_delete_down)))
  = users (store Sample_rest.user_delete_down) /\
  no_trace_of (StringId "a1")
    (store (snd (UserController.adminDeleteUser
                   (Sample.request "a1" "" "" (Sample.user "" "") None)
                   Sample_rest.user_delete_down))).
Proof.
  do 5 (split; [reflexivity|]).
  exact (deletion_not_atomic Sample_rest.user_delete_down
           (Sample.request "a1" "" "" (Sample.user "" "") None)
           eq_refl eq_refl eq_refl eq_refl eq_refl).
Defined.

Lemma filter_idempotent {A} (f : A -> bool) (l : list A) :
  List.filter f (List.filter f l) = List.filter f l.
Proof.
  induction l as [|x l IH]; [reflexivity|].
  cbn. destruct (f x) eqn:E; cbn; [rewrite E, IH|rewrite IH]; reflexivity.
Qed.

Lemma purged_idempotent (uid : ident) (s : Store) :
  purged uid (purged uid s) = purged uid s.
Proof.
  unfold purged. cbn [users tuits likes dislikes bookmarks next_oid].
  rewrite !filter_idempotent. reflexivity.
Qed.

Lemma removed_none {A} (l : list A) : removed l l = 0%N.
Proof. unfold removed. rewrite Nat.sub_diag. reflexivity. Qed.

(** X9. Deleting a user twice is deleting them once: on a healthy store
    the second deletion changes nothing and reports that no user document
    was removed. *)
Theorem deletion_idempotent (w : World) (req : Request) :
  healthy w ->
  let w1 := snd (UserController.adminDeleteUser req w) in
  UserController.adminDeleteUser req w1 = (Resolved (json_status 0), w1).
Proof.
  intros Hw w1. unfold w1.
  rewrite (adminDeleteUser_run w req Hw). cbn [snd].
  rewrite adminDeleteUser_run by (apply healthy_after; exact Hw).
  cbn [store faults]. rewrite purged_idempotent, removed_none. reflexivity.
Qed.

Lemma deletion_idempotent_witness :
  healthy Sample.up /\
  let w1 := snd (UserController.adminDeleteUser
                   (Sample.request "a1" "" "" (Sample.user "" "") None) Sample.up) in
  UserController.adminDeleteUser
    (Sample.request "a1" "" "" (Sample.user "" "") None) w1
  = (Resolved (json_status 0), w1).
Proof.
  assert (H : healthy Sample.up) by (intros q; reflexivity).
  split; [exact H|].
  exact (deletion_idempotent Sample.up
           (Sample.request "a1" "" "" (Sample.user "" "") None) H).
Defined.

(** ** Sessions: signing up, logging in, reading the profile, leaving *)

Lemma find_snoc_none {A} (f : A -> bool) (l : list A) (x : A) :
  List.find f l = None ->
  List.find f (l ++ [x]) = if f x then Some x else None.
Proof.
  induction l as [|y l IH]; intros H; [reflexivity|].
  cbn in *. destruct (f y); [discriminate|]. apply IH. exact H.
Qed.

Lemma not_taken_find (s : Store) (name : string) :
  username_taken s name = false ->
  List.find (fun u => String.eqb (username (fields u)) name) (users s) = None.
Proof.
  intros H. pose proof (find_username_taken s name) as Hf.
  destruct (List.find _ (users s)); [congruence | reflexivity].
Qed.

(** Signing up under a free username, on a healthy store. *)
Lemma signup_fresh `{Bcrypt} (w : World) (req : Request) :
  healthy w ->
  username_taken (store w) (username (body req)) = false ->
  let d := mkDoc (fresh_oid (store w))
                 (with_password (bcrypt_hash (password (body req)) saltRounds) (body req)) in
  AuthenticationController.signup req w =
  (Resolved (json_user (set_password "*****" d), Some (set_password "*****" d)),
   mkWorld (with_user (store w) d) (faults w)).
Proof.
  intros Hw Hfree d.
  unfold AuthenticationController.signup, UserDao.findUserByUsername.
  rewrite bind_query_healthy by exact Hw.
  change (username (with_password _ (body req))) with (username (body req)).
  rewrite (not_taken_find _ _ Hfree).
  unfold UserDao.createUser. rewrite bind_command_healthy by exact Hw.
  reflexivity.
Qed.

(** X10. Signing up and then logging in: on a healthy store, with a
    free username and a [bcrypt] whose [compare] accepts the hash of the
    same password, signup answers with a user, and a login with the same
    username and password right after answers with that same user and
    opens the session on it. *)
Theorem signup_then_login `{Bcrypt} (w : World) (req : Request) :
  healthy w ->
  username_taken (store w) (username (body req)) = false ->
  bcrypt_compare (password (body req))
                 (bcrypt_hash (password (body req)) saltRounds) = true ->
  exists u,
    fst (AuthenticationController.signup req w) = Resolved (json_user u, Some u) /\
    password (fields u) = "*****" /\
    AuthenticationController.login req (snd (AuthenticationController.signup req w)) =
    (Resolved (json_user u, Some u), snd (AuthenticationController.signup req w)).
Proof.
  intros Hw Hfree Hcmp.
  rewrite (signup_fresh w req Hw Hfree). cbn [fst snd].
  eexists. split; [reflexivity|]. split; [reflexivity|].
  unfold AuthenticationController.login, UserDao.findUserByUsername.
  rewrite bind_query_healthy by (apply healthy_after; exact Hw).
  cbn [store with_user bump_oid set_users users].
  rewrite (find_snoc_none _ _ _ (not_taken_find _ _ Hfree)).
  cbn [fields username with_password]. rewrite String.eqb_refl.
  cbn [fields password with_password]. rewrite Hcmp. reflexivity.
Qed.

Lemma signup_then_login_witness :
  healthy Sample.up /\
  username_taken (store Sample.up) "dave" = false /\
  @bcrypt_compare Sample.tagged "secret"
    (@bcrypt_hash Sample.tagged "secret" saltRounds) = true /\
  exists u,
    fst (@AuthenticationController.signup Sample.tagged
           (Sample.request "" "" "" (Sample.user "dave" "secret") None) Sample.up)
    = Resolved (json_user u, Some u) /\
    password (fields u) = "*****" /\
    @AuthenticationController.login Sample.tagged
      (Sample.request "" "" "" (Sample.user "dave" "secret") None)
      (snd (@AuthenticationController.signup Sample.tagged
              (Sample.request "" "" "" (Sample.user "dave" "secret") None) Sample.up))
    = (Resolved (json_user u, Some u),
       snd (@AuthenticationController.signup Sample.tagged
              (Sample.request "" "" "" (Sample.user "dave" "secret") None) Sample.up)).
Proof.
  assert (H1 : healthy Sample.up) by (intros q; reflexivity).
  split; [exact H1|]. split; [reflexivity|]. split; [reflexivity|].
  exact (@signup_then_login Sample.tagged Sample.up
           (Sample.request "" "" "" (Sample.user "dave" "secret") None)
           H1 eq_refl eq_refl).
Defined.

Lemma NoDup_map_inj_in {A B} (f : A -> B) (l : list A) (x y : A) :
  NoDup (List.map f l) -> In x l -> In y l -> f x = f y -> x = y.
Proof.
  induction l as [|a l IH]; intros Hnd Hx Hy E; [destruct Hx|].
  cbn in Hnd. apply NoDup_cons in Hnd as [Ha Hl].
  assert (Hin : forall z, In z l -> f z <> f a).
  { intros z Hz Ez. apply Ha. apply list_elem_of_In. rewrite <- Ez.
    apply in_map. exact Hz. }
  destruct Hx as [<-|Hx], Hy as [<-|Hy].
  - reflexivity.
  - exfalso. apply (Hin y Hy). congruence.
  - exfalso. apply (Hin x Hx). congruence.
  - apply IH; assumption.
Qed.

Lemma find_the_one {A} (f : A -> bool) (l : list A) (x : A) :
  In x l -> f x = true -> (forall y, In y l -> f y = true -> y = x) ->
  List.find f l = Some x.
Proof.
  intros Hx Hfx Huniq.
  destruct (List.find f l) as [y|] eqn:E.
  - apply find_some in E as [Hy Hfy]. f_equal. apply Huniq; assumption.
  - apply (find_none _ _ E) in Hx. congruence.
Qed.

Lemma find_by_id (s : Store) (u : Doc User) :
  unique_ids s -> In u (users s) ->
  List.find (fun x => same_id (_id x) (_id u)) (users s) = Some u.
Proof.
  intros Hids Hu. apply find_the_one; [exact Hu | apply same_id_refl |].
  intros y Hy Hsame. apply same_id_eq in Hsame.
  exact (NoDup_map_inj_in (fun x => toString (_id x)) _ y u Hids Hy Hu Hsame).
Qed.

Lemma login_success `{Bcrypt} (req : Request) (w w' : World) (u : Doc User)
      (sess : option (Doc User)) :
  AuthenticationController.login req w = (Resolved (json_user u, sess), w') ->
  w' = w /\
  exists stored, In stored (users (store w)) /\
                 u = set_password "*****" stored /\ sess = Some u.
Proof.
  unfold AuthenticationController.login, bind, UserDao.findUserByUsername.
  match goal with
  | |- context [query ?q ?r w] => destruct (query_cases q r w) as [E|E]; rewrite E
  end; [discriminate|].
  destruct (List.find _ (users (store w))) as [existing|] eqn:Ef; [|discriminate].
  destruct (bcrypt_compare _ _); [|discriminate].
  unfold ret. intros Eq. injection Eq as <- <- <-.
  split; [reflexivity|].
  apply find_some in Ef as [Hin _]. eauto.
Qed.

(** X11. Logging in and then reading the profile: when a login succeeds
    on a healthy store whose users have distinct identifiers, a profile
    request carrying the session that login opened answers with the same
    user, password masked. *)
Theorem login_then_profile `{Bcrypt} (w w' : World) (req req' : Request)
        (u : Doc User) (sess : option (Doc User)) :
  healthy w ->
  unique_ids (store w) ->
  AuthenticationController.login req w = (Resolved (json_user u, sess), w') ->
  session_profile req' = sess ->
  AuthenticationController.profile req' w' = (Resolved (json_user u, sess), w').
Proof.
  intros Hw Hids Hlogin Hsess.
  apply login_success in Hlogin as (-> & stored & Hin & -> & ->).
  unfold AuthenticationController.profile. rewrite Hsess.
  unfold UserDao.findUserById. rewrite bind_query_healthy by exact Hw.
  change (_id (set_password "*****" stored)) with (_id stored).
  rewrite (find_by_id _ _ Hids Hin). reflexivity.
Qed.

Lemma login_then_profile_witness :
  healthy Sample.up /\
  unique_ids (store Sample.up) /\
  @AuthenticationController.login Sample.tagged
    (Sample.request "" "" "" (Sample.user "alice" "alice") None) Sample.up
  = (Resolved (json_user (set_password "*****" Sample.alice),
               Some (set_password "*****" Sample.alice)), Sample.up) /\
  session_profile (Sample.request "" "" "" (Sample.user "" "")
                     (Some (set_password "*****" Sample.alice)))
  = Some (set_password "*****" Sample.alice) /\
  AuthenticationController.profile
    (Sample.request "" "" "" (Sample.user "" "")
       (Some (set_password "*****" Sample.alice))) Sample.up
  = (Resolved (json_user (set_password "*****" Sample.alice),
               Some (set_password "*****" Sample.alice)), Sample.up).
Proof.
  assert (H1 : healthy Sample.up) by (intros q; reflexivity).
  assert (H2 : unique_ids (store Sample.up)).
  { unfold unique_ids. cbn. apply NoDup_cons. split.
    - intros Hin. apply list_elem_of_In in Hin. destruct Hin as [E|[]]. discriminate.
    - apply NoDup_singleton. }
  split; [exact H1|]. split; [exact H2|]. split; [reflexivity|]. split; [reflexivity|].
  exact (@login_then_profile Sample.tagged Sample.up Sample.up
           (Sample.request "" "" "" (Sample.user "alice" "alice") None)
           (Sample.request "" "" "" (Sample.user "" "")
              (Some (set_password "*****" Sample.alice)))
           (set_password "*****" Sample.alice)
           (Some (set_password "*****" Sample.alice))
           H1 H2 eq_refl eq_refl).
Defined.

Lemma query_reads {A} (q : Query) (read : Store -> A) (w : World) :
  snd (query q read w) = w.
Proof. unfold query. destruct (faults w q); reflexivity. Qed.

(** X12. Login and profile never write: on any store and for any
    request, whatever they answer, the store after is the store before,
    so the mask put on the password reaches the response only and the
    stored hash stays; a repeated login gets the same answer. *)
Theorem login_and_profile_read_only `{Bcrypt} (w : World) (req : Request) :
  snd (AuthenticationController.login req w) = w /\
  snd (AuthenticationController.profile req w) = w /\
  AuthenticationController.login req (snd (AuthenticationController.login req w)) =
  AuthenticationController.login req w.
Proof.
  assert (Hl : snd (AuthenticationController.login req w) = w).
  { unfold AuthenticationController.login, bind, UserDao.findUserByUsername.
    match goal with
    | |- context [query ?q ?r w] => destruct (query_cases q r w) as [E|E]; rewrite E
    end; [reflexivity|].
    destruct (List.find _ (users (store w))); [|reflexivity].
    destruct (bcrypt_compare _ _); reflexivity. }
  split; [exact Hl|]. split; [|rewrite Hl; reflexivity].
  unfold AuthenticationController.profile.
  destruct (session_profile req); [|reflexivity].
  unfold bind, UserDao.findUserById.
  match goal with
  | |- context [query ?q ?r w] => destruct (query_cases q r w) as [E|E]; rewrite E
  end; [reflexivity|].
  destruct (List.find _ (users (store w))); reflexivity.
Qed.

(** Logging out ends the session: on any store, also one whose every
    call fails, logout answers 200, and with the session it leaves behind
    both the profile request and the session delete are answered 403
    without the store being touched. *)
Lemma logout_ends_the_session (w : World) (req : Request) :
  exists left_behind,
    AuthenticationController_rest.logout req w =
      (Resolved (sendStatus 200, left_behind), w) /\
    AuthenticationController.profile (with_session req left_behind) w =
      (Resolved (sendStatus 403, left_behind), w) /\
    AuthenticationController.delete_ (with_session req left_behind) w =
      (Resolved (sendStatus 403, left_behind), w).
Proof. exists None. repeat split. Qed.

Lemma find_none_iff {A} (f : A -> bool) (l : list A) :
  (forall x, In x l -> f x = false) -> List.find f l = None.
Proof.
  intros H. destruct (List.find f l) as [x|] eqn:E; [|reflexivity].
  apply find_some in E as [Hx Hfx]. rewrite (H x Hx) in Hfx. discriminate.
Qed.

(** X13. A deleted user cannot log in: after the session delete on a
    healthy store whose usernames are distinct, a login under the
    username of the deleted user is answered 403, whatever the
    password. *)
Theorem deleted_user_cannot_log_in `{Bcrypt} (w : World) (req login_req : Request)
        (profile stored : Doc User) :
  healthy w ->
  unique_usernames (store w) ->
  session_profile req = Some profile ->
  In stored (users (store w)) ->
  toString (_id stored) = toString (_id profile) ->
  username (body login_req) = username (fields stored) ->
  AuthenticationController.login login_req
    (snd (AuthenticationController.delete_ req w)) =
  (Resolved (sendStatus 403, session_profile login_req),
   snd (AuthenticationController.delete_ req w)).
Proof.
  intros Hw Hnames Hsess Hin Hid Hname.
  rewrite (session_delete_run w req profile Hw Hsess). cbn [snd].
  unfold AuthenticationController.login, UserDao.findUserByUsername.
  rewrite bind_query_healthy by (apply healthy_after; exact Hw).
  cbn [store purged users].
  rewrite find_none_iff; [reflexivity|].
  intros y Hy. apply filter_In in Hy as [Hy Hkeep].
  apply Bool.negb_true_iff in Hkeep.
  destruct (String.eqb (username (fields y)) (username (body login_req))) eqn:E;
    [|reflexivity].
  apply String.eqb_eq in E. rewrite Hname in E.
  assert (y = stored)
    by exact (NoDup_map_inj_in (fun u => username (fields u)) _ y stored Hnames Hy Hin E).
  subst y. apply same_id_eq in Hid. congruence.
Qed.

Lemma deleted_user_cannot_log_in_witness :
  healthy Sample.up /\
  unique_usernames (store Sample.up) /\
  In Sample.alice (users (store Sample.up)) /\
  @AuthenticationController.login Sample.tagged
    (Sample.request "" "" "" (Sample.user "alice" "alice") None)
    (snd (AuthenticationController.delete_
            (Sample.request "" "" "" (Sample.user "" "")
               (Some (set_password "*****" Sample.alice))) Sample.up))
  = (Resolved (sendStatus 403, None),
     snd (AuthenticationController.delete_
            (Sample.request "" "" "" (Sample.user "" "")
               (Some (set_password "*****" Sample.alice))) Sample.up)).
Proof.
  assert (H1 : healthy Sample.up) by (intros q; reflexivity).
  assert (H2 : unique_usernames (store Sample.up)).
  { unfold unique_usernames. cbn. apply NoDup_cons. split.
    - intros Hin. apply list_elem_of_In in Hin. destruct Hin as [E|[]]. discriminate.
    - apply NoDup_singleton. }
  assert (H3 : In Sample.alice (users (store Sample.up))) by (left; reflexivity).
  split; [exact H1|]. split; [exact H2|]. split; [exact H3|].
  exact (@deleted_user_cannot_log_in Sample.tagged Sample.up
           (Sample.request "" "" "" (Sample.user "" "")
              (Some (set_password "*****" Sample.alice)))
           (Sample.request "" "" "" (Sample.user "alice" "alice") None)
           (set_password "*****" Sample.alice) Sample.alice
           H1 H2 eq_refl H3 eq_refl eq_refl).
Defined.

(** ** Usernames stay distinct *)

Lemma with_user_unique (s : Store) (d : Doc User) :
  unique_usernames s ->
  username_taken s (username (fields d)) = false ->
  unique_usernames (with_user s d).
Proof.
  unfold unique_usernames. intros Hs Hfree.
  cbn [with_user bump_oid set_users users].
  apply NoDup_map_snoc; [exact Hs|].
  intros Hin. apply in_map_iff in Hin as (u & Eu & Hu).
  assert (username_taken s (username (fields d)) = true)
    by (apply username_taken_spec; eauto).
  congruence.
Qed.

Lemma command_cases {A} (q : Query) (write : Store -> A * Store) (w : World) :
  command q write w = (Rejected StoreError, w) \/
  command q write w =
  (Resolved (fst (write (store w))), mkWorld (snd (write (store w))) (faults w)).
Proof.
  unfold command. destruct (faults w q); [left; reflexivity|].
  right. destruct (write (store w)); reflexivity.
Qed.

(** The store after a guarded creation: as before, or with one user of
    a username that was free. *)
Lemma guarded_create_world {A} (name : string) (u : User) (k : Doc User -> Async A)
      (deny : Async A) (w : World) :
  username u = name ->
  (forall d w', snd (k d w') = w') ->
  snd (deny w) = w ->
  let run := (existingUser <- UserDao.findUserByUsername name ;;
              match existingUser with
              | Some _ => deny
              | None => inserted <- UserDao.createUser u ;; k inserted
              end) in
  snd (run w) = w \/
  (username_taken (store w) name = false /\
   exists d, username (fields d) = name /\
             snd (run w) = mkWorld (with_user (store w) d) (faults w)).
Proof.
  intros Hname Hk Hdeny run. unfold run, bind, UserDao.findUserByUsername.
  match goal with
  | |- context [query ?q ?r w] => destruct (query_cases q r w) as [E|E]; rewrite E
  end; [left; reflexivity|].
  pose proof (find_username_taken (store w) name) as Hfind.
  destruct (List.find _ (users (store w))); [left; exact Hdeny|].
  unfold UserDao.createUser.
  match goal with
  | |- context [command ?q ?wr w] => destruct (command_cases q wr w) as [E'|E']; rewrite E'
  end; [left; reflexivity|].
  right. split; [exact Hfind|].
  cbn [fst snd]. eexists. split; [|apply Hk]. exact Hname.
Qed.

(** X14. The guarded creations, each served in isolation (no other
    request's store call falling between its lookup and its creation),
    keep usernames distinct: if no two stored users share a username,
    this still holds after register, after adminCreateUser and after
    signup, on any store and whatever they answer.  (Two signups
    interleaved at the [await] do not, as shown further down.) *)
Theorem usernames_stay_unique `{Bcrypt} (w : World) (req : Request) :
  unique_usernames (store w) ->
  unique_usernames (store (snd (UserController.register req w))) /\
  unique_usernames (store (snd (UserController.adminCreateUser req w))) /\
  unique_usernames (store (snd (AuthenticationController.signup req w))).
Proof.
  intros Hu.
  assert (Hcase : forall w1,
             w1 = w \/
             (username_taken (store w) (username (body req)) = false /\
              exists d, username (fields d) = username (body req) /\
                        w1 = mkWorld (with_user (store w) d) (faults w)) ->
             unique_usernames (store w1)).
  { intros w1 [->|(Hfree & d & Hd & ->)]; [exact Hu|].
    cbn [store]. apply with_user_unique; [exact Hu|]. rewrite Hd. exact Hfree. }
  split; [|split]; apply Hcase.
  - apply (guarded_create_world (username (body req)) (body req)
             (fun newUser => ret (json_user newUser)) (ret (sendStatus 403)) w);
      reflexivity.
  - apply (guarded_create_world (username (body req))
             (with_password (bcrypt_hash (password (body req)) saltRounds) (body req))
             (fun user => ret (json_user user)) (ret (sendStatus 403)) w);
      reflexivity.
  - apply (guarded_create_world (username (body req))
             (with_password (bcrypt_hash (password (body req)) saltRounds) (body req))
             (fun insertedUser =>
                ret (json_user (set_password "*****" insertedUser),
                     Some (set_password "*****" insertedUser)))
             (ret (sendStatus 403, session_profile req)) w);
      reflexivity.
Qed.

Lemma usernames_stay_unique_witness :
  unique_usernames (store Sample.up) /\
  unique_usernames
    (store (snd (UserController.register
                   (Sample.request "" "" "" (Sample.user "dave" "secret") None)
                   Sample.up))) /\
  unique_usernames
    (store (snd (@UserController.adminCreateUser Sample.tagged
                   (Sample.request "" "" "" (Sample.user "dave" "secret") None)
                   Sample.up))) /\
  unique_usernames
    (store (snd (@AuthenticationController.signup Sample.tagged
                   (Sample.request "" "" "" (Sample.user "dave" "secret") None)
                   Sample.up))).
Proof.
  assert (H : unique_usernames (store Sample.up)).
  { unfold unique_usernames. cbn. apply NoDup_cons. split.
    - intros Hin. apply list_elem_of_In in Hin. destruct Hin as [E|[]]. discriminate.
    - apply NoDup_singleton. }
  split; [exact H|].
  exact (@usernames_stay_unique Sample.tagged Sample.up
           (Sample.request "" "" "" (Sample.user "dave" "secret") None) H).
Defined.

(** ** Updating a user *)

(** The two lookups of [updateUser] on a healthy store. *)
Lemma updateUser_lookups `{Bcrypt} (dao : ident -> User -> Async N)
      (w : World) (req : Request) :
  healthy w ->
  UserController_rest.updateUser dao req w =
  match List.find (fun u => same_id (_id u) (StringId (params_uid req)))
                  (users (store w)) with
  | None => (Rejected TypeError, w)
  | Some existingUser =>
      if String.eqb (username (fields existingUser)) (username (body req))
         || negb (username_taken (store w) (username (body req)))
      then
        (status <- dao (StringId (params_uid req))
                       (if truthy (password (body req))
                        then with_password
                               (bcrypt_hash (password (body req)) saltRounds) (body req)
                        else body req) ;;
         after_response (json_status status)
           (updatedUser <- UserDao.findUserById (StringId (params_uid req)) ;;
            match updatedUser with
            | None => throw TypeError
            | Some updatedUser => ret (set_password "*****" updatedUser)
            end)) w
      else (Resolved (sendStatus 403), w)
  end.
Proof.
  intros Hw. unfold UserController_rest.updateUser.
  unfold UserDao.findUserById at 1. rewrite bind_query_healthy by exact Hw.
  unfold UserDao.findUserByUsername. rewrite bind_query_healthy by exact Hw.
  pose proof (find_username_taken (store w) (username (body req))) as Ht.
  destruct (List.find (fun u => same_id (_id u) (StringId (params_uid req)))
                      (users (store w))) as [existing|]; [|reflexivity].
  destruct (List.find _ (users (store w))); rewrite Ht;
    destruct (String.eqb (username (fields existing)) (username (body req)));
    reflexivity.
Qed.

(** X15. A username that is taken is refused: on a healthy store, when
    the user to update exists, the new username differs from theirs and
    another stored user has it, [updateUser] answers 403 and the store
    is untouched, whatever the update DAO would do. *)
Theorem updateUser_refuses_taken_username `{Bcrypt} (dao : ident -> User -> Async N)
        (w : World) (req : Request) (existing : Doc User) :
  healthy w ->
  List.find (fun u => same_id (_id u) (StringId (params_uid req))) (users (store w))
  = Some existing ->
  username (fields existing) <> username (body req) ->
  username_taken (store w) (username (body req)) = true ->
  UserController_rest.updateUser dao req w = (Resolved (sendStatus 403), w).
Proof.
  intros Hw Hfind Hne Htaken.
  rewrite (updateUser_lookups dao w req Hw), Hfind, Htaken.
  apply String.eqb_neq in Hne. rewrite Hne. reflexivity.
Qed.

Lemma updateUser_refuses_taken_username_witness :
  healthy Sample.up /\
  List.find (fun u => same_id (_id u) (StringId "a1")) (users (store Sample.up))
  = Some Sample.alice /\
  username (fields Sample.alice) <> "bob" /\
  username_taken (store Sample.up) "bob" = true /\
  @UserController_rest.updateUser Sample.tagged Sample_rest.update
    (Sample.request "a1" "" "" (Sample.user "bob" "") None) Sample.up
  = (Resolved (sendStatus 403), Sample.up).
Proof.
  assert (H1 : healthy Sample.up) by (intros q; reflexivity).
  assert (H3 : username (fields Sample.alice) <> "bob") by discriminate.
  split; [exact H1|]. split; [reflexivity|]. split; [exact H3|]. split; [reflexivity|].
  exact (@updateUser_refuses_taken_username Sample.tagged Sample_rest.update Sample.up
           (Sample.request "a1" "" "" (Sample.user "bob" "") None)
           Sample.alice H1 eq_refl H3 eq_refl).
Defined.

(** X16. Updating a user that does not exist raises: on a healthy store
    with no user of the identifier, [updateUser] reads
    [existingUser.username] on [null]; the call is rejected with a
    [TypeError], no response is sent and the store is untouched. *)
Theorem updateUser_unknown_user_raises `{Bcrypt} (dao : ident -> User -> Async N)
        (w : World) (req : Request) :
  healthy w ->
  (forall u, In u (users (store w)) ->
             toString (_id u) <> params_uid req) ->
  UserController_rest.updateUser dao req w = (Rejected TypeError, w).
Proof.
  intros Hw Hnone.
  rewrite (updateUser_lookups dao w req Hw).
  rewrite find_none_iff; [reflexivity|].
  intros u Hu. destruct (same_id (_id u) (StringId (params_uid req))) eqn:E;
    [|reflexivity].
  apply same_id_eq in E. exfalso. exact (Hnone u Hu E).
Qed.

Lemma updateUser_unknown_user_raises_witness :
  healthy Sample.up /\
  (forall u, In u (users (store Sample.up)) -> toString (_id u) <> "zz") /\
  @UserController_rest.updateUser Sample.tagged Sample_rest.update
    (Sample.request "zz" "" "" (Sample.user "zed" "pw") None) Sample.up
  = (Rejected TypeError, Sample.up).
Proof.
  assert (H1 : healthy Sample.up) by (intros q; reflexivity).
  assert (H2 : forall u, In u (users (store Sample.up)) -> toString (_id u) <> "zz").
  { intros u [<-|[<-|[]]]; discriminate. }
  split; [exact H1|]. split; [exact H2|].
  exact (@updateUser_unknown_user_raises Sample.tagged Sample_rest.update Sample.up
           (Sample.request "zz" "" "" (Sample.user "zed" "pw") None) H1 H2).
Defined.

Lemma after_response_query {A B} (sent : Response) (q : Query) (read : Store -> A)
      (k : A -> Async B) (w : World) :
  (forall a w', snd (k a w') = w') ->
  after_response sent (bind (query q read) k) w = (Resolved sent, w).
Proof.
  intros Hk. unfold after_response, bind.
  destruct (query_cases q read w) as [E|E]; rewrite E; [reflexivity|].
  specialize (Hk (read (store w)) w).
  destruct (k (read (store w)) w) as [r w']. cbn in Hk. subst. reflexivity.
Qed.

(** X17. What [updateUser] hands to the store: on a healthy store, when
    the user exists and the new username is their own or free, the
    update DAO is called once, with the body whose password has been
    replaced by its [bcrypt] hash (the body as it is when the password
    is empty); the response is the status of that call, and what the
    handler does after the response (reading the user again, masking that
    copy) changes neither the response nor the store. *)
Theorem updateUser_stores_the_hash `{Bcrypt} (dao : ident -> User -> Async N)
        (w : World) (req : Request) (existing : Doc User) :
  healthy w ->
  List.find (fun u => same_id (_id u) (StringId (params_uid req))) (users (store w))
  = Some existing ->
  username (fields existing) = username (body req) \/
  username_taken (store w) (username (body req)) = false ->
  let userInfo :=
    if String.eqb (password (body req)) ""
    then body req
    else with_password (bcrypt_hash (password (body req)) saltRounds) (body req) in
  UserController_rest.updateUser dao req w =
  (match fst (dao (StringId (params_uid req)) userInfo w) with
   | Resolved status => Resolved (json_status status)
   | Rejected e => Rejected e
   end,
   snd (dao (StringId (params_uid req)) userInfo w)).
Proof.
  intros Hw Hfind Hguard userInfo.
  rewrite (updateUser_lookups dao w req Hw), Hfind.
  assert (Hg : String.eqb (username (fields existing)) (username (body req))
               || negb (username_taken (store w) (username (body req))) = true).
  { destruct Hguard as [E|E].
    - apply String.eqb_eq in E. rewrite E. reflexivity.
    - rewrite E. apply Bool.orb_true_r. }
  rewrite Hg.
  assert (Hinfo : (if truthy (password (body req))
                   then with_password (bcrypt_hash (password (body req)) saltRounds)
                                      (body req)
                   else body req) = userInfo).
  { unfold userInfo, truthy. destruct (String.eqb (password (body req)) ""); reflexivity. }
  rewrite Hinfo. unfold bind at 1.
  destruct (dao (StringId (params_uid req)) userInfo w) as [[status|e] w1];
    [|reflexivity].
  cbn [fst snd]. unfold UserDao.findUserById.
  apply after_response_query.
  intros [u|] w'; reflexivity.
Qed.

Lemma updateUser_stores_the_hash_witness :
  healthy Sample.up /\
  List.find (fun u => same_id (_id u) (StringId "a1")) (users (store Sample.up))
  = Some Sample.alice /\
  (username (fields Sample.alice) = "alice" \/
   username_taken (store Sample.up) "alice" = false) /\
  @UserController_rest.updateUser Sample.tagged Sample_rest.update
    (Sample.request "a1" "" "" (Sample.user "alice" "new") None) Sample.up
  = (match fst (Sample_rest.update (StringId "a1")
                  (Sample.user "alice" "$2b$10$new") Sample.up) with
     | Resolved status => Resolved (json_status status)
     | Rejected e => Rejected e
     end,
     snd (Sample_rest.update (StringId "a1")
            (Sample.user "alice" "$2b$10$new") Sample.up)).
Proof.
  assert (H1 : healthy Sample.up) by (intros q; reflexivity).
  assert (H3 : username (fields Sample.alice) = "alice" \/
               username_taken (store Sample.up) "alice" = false)
    by (left; reflexivity).
  split; [exact H1|]. split; [reflexivity|]. split; [exact H3|].
  exact (@updateUser_stores_the_hash Sample.tagged Sample_rest.update Sample.up
           (Sample.request "a1" "" "" (Sample.user "alice" "new") None)
           Sample.alice H1 eq_refl H3).
Defined.

(** The update on the sample store: the stored password of alice is the
    hash of the new one, not the text sent and not the mask. *)
Example update_alice_password :
  let r := @UserController_rest.updateUser Sample.tagged Sample_rest.update
             (Sample.request "a1" "" "" (Sample.user "alice" "new") None) Sample.up in
  fst r = Resolved (json_status 1) /\
  List.map (fun u => password (fields u)) (users (store (snd r)))
  = ["$2b$10$new"; "$2b$10$bob"].
Proof. vm_compute. split; reflexivity. Qed.

(** ** The bookmark listing *)

(** X18. The listing for [me] needs a session: when the route parameter
    is [me] and the session holds no profile, the handler answers 403
    without calling the DAO or the service, on any store. *)
Theorem listing_me_without_session
        (dao : ident -> Async (list Bookmark)) (w : World) (req : Request) :
  params_uid req = "me" ->
  session_profile req = None ->
  BookmarkController_rest.findAllTuitsBookmarkedByUser dao req w =
  (Resolved (tuits_sendStatus 403), w).
Proof.
  intros Hme Hs.
  unfold BookmarkController_rest.findAllTuitsBookmarkedByUser,
    BookmarkController.userId_of.
  rewrite Hme, Hs. reflexivity.
Qed.

Lemma listing_me_without_session_witness :
  params_uid (Sample.request "me" "" "" (Sample.user "" "") None) = "me" /\
  session_profile (Sample.request "me" "" "" (Sample.user "" "") None) = None /\
  BookmarkController_rest.findAllTuitsBookmarkedByUser
    (Sample_rest.listing [Sample.p1; Sample.p2])
    (Sample.request "me" "" "" (Sample.user "" "") None) Sample_rest.down
  = (Resolved (tuits_sendStatus 403), Sample_rest.down).
Proof.
  split; [reflexivity|]. split; [reflexivity|].
  exact (listing_me_without_session (Sample_rest.listing [Sample.p1; Sample.p2])
           Sample_rest.down
           (Sample.request "me" "" "" (Sample.user "" "") None) eq_refl eq_refl).
Defined.

Lemma tuits_of_non_null (bookmarks : list Bookmark) :
  List.map Some (BookmarkController_rest.tuits_of
                   (List.filter BookmarkController_rest.has_tuit bookmarks)) =
  List.filter (fun o => match o with Some _ => true | None => false end)
              (List.map bookmark_tuit bookmarks).
Proof.
  induction bookmarks as [|b bs IH]; [reflexivity|].
  unfold BookmarkController_rest.has_tuit at 1. cbn [List.filter List.map].
  destruct (bookmark_tuit b) as [t|] eqn:Eb.
  - cbn [BookmarkController_rest.tuits_of flat_map]. rewrite Eb.
    cbn [app List.map]. f_equal. exact IH.
  - exact IH.
Qed.

(** X19. The listing drops the bookmarks whose tuit is gone and keeps
    the order: when the DAO resolves to a list of bookmarks, the lookups
    succeed and the tuits have an author, the response holds one
    decorated tuit for each bookmark with a tuit, none for a bookmark
    whose tuit is [null], in the order of the bookmarks. *)
Theorem listing_drops_null_tuits
        (dao : ident -> Async (list Bookmark)) (w w' : World) (req : Request)
        (found : list Bookmark) :
  let userId := BookmarkController.userId_of req in
  let shown := BookmarkController_rest.tuits_of
                 (List.filter BookmarkController_rest.has_tuit found) in
  BookmarkController_rest.is_me userId = false ->
  dao userId w = (Resolved found, w') ->
  lookups_succeed w' userId shown ->
  Forall authored shown ->
  exists out,
    BookmarkController_rest.findAllTuitsBookmarkedByUser dao req w =
      (Resolved (tuits_json out), w') /\
    List.map Some (List.map snapshot out) =
      List.filter (fun o => match o with Some _ => true | None => false end)
                  (List.map bookmark_tuit found) /\
    length out = length (List.filter BookmarkController_rest.has_tuit found).
Proof.
  intros userId shown Hme Hdao Hok Hauth.
  destruct (annotate_order_preserved w' userId shown Hok Hauth) as (out & E & Hsnap).
  exists out. split; [|split].
  - unfold BookmarkController_rest.findAllTuitsBookmarkedByUser.
    fold userId. rewrite Hme. unfold bind at 1. rewrite Hdao.
    fold shown. unfold bind. rewrite E. reflexivity.
  - rewrite Hsnap. apply tuits_of_non_null.
  - rewrite <- (List.length_map snapshot out), Hsnap.
    rewrite <- (List.length_map Some shown). unfold shown.
    rewrite tuits_of_non_null.
    clear. induction found as [|b bs IH]; [reflexivity|].
    unfold BookmarkController_rest.has_tuit at 1. cbn [List.filter List.map].
    destruct (bookmark_tuit b); cbn [length]; [f_equal|]; exact IH.
Qed.

Lemma listing_drops_null_tuits_witness :
  let req := Sample.request "a1" "" "" (Sample.user "" "") None in
  let dao := Sample_rest.listing [Sample.p1; Sample.p2] in
  let found := [mkBookmark (ObjectId "e1") (ObjectId "a1") (Some Sample.p2);
                mkBookmark (ObjectId "e2") (ObjectId "a1") None;
                mkBookmark (ObjectId "e3") (ObjectId "a1") (Some Sample.p1)] in
  BookmarkController_rest.is_me (BookmarkController.userId_of req) = false /\
  dao (BookmarkController.userId_of req) Sample_rest.shelf
  = (Resolved found, Sample_rest.shelf) /\
  lookups_succeed Sample_rest.shelf (BookmarkController.userId_of req)
                  [Sample.p2; Sample.p1] /\
  Forall authored [Sample.p2; Sample.p1] /\
  exists out,
    BookmarkController_rest.findAllTuitsBookmarkedByUser dao req Sample_rest.shelf =
      (Resolved (tuits_json out), Sample_rest.shelf) /\
    List.map Some (List.map snapshot out) = [Some Sample.p2; Some Sample.p1] /\
    length out = 2.
Proof.
  cbv zeta.
  assert (H3 : lookups_succeed Sample_rest.shelf
                 (BookmarkController.userId_of
                    (Sample.request "a1" "" "" (Sample.user "" "") None))
                 [Sample.p2; Sample.p1]).
  { intros p _. cbn. auto. }
  assert (H4 : Forall authored [Sample.p2; Sample.p1])
    by (repeat constructor; discriminate).
  split; [reflexivity|]. split; [reflexivity|]. split; [exact H3|]. split; [exact H4|].
  exact (listing_drops_null_tuits (Sample_rest.listing [Sample.p1; Sample.p2])
           Sample_rest.shelf Sample_rest.shelf
           (Sample.request "a1" "" "" (Sample.user "" "") None)
           _ eq_refl eq_refl H3 H4).
Defined.

(** ** A username is given out once *)

Lemma taken_after_insert (s : Store) (d : Doc User) :
  username_taken (with_user s d) (username (fields d)) = true.
Proof.
  apply username_taken_spec. exists d. split; [|reflexivity].
  cbn [with_user bump_oid set_users users]. apply in_or_app. right. left. reflexivity.
Qed.

(** The three guarded creations on a healthy store where the username is
    taken. *)
Lemma taken_is_refused `{Bcrypt} (w : World) (req : Request) :
  healthy w ->
  username_taken (store w) (username (body req)) = true ->
  UserController.register req w = (Resolved (sendStatus 403), w) /\
  UserController.adminCreateUser req w = (Resolved (sendStatus 403), w) /\
  AuthenticationController.signup req w =
    (Resolved (sendStatus 403, session_profile req), w).
Proof.
  intros Hw Htaken.
  unfold UserController.register, UserController.adminCreateUser,
    AuthenticationController.signup, UserDao.findUserByUsername.
  change (username (with_password _ (body req))) with (username (body req)).
  rewrite !bind_query_healthy by exact Hw.
  pose proof (find_username_taken (store w) (username (body req))) as Hfind.
  destruct (List.find _ (users (store w))); [|congruence].
  repeat split; reflexivity.
Qed.

(** X20. A username is given out once: after a signup that created a
    user on a healthy store, a register, an admin-create and a second
    signup under the same username are each answered 403 and leave the
    store as the first signup left it. *)
Theorem username_given_out_once `{Bcrypt} (w : World) (req again : Request) :
  healthy w ->
  username_taken (store w) (username (body req)) = false ->
  username (body again) = username (body req) ->
  let w1 := snd (AuthenticationController.signup req w) in
  UserController.register again w1 = (Resolved (sendStatus 403), w1) /\
  UserController.adminCreateUser again w1 = (Resolved (sendStatus 403), w1) /\
  AuthenticationController.signup again w1 =
    (Resolved (sendStatus 403, session_profile again), w1).
Proof.
  intros Hw Hfree Hsame w1. unfold w1.
  rewrite (signup_fresh w req Hw Hfree). cbn [snd].
  apply taken_is_refused; [apply healthy_after; exact Hw|].
  cbn [store]. rewrite Hsame.
  exact (taken_after_insert (store w)
           (mkDoc (fresh_oid (store w))
                  (with_password (bcrypt_hash (password (body req)) saltRounds)
                                 (body req)))).
Qed.

Lemma username_given_out_once_witness :
  healthy Sample.up /\
  username_taken (store Sample.up) "dave" = false /\
  let req := Sample.request "" "" "" (Sample.user "dave" "secret") None in
  let again := Sample.request "" "" "" (Sample.user "dave" "other") None in
  let w1 := snd (@AuthenticationController.signup Sample.tagged req Sample.up) in
  UserController.register again w1 = (Resolved (sendStatus 403), w1) /\
  @UserController.adminCreateUser Sample.tagged again w1
  = (Resolved (sendStatus 403), w1) /\
  @AuthenticationController.signup Sample.tagged again w1
  = (Resolved (sendStatus 403, None), w1).
Proof.
  assert (H1 : healthy Sample.up) by (intros q; reflexivity).
  split; [exact H1|]. split; [reflexivity|].
  exact (@username_given_out_once Sample.tagged Sample.up
           (Sample.request "" "" "" (Sample.user "dave" "secret") None)
           (Sample.request "" "" "" (Sample.user "dave" "other") None)
           H1 eq_refl eq_refl).
Defined.

(** ** What a deleted user is shown *)

Lemma joins_by_user (uid tid : ident) (r : JoinRecord) :
  joins uid tid r = true -> by_user uid r = true.
Proof. unfold joins, by_user. intros E. apply Bool.andb_true_iff in E. tauto. Qed.

Lemma no_join_after_purge (uid tid : ident) (rs : list JoinRecord) :
  existsb (joins uid tid) (List.filter (fun r => negb (by_user uid r)) rs) = false.
Proof.
  induction rs as [|r rs IH]; [reflexivity|].
  cbn. destruct (by_user uid r) eqn:E; cbn; [exact IH|].
  rewrite IH. destruct (joins uid tid r) eqn:Ej; [|reflexivity].
  apply joins_by_user in Ej. congruence.
Qed.

(** X21. A deleted user is shown no key of theirs: after the admin
    deletion of a user on a healthy store, the service called for that
    user on any list of authored tuits decorates none of them with
    [likedByMe], [dislikedByMe] or [bookmarkedByMe]. *)
Theorem deleted_user_sees_no_flags (w : World) (req : Request) (posts : list TuitDoc) :
  healthy w ->
  Forall authored posts ->
  let viewer := StringId (params_uid req) in
  let w1 := snd (UserController.adminDeleteUser req w) in
  exists out,
    TuitService.fetchTuitsForLikesDisLikeOwn viewer posts w1 = (Resolved out, w1) /\
    length out = length posts /\
    forall d, In d out ->
              likedByMe d = None /\ dislikedByMe d = None /\ bookmarkedByMe d = None.
Proof.
  intros Hw Hauth viewer w1.
  assert (Hw1 : healthy w1).
  { unfold w1. rewrite (adminDeleteUser_run w req Hw). apply healthy_after. exact Hw. }
  destruct (fetch_healthy w1 viewer posts Hw1 Hauth) as (out & E & Hout).
  destruct (annotate_order_preserved w1 viewer posts
              (healthy_lookups w1 viewer posts Hw1) Hauth) as (out' & E' & Hsnap).
  assert (out' = out) by congruence. subst out'.
  exists out. split; [exact E|].
  assert (Hlen : length out = length posts).
  { rewrite <- Hsnap. rewrite List.length_map. reflexivity. }
  split; [exact Hlen|].
  intros d Hd. apply list_elem_of_In in Hd.
  apply list_elem_of_lookup_1 in Hd as [i Hi].
  destruct (posts !! i) as [p|] eqn:Ep.
  - destruct (Hout i p Ep) as (author & _ & Hdi).
    rewrite Hi in Hdi. injection Hdi as ->. cbn.
    unfold bookmarked, w1. rewrite (adminDeleteUser_run w req Hw).
    cbn [snd store purged likes dislikes bookmarks]. fold viewer.
    rewrite !no_join_after_purge. repeat split.
  - apply lookup_ge_None in Ep. apply lookup_lt_Some in Hi. lia.
Qed.

Lemma deleted_user_sees_no_flags_witness :
  healthy Sample.up /\
  Forall authored [Sample.p1; Sample.p2] /\
  let req := Sample.request "a1" "" "" (Sample.user "" "") None in
  let w1 := snd (UserController.adminDeleteUser req Sample.up) in
  exists out,
    TuitService.fetchTuitsForLikesDisLikeOwn (StringId "a1") [Sample.p1; Sample.p2] w1
    = (Resolved out, w1) /\
    length out = 2 /\
    forall d, In d out ->
              likedByMe d = None /\ dislikedByMe d = None /\ bookmarkedByMe d = None.
Proof.
  assert (H1 : healthy Sample.up) by (intros q; reflexivity).
  assert (H2 : Forall authored [Sample.p1; Sample.p2])
    by (repeat constructor; discriminate).
  split; [exact H1|]. split; [exact H2|].
  exact (deleted_user_sees_no_flags Sample.up
           (Sample.request "a1" "" "" (Sample.user "" "") None)
           [Sample.p1; Sample.p2] H1 H2).
Defined.

(** ** Requests interleaved at an [await] *)

(** The cut of the toggle is the toggle: served alone, the lookup and
    the rest make the handler. *)
Lemma toggle_cut (req : Request) (w : World) :
  (looked <- launch (BookmarkController_rest.toggle_lookup req) ;;
   BookmarkController_rest.toggle_finish req looked) w =
  BookmarkController.userTogglesTuitBookmarks req w.
Proof.
  unfold BookmarkController_rest.toggle_finish, BookmarkController_rest.toggle_lookup,
    BookmarkController.userTogglesTuitBookmarks, BookmarkDao.findUserBookmarksTuit.
  rewrite bind_launch_query. unfold try_catch, bind at 1 3, await, bind at 1 3, query.
  destruct (faults w (Q_findUserBookmarksTuit _ _)); reflexivity.
Qed.

Lemma not_bookmarked_find (s : Store) (uid tid : ident) :
  bookmarked s uid tid = false -> List.find (joins uid tid) (bookmarks s) = None.
Proof.
  unfold bookmarked. rewrite existsb_find.
  destruct (List.find _ (bookmarks s)); [discriminate | reflexivity].
Qed.

(** The two toggles of one absent pair, interleaved, on a healthy
    store. *)
Lemma toggles_interleaved_run (w : World) (req1 req2 : Request) :
  healthy w ->
  bookmarked (store w) (BookmarkController.userId_of req1) (StringId (params_tid req1))
  = false ->
  toString (BookmarkController.userId_of req2) =
  toString (BookmarkController.userId_of req1) ->
  params_tid req2 = params_tid req1 ->
  BookmarkController_rest.toggles_interleaved req1 req2 w =
  (Resolved (sendStatus 200, sendStatus 200),
   mkWorld
     (bump_oid
        (set_bookmarks
           (bump_oid
              (set_bookmarks (store w)
                 (bookmarks (store w)
                    ++ [mkJoin (fresh_oid (store w)) (BookmarkController.userId_of req1)
                               (StringId (params_tid req1))])%list))
           ((bookmarks (store w)
               ++ [mkJoin (fresh_oid (store w)) (BookmarkController.userId_of req1)
                          (StringId (params_tid req1))])
              ++ [mkJoin (fresh_oid
                            (bump_oid
                               (set_bookmarks (store w)
                                  (bookmarks (store w)
                                     ++ [mkJoin (fresh_oid (store w))
                                                (BookmarkController.userId_of req1)
                                                (StringId (params_tid req1))])%list)))
                         (BookmarkController.userId_of req2)
                         (StringId (params_tid req2))])%list))
     (faults w)).
Proof.
  intros Hw Habsent Hu Ht.
  assert (Habsent2 : bookmarked (store w) (BookmarkController.userId_of req2)
                                (StringId (params_tid req2)) = false).
  { rewrite <- Habsent. apply bookmarked_by_strings; [exact Hu|]. cbn. exact Ht. }
  unfold BookmarkController_rest.toggles_interleaved,
    BookmarkController_rest.toggle_lookup, BookmarkDao.findUserBookmarksTuit.
  rewrite !bind_launch_query. rewrite !(Hw _).
  rewrite (not_bookmarked_find _ _ _ Habsent), (not_bookmarked_find _ _ _ Habsent2).
  unfold BookmarkController_rest.toggle_finish, try_catch, await.
  unfold bind at 1. unfold bind at 1. unfold bind at 1. unfold bind at 1.
  unfold BookmarkDao.userBookmarksTuit at 1.
  rewrite (command_healthy w) by exact Hw. cbn [fst snd ret].
  unfold bind at 1. unfold bind at 1. unfold bind at 1. unfold bind at 1.
  unfold BookmarkDao.userBookmarksTuit.
  rewrite command_healthy by (apply healthy_after; exact Hw).
  reflexivity.
Qed.

(** X23. The toggle is not safe against itself: on a healthy store,
    when two toggle requests for one pair that has no bookmark are
    interleaved at the [await] of their lookups (both lookups are served
    before either write), both answer 200 and both create a record, so
    the bookmarks hold two records of the pair and are no longer at one
    record per pair. *)
Theorem toggles_interleaved_duplicate (w : World) (req1 req2 : Request) :
  healthy w ->
  bookmarked (store w) (BookmarkController.userId_of req1) (StringId (params_tid req1))
  = false ->
  toString (BookmarkController.userId_of req2) =
  toString (BookmarkController.userId_of req1) ->
  params_tid req2 = params_tid req1 ->
  fst (BookmarkController_rest.toggles_interleaved req1 req2 w)
  = Resolved (sendStatus 200, sendStatus 200) /\
  (exists r1 r2,
      bookmarks (store (snd (BookmarkController_rest.toggles_interleaved req1 req2 w)))
      = ((bookmarks (store w) ++ [r1]) ++ [r2])%list /\
      pair_of r1 = pair_of r2 /\
      joins (BookmarkController.userId_of req1) (StringId (params_tid req1)) r1 = true) /\
  ~ one_per_pair
      (bookmarks (store (snd (BookmarkController_rest.toggles_interleaved req1 req2 w)))).
Proof.
  intros Hw Habsent Hu Ht.
  rewrite (toggles_interleaved_run w req1 req2 Hw Habsent Hu Ht).
  cbn [fst snd store bookmarks bump_oid set_bookmarks].
  assert (Hpair : pair_of (mkJoin (fresh_oid (store w)) (BookmarkController.userId_of req1)
                                  (StringId (params_tid req1)))
                  = pair_of (mkJoin (fresh_oid
                                       (bump_oid
                                          (set_bookmarks (store w)
                                             (bookmarks (store w)
                                                ++ [mkJoin (fresh_oid (store w))
                                                      (BookmarkController.userId_of req1)
                                                      (StringId (params_tid req1))])%list)))
                                    (BookmarkController.userId_of req2)
                                    (StringId (params_tid req2)))).
  { unfold pair_of. cbn [jr_user jr_tuit toString]. rewrite Hu, Ht. reflexivity. }
  split; [reflexivity|]. split.
  - eexists; eexists. split; [reflexivity|]. split; [exact Hpair|]. apply joins_self.
  - unfold one_per_pair. rewrite List.map_app. intros Hnd.
    apply NoDup_app in Hnd as (_ & Hdisj & _).
    apply (Hdisj (pair_of (mkJoin (fresh_oid (store w))
                                  (BookmarkController.userId_of req1)
                                  (StringId (params_tid req1))))).
    + apply list_elem_of_In. apply in_map. apply in_or_app. right. left. reflexivity.
    + rewrite Hpair. apply list_elem_of_In. left. reflexivity.
Qed.

Lemma toggles_interleaved_duplicate_witness :
  healthy Sample.up /\
  let req := Sample.request "a1" "01" "" (Sample.user "" "") None in
  bookmarked (store Sample.up) (BookmarkController.userId_of req)
             (StringId (params_tid req)) = false /\
  fst (BookmarkController_rest.toggles_interleaved req req Sample.up)
  = Resolved (sendStatus 200, sendStatus 200) /\
  (exists r1 r2,
      bookmarks (store (snd (BookmarkController_rest.toggles_interleaved req req Sample.up)))
      = ((bookmarks (store Sample.up) ++ [r1]) ++ [r2])%list /\
      pair_of r1 = pair_of r2 /\
      joins (BookmarkController.userId_of req) (StringId (params_tid req)) r1 = true) /\
  ~ one_per_pair
      (bookmarks (store (snd (BookmarkController_rest.toggles_interleaved req req
                                Sample.up)))).
Proof.
  assert (H : healthy Sample.up) by (intros q; reflexivity).
  split; [exact H|]. cbv zeta. split; [reflexivity|].
  exact (toggles_interleaved_duplicate Sample.up
           (Sample.request "a1" "01" "" (Sample.user "" "") None)
           (Sample.request "a1" "01" "" (Sample.user "" "") None)
           H eq_refl eq_refl eq_refl).
Defined.

(** The cut of signup is signup. *)
Lemma signup_cut `{Bcrypt} (req : Request) (w : World) :
  (looked <- launch (AuthenticationController_rest.signup_lookup req) ;;
   AuthenticationController_rest.signup_finish req looked) w =
  AuthenticationController.signup req w.
Proof.
  unfold AuthenticationController_rest.signup_finish,
    AuthenticationController_rest.signup_lookup,
    AuthenticationController.signup, UserDao.findUserByUsername.
  rewrite bind_launch_query. unfold bind, await, query.
  destruct (faults w (Q_findUserByUsername _)); reflexivity.
Qed.

Lemma signups_interleaved_run `{Bcrypt} (w : World) (req1 req2 : Request) :
  healthy w ->
  username_taken (store w) (username (body req1)) = false ->
  username (body req2) = username (body req1) ->
  let d1 := mkDoc (fresh_oid (store w))
                  (with_password (bcrypt_hash (password (body req1)) saltRounds)
                                 (body req1)) in
  let d2 := mkDoc (fresh_oid (with_user (store w) d1))
                  (with_password (bcrypt_hash (password (body req2)) saltRounds)
                                 (body req2)) in
  AuthenticationController_rest.signups_interleaved req1 req2 w =
  (Resolved
     (Resolved (json_user (set_password "*****" d1), Some (set_password "*****" d1)),
      Resolved (json_user (set_password "*****" d2), Some (set_password "*****" d2))),
   mkWorld (with_user (with_user (store w) d1) d2) (faults w)).
Proof.
  intros Hw Hfree Hsame d1 d2.
  assert (Hfree2 : username_taken (store w) (username (body req2)) = false)
    by (rewrite Hsame; exact Hfree).
  unfold AuthenticationController_rest.signups_interleaved,
    AuthenticationController_rest.signup_lookup, UserDao.findUserByUsername.
  change (username (with_password _ (body req1))) with (username (body req1)).
  change (username (with_password _ (body req2))) with (username (body req2)).
  rewrite !bind_launch_query. rewrite !(Hw _).
  rewrite (not_taken_find _ _ Hfree), (not_taken_find _ _ Hfree2).
  unfold AuthenticationController_rest.signup_finish, await.
  unfold bind at 1. unfold launch at 1. unfold bind at 1. unfold bind at 1.
  unfold UserDao.createUser at 1.
  rewrite (command_healthy w) by exact Hw. cbn [fst snd ret].
  unfold bind at 1. unfold launch at 1. unfold bind at 1. unfold bind at 1.
  unfold UserDao.createUser.
  rewrite command_healthy by (apply healthy_after; exact Hw).
  reflexivity.
Qed.

(** X24. Signup is not safe against itself: on a healthy store, when
    two signup requests under one free username are interleaved at the
    [await] of their lookups (both lookups are served before either
    creation), neither is answered 403, both create a user, and the store
    ends with two users of that username: usernames are no longer
    distinct. *)
Theorem signups_interleaved_share_a_username `{Bcrypt} (w : World) (req1 req2 : Request) :
  healthy w ->
  username_taken (store w) (username (body req1)) = false ->
  username (body req2) = username (body req1) ->
  (exists d1 d2,
      fst (AuthenticationController_rest.signups_interleaved req1 req2 w) =
      Resolved
        (Resolved (json_user (set_password "*****" d1), Some (set_password "*****" d1)),
         Resolved (json_user (set_password "*****" d2), Some (set_password "*****" d2))) /\
      users (store (snd (AuthenticationController_rest.signups_interleaved req1 req2 w)))
      = ((users (store w) ++ [d1]) ++ [d2])%list /\
      username (fields d1) = username (body req1) /\
      username (fields d2) = username (body req1)) /\
  ~ unique_usernames
      (store (snd (AuthenticationController_rest.signups_interleaved req1 req2 w))).
Proof.
  intros Hw Hfree Hsame.
  rewrite (signups_interleaved_run w req1 req2 Hw Hfree Hsame).
  cbn [fst snd store]. split.
  - eexists; eexists. split; [reflexivity|]. split; [reflexivity|].
    split; [reflexivity | exact Hsame].
  - unfold unique_usernames. cbn [with_user bump_oid set_users users].
    rewrite List.map_app. intros Hnd.
    apply NoDup_app in Hnd as (_ & Hdisj & _).
    apply (Hdisj (username (body req1))).
    + apply list_elem_of_In. rewrite List.map_app. apply in_or_app. right.
      left. reflexivity.
    + apply list_elem_of_In. left. cbn. exact Hsame.
Qed.

Lemma signups_interleaved_share_a_username_witness :
  healthy Sample.up /\
  username_taken (store Sample.up) "dave" = false /\
  let req1 := Sample.request "" "" "" (Sample.user "dave" "secret") None in
  let req2 := Sample.request "" "" "" (Sample.user "dave" "other") None in
  (exists d1 d2,
      fst (@AuthenticationController_rest.signups_interleaved Sample.tagged req1 req2
             Sample.up) =
      Resolved
        (Resolved (json_user (set_password "*****" d1), Some (set_password "*****" d1)),
         Resolved (json_user (set_password "*****" d2), Some (set_password "*****" d2))) /\
      users (store (snd (@AuthenticationController_rest.signups_interleaved Sample.tagged
                           req1 req2 Sample.up)))
      = ((users (store Sample.up) ++ [d1]) ++ [d2])%list /\
      username (fields d1) = "dave" /\
      username (fields d2) = "dave") /\
  ~ unique_usernames
      (store (snd (@AuthenticationController_rest.signups_interleaved Sample.tagged
                     req1 req2 Sample.up))).
Proof.
  assert (H : healthy Sample.up) by (intros q; reflexivity).
  split; [exact H|]. split; [reflexivity|].
  exact (@signups_interleaved_share_a_username Sample.tagged Sample.up
           (Sample.request "" "" "" (Sample.user "dave" "secret") None)
           (Sample.request "" "" "" (Sample.user "dave" "other") None)
           H eq_refl eq_refl).
Defined.
